(** * improver: ensemble copula coupling utilities and vertical integration

    A shallow embedding of

    - [improver/ensemble_copula_coupling/ensemble_copula_coupling_utilities.py]
    - [improver/utilities/vertical.py]

    and the properties of these functions.

    Conventions of the embedding.

    - Python functions that can raise return [result A]: [Ok a] for a
      returned value and [Raise e] for a raised exception.
    - A number is modelled by its value, a rational ([Q]).  A Python float
      or a float64 element is a binary64 number and a float32 element a
      binary32 number; the arithmetic of floats and the conversions between
      the types round to the nearest number of the format, ties to even
      ([round64], [round32]).  Infinities and NaN are no values of the model:
      the statements that depend on it keep their numbers within the finite
      range of the format.
    - numpy arrays are a dtype, a shape and the elements in C order.
    - iris cubes are modelled by the parts the functions read and write; each
      module states the view of the cube it uses. *)

From Stdlib Require Import QArith Qround Qabs Qpower Lqa Lia List String ZArith Bool.
From stdpp Require Import gmap strings list.

Local Open Scope string_scope.
Local Open Scope list_scope.

(** ** Exceptions and results *)

Inductive exception : Type :=
| ValueError (msg : string)
| KeyError (msg : string)
| CoordinateNotFoundError (msg : string)
| ZeroDivisionError (msg : string)
| AttributeError (msg : string)
| IndexError (msg : string)
| OverflowError (msg : string).

Inductive result (A : Type) : Type :=
| Ok (a : A)
| Raise (e : exception).

Arguments Ok {A} a.
Arguments Raise {A} e.

Definition bind {A B : Type} (r : result A) (k : A -> result B) : result B :=
  match r with
  | Ok a => k a
  | Raise e => Raise e
  end.

Notation "'let!' x ':=' r 'in' k" := (bind r (fun x => k))
  (at level 10, x name, r at level 100, k at level 200).

(** A [for] loop over a list whose body can raise. *)
Fixpoint for_each {A S : Type} (l : list A) (body : S -> A -> result S)
    (s : S) : result S :=
  match l with
  | [] => Ok s
  | x :: l' => let! s' := body s x in for_each l' body s'
  end.

(** [names msg part]: the text [part] occurs in the message [msg]. *)
Definition names (msg part : string) : Prop :=
  exists pre post : string, msg = (pre ++ part ++ post)%string.

(** ** Floating-point numbers *)

(** The nearest integer, ties to the even one. *)
Definition round_half_even (q : Q) : Z :=
  let f := Qfloor q in
  match Qcompare (q - inject_Z f) (1 # 2) with
  | Lt => f
  | Gt => (f + 1)%Z
  | Eq => if Z.even f then f else (f + 1)%Z
  end.

(** For a positive [q], the exponent [l] with [2^l <= q < 2^(l+1)]. *)
Definition log2_floor (q : Q) : Z :=
  let l := (Z.log2 (Qnum q) - Z.log2 (Zpos (Qden q)))%Z in
  if Qle_bool (2 ^ l) q then l else (l - 1)%Z.

(** The number nearest to [q], ties to even, among the binary floating-point
    numbers with [prec] bits of precision and least exponent [emin] (the
    multiples [m * 2^e] with [|m| < 2^prec] and [emin <= e]); the exponent has
    no upper limit here. *)
Definition round_to (prec emin : Z) (q : Q) : Q :=
  if Qeq_bool q 0 then 0%Q
  else
    let a := Qabs q in
    let e := Z.max (log2_floor a - prec + 1) emin in
    let m := round_half_even (a / 2 ^ e) in
    let r := (inject_Z m * 2 ^ e)%Q in
    Qred (if Qle_bool 0 q then r else - r).

(** binary64 (Python's float, numpy's float64) and binary32 (float32). *)
Definition round64 : Q -> Q := round_to 53 (-1074).
Definition round32 : Q -> Q := round_to 24 (-149).

(** The largest finite numbers of the two formats. *)
Definition float64_max : Q := inject_Z ((2 ^ 53 - 1) * 2 ^ 971).
Definition float32_max : Q := inject_Z ((2 ^ 24 - 1) * 2 ^ 104).

(** The arithmetic of float64. *)
Definition fadd (a b : Q) : Q := round64 (a + b).
Definition fsub (a b : Q) : Q := round64 (a - b).
Definition fmul (a b : Q) : Q := round64 (a * b).
Definition fdiv (a b : Q) : Q := round64 (a / b).

(** [float(k)] of a Python int. *)
Definition py_float (k : Z) : result Q :=
  if (2 ^ 1024 - 2 ^ 970 <=? Z.abs k)%Z then
    Raise (OverflowError "int too large to convert to float")
  else Ok (round64 (inject_Z k)).

(** Python's true division of floats. *)
Definition py_truediv (a b : Q) : result Q :=
  if Qeq_bool b 0 then Raise (ZeroDivisionError "float division by zero")
  else Ok (fdiv a b).

(** ** numpy arrays *)

Inductive dtype : Type := int64 | uint64 | float32 | float64 | object_.

(** numpy's array-with-array type promotion on these dtypes. *)
Definition promote_types (a b : dtype) : dtype :=
  match a, b with
  | object_, _ | _, object_ => object_
  | int64, int64 => int64
  | uint64, uint64 => uint64
  | float32, float32 => float32
  | _, _ => float64
  end.

(** The integer part of a number (rounding towards zero). *)
Definition truncate (v : Q) : Z := Z.quot (Qnum v) (Zpos (Qden v)).

(** The value [v] has a finite value in the dtype. *)
Definition representable (d : dtype) (v : Q) : bool :=
  match d with
  | int64 => (- 2 ^ 63 <=? truncate v)%Z && (truncate v <? 2 ^ 63)%Z
  | uint64 => (0 <=? truncate v)%Z && (truncate v <? 2 ^ 64)%Z
  | float32 => Qle_bool (Qabs (round32 v)) float32_max
  | float64 => Qle_bool (Qabs (round64 v)) float64_max
  | object_ => true
  end.

(** The conversion of an element of dtype [from] to the dtype [to], for a
    value that is representable there: none between equal dtypes, from float32
    to float64 and to Python objects, else rounding to the nearest float or
    truncation to an integer. *)
Definition astype (from to : dtype) (v : Q) : Q :=
  match from, to with
  | int64, int64 | uint64, uint64 | float32, float32 | float64, float64
  | float32, float64 | _, object_ => v
  | _, float64 => round64 v
  | _, float32 => round32 v
  | _, int64 | _, uint64 => inject_Z (truncate v)
  end.

Record ndarray : Type := mk_ndarray {
  arr_dtype : dtype;
  arr_shape : list nat;
  arr_flat : list Q
}.

Definition ndim (a : ndarray) : nat := length (arr_shape a).

Definition prod_shape (s : list nat) : nat := fold_right Nat.mul 1%nat s.

(** A Python or numpy number passed as an argument, given by its value. *)
Inductive number : Type :=
| PyInt (z : Z)
| PyFloat (q : Q)
| NpScalar (d : dtype) (q : Q).

(** The dtype numpy gives the number in an array: a Python int is an int64
    where it fits, a uint64 up to [2^64 - 1] and a Python object beyond. *)
Definition number_dtype (x : number) : dtype :=
  match x with
  | PyInt z =>
      if (- 2 ^ 63 <=? z)%Z && (z <? 2 ^ 63)%Z then int64
      else if (0 <=? z)%Z && (z <? 2 ^ 64)%Z then uint64
      else object_
  | PyFloat _ => float64
  | NpScalar d _ => d
  end.

Definition number_value (x : number) : Q :=
  match x with
  | PyInt z => inject_Z z
  | PyFloat q => q
  | NpScalar _ q => q
  end.

(** The conversion of a number to a dtype.  Where the number has no finite
    value in the dtype numpy overflows (to an infinity, to another integer or
    with an error, by type and version); the model reports an
    [OverflowError] there. *)
Definition cast (d : dtype) (x : number) : result Q :=
  if representable d (number_value x) then
    Ok (astype (number_dtype x) d (number_value x))
  else Raise (OverflowError "the number is out of bounds for the dtype").

(** [np.array([x])] *)
Definition np_array_singleton (x : number) : ndarray :=
  mk_ndarray (number_dtype x) [1%nat] [number_value x].

(** [np.full(shape, x, dtype=d)] *)
Definition np_full (shape : list nat) (x : number) (d : dtype)
  : result ndarray :=
  let! v := cast d x in
  Ok (mk_ndarray d shape (replicate (prod_shape shape) v)).

(** The elements of an array converted to a dtype. *)
Definition elements_as (d : dtype) (a : ndarray) : list Q :=
  map (astype (arr_dtype a) d) (arr_flat a).

(** [np.concatenate(arrays)] on 1-d arrays (axis 0): the elements are
    converted to the promoted dtype of the arrays. *)
Definition np_concatenate_1d (arrays : list ndarray) : result ndarray :=
  match arrays with
  | [] => Raise (ValueError "need at least one array to concatenate")
  | a :: rest =>
      if forallb (fun x => Nat.eqb (ndim x) 1) arrays then
        let d := fold_left promote_types (map arr_dtype rest) (arr_dtype a) in
        Ok (mk_ndarray d
              [length (concat (map (elements_as d) arrays))]
              (concat (map (elements_as d) arrays)))
      else
        Raise (ValueError
                 "all the input arrays must have same number of dimensions")
  end.

(** The rows of a 2-d array. *)
Definition nrows (a : ndarray) : nat := nth 0 (arr_shape a) 0%nat.
Definition ncols (a : ndarray) : nat := nth 1 (arr_shape a) 0%nat.

Definition row (a : ndarray) (i : nat) : list Q :=
  firstn (ncols a) (skipn (i * ncols a) (arr_flat a)).

Definition rows (a : ndarray) : list (list Q) :=
  map (row a) (seq 0 (nrows a)).

(** [np.concatenate((a, b, c), axis=1)] on three 2-d arrays. *)
Definition np_concatenate_axis1 (a b c : ndarray) : result ndarray :=
  if negb (Nat.eqb (ndim a) 2 && Nat.eqb (ndim b) 2 && Nat.eqb (ndim c) 2) then
    Raise (ValueError
             "all the input arrays must have same number of dimensions")
  else if negb (Nat.eqb (nrows a) (nrows b) && Nat.eqb (nrows b) (nrows c)) then
    Raise (ValueError
             "all the input array dimensions except for the concatenation axis must match exactly")
  else
    let d :=
      promote_types (promote_types (arr_dtype a) (arr_dtype b))
        (arr_dtype c) in
    Ok (mk_ndarray d
          [nrows a; (ncols a + ncols b + ncols c)%nat]
          (concat (map (fun i =>
                          map (astype (arr_dtype a) d) (row a i)
                          ++ map (astype (arr_dtype b) d) (row b i)
                          ++ map (astype (arr_dtype c) d) (row c i))
                     (seq 0 (nrows a))))).

(** [array.reshape(shape)] *)
Definition np_reshape (a : ndarray) (shape : list nat) : result ndarray :=
  if Nat.eqb (prod_shape shape) (length (arr_flat a)) then
    Ok (mk_ndarray (arr_dtype a) shape (arr_flat a))
  else
    Raise (ValueError "cannot reshape array into the requested shape").

(** [t[i]] on a tuple or list *)
Definition py_index {A : Type} (l : list A) (i : nat) : result A :=
  match nth_error l i with
  | Some x => Ok x
  | None => Raise (IndexError "index out of range")
  end.

(** ** ensemble_copula_coupling_utilities.py: endpoint padding *)

Definition concatenate_2d_array_with_2d_array_endpoints
    (array_2d : ndarray) (low_endpoint high_endpoint : number)
  : result ndarray :=
  let! n := py_index (arr_shape array_2d) 0 in
  let! lower_array := np_full [n; 1%nat] low_endpoint (arr_dtype array_2d) in
  let! n := py_index (arr_shape array_2d) 0 in
  let! upper_array := np_full [n; 1%nat] high_endpoint (arr_dtype array_2d) in
  np_concatenate_axis1 lower_array array_2d upper_array.

Definition insert_lower_and_upper_endpoint_to_1d_array
    (array_1d : ndarray) (low_endpoint high_endpoint : number)
  : result ndarray :=
  let lower_array := np_array_singleton low_endpoint in
  let upper_array := np_array_singleton high_endpoint in
  np_concatenate_1d [lower_array; array_1d; upper_array].

(** ** ensemble_copula_coupling_utilities.py: percentiles *)

Definition set_last (l : list Q) (x : Q) : list Q :=
  match l with
  | [] => []
  | _ :: _ => removelast l ++ [x]
  end.

(** The float64 of an index or a count of a numpy array. *)
Definition np_float64 (z : Z) : Q := round64 (inject_Z z).

(** [np.linspace(start, stop, num)] with the default [endpoint=True], on
    float64. *)
Definition np_linspace (start stop : Q) (num : Z) : result (list Q) :=
  if (num <? 0)%Z then
    Raise (ValueError "Number of samples must be non-negative.")
  else
    let div := np_float64 (num - 1) in
    let y := map (fun i => np_float64 (Z.of_nat i)) (seq 0 (Z.to_nat num)) in
    let delta := fsub stop start in
    let y :=
      if (1 <? num)%Z then
        let step := fdiv delta div in
        if Qeq_bool step 0 then map (fun v => fmul (fdiv v div) delta) y
        else map (fun v => fmul v step) y
      else map (fun v => fmul v delta) y in
    let y := map (fun v => fadd v start) y in
    Ok (if (1 <? num)%Z then set_last y stop else y).

(** The state of Python's [random] module: the values that the coming calls
    of [random.random()] return, each a float in the interval [0, 1). *)
Definition random_state : Type := nat -> Q.

(** [random.uniform(a, b)] is [a + (b - a) * random.random()]. *)
Definition random_uniform (a b : Q) (u : Q) : Q := fadd a (fmul (fsub b a) u).

Fixpoint insert_sorted (x : Q) (l : list Q) : list Q :=
  match l with
  | [] => [x]
  | y :: l' => if Qle_bool y x then y :: insert_sorted x l' else x :: l
  end.

(** [sorted(l)] *)
Definition sorted (l : list Q) : list Q := fold_left (fun acc x => insert_sorted x acc) l [].

Definition choose_set_of_percentiles
    (no_of_percentiles : Z) (sampling : string) (st : random_state)
  : result (list Q * random_state) :=
  let! percentiles_st :=
    (if String.eqb sampling "quantile" then
       let! d := py_float (1 + no_of_percentiles) in
       let! lo := py_truediv 1 d in
       let! d := py_float (1 + no_of_percentiles) in
       let! n := py_float no_of_percentiles in
       let! hi := py_truediv n d in
       let! percentiles := np_linspace lo hi no_of_percentiles in
       Ok (percentiles, st)
     else if String.eqb sampling "random" then
       let count := Z.to_nat no_of_percentiles in
       let! percentiles :=
         for_each (seq 0 count)
           (fun percentiles i =>
              let! d := py_float (1 + no_of_percentiles) in
              let! lo := py_truediv 1 d in
              let! d := py_float (1 + no_of_percentiles) in
              let! n := py_float no_of_percentiles in
              let! hi := py_truediv n d in
              Ok (percentiles ++ [random_uniform lo hi (st i)]))
           [] in
       Ok (sorted percentiles, fun i => st (i + count)%nat)
     else
       Raise (ValueError
                ("The " ++ sampling
                 ++ " sampling option is not yet implemented.")%string)) in
  Ok (map (fun item => fmul item 100) (fst percentiles_st),
      snd percentiles_st).

(** ** iris cubes, as the ensemble copula coupling utilities use them *)

(** [a or b] on optional strings: [None] and the empty string are false. *)
Definition py_or (a : option string) (b : string) : string :=
  match a with
  | Some s => if String.eqb s "" then b else s
  | None => b
  end.

Record Coord : Type := mk_Coord {
  coord_standard_name : option string;
  coord_long_name : option string;
  coord_var_name : option string;
  coord_units : string;
  coord_points : ndarray
}.

(** [coord.name()] *)
Definition coord_name (c : Coord) : string :=
  py_or (coord_standard_name c)
    (py_or (coord_long_name c) (py_or (coord_var_name c) "unknown")).

Definition option_string_eqb (a b : option string) : bool :=
  match a, b with
  | Some x, Some y => String.eqb x y
  | None, None => true
  | _, _ => false
  end.

(** Two coordinates have the same definition (names and units); this is what
    a cube compares when it refuses a duplicate coordinate. *)
Definition coord_defn_eqb (a b : Coord) : bool :=
  option_string_eqb (coord_standard_name a) (coord_standard_name b)
  && option_string_eqb (coord_long_name a) (coord_long_name b)
  && option_string_eqb (coord_var_name a) (coord_var_name b)
  && String.eqb (coord_units a) (coord_units b).

Definition Qlt_bool (x y : Q) : bool := negb (Qle_bool y x).

Fixpoint strictly_increasing (l : list Q) : bool :=
  match l with
  | x :: ((y :: _) as l') => Qlt_bool x y && strictly_increasing l'
  | _ => true
  end.

Definition strictly_monotonic (l : list Q) : bool :=
  strictly_increasing l || strictly_increasing (rev l).

(** [iris.coords.DimCoord(points, long_name=.., units=.., var_name=..)]: the
    points of a dimension coordinate are one-dimensional and strictly
    monotonic. *)
Definition DimCoord (points : ndarray) (long_name units var_name : string)
  : result Coord :=
  if negb (Nat.eqb (ndim points) 1) then
    Raise (ValueError "The points array must be 1-dimensional.")
  else if negb (strictly_monotonic (arr_flat points)) then
    Raise (ValueError "The points array must be strictly monotonic.")
  else
    Ok (mk_Coord None (Some long_name) (Some var_name) units points).

Record CubeMetadata : Type := mk_CubeMetadata {
  standard_name : option string;
  long_name : option string;
  var_name : option string;
  units : string;
  attributes : gmap string string;
  cell_methods : list string
}.

Record Cube : Type := mk_Cube {
  metadata : CubeMetadata;
  data : ndarray;
  dim_coords_and_dims : list (Coord * nat);
  aux_coords_and_dims : list (Coord * list nat);
  derived_coords_and_dims : list (Coord * list nat)
}.

Definition shape (c : Cube) : list nat := arr_shape (data c).

(** [cube.dim_coords], [cube.aux_coords] and [cube.derived_coords] *)
Definition dim_coords (c : Cube) : list Coord := map fst (dim_coords_and_dims c).
Definition aux_coords (c : Cube) : list Coord := map fst (aux_coords_and_dims c).
Definition derived_coords (c : Cube) : list Coord :=
  map fst (derived_coords_and_dims c).

Definition all_coords_and_dims (c : Cube) : list (Coord * list nat) :=
  map (fun cd => (fst cd, [snd cd])) (dim_coords_and_dims c)
  ++ aux_coords_and_dims c ++ derived_coords_and_dims c.

(** [cube.coords(name, dim_coords=flag)] *)
Definition coords (c : Cube) (name : string) (dim_coords_flag : bool)
  : list Coord :=
  List.filter (fun co => String.eqb (coord_name co) name)
    (if dim_coords_flag then dim_coords c
     else aux_coords c ++ derived_coords c).

(** [cube.coord_dims(name)]: exactly one coordinate of the cube must carry the
    name; the result is the tuple of dimensions it was added with. *)
Definition coord_dims (c : Cube) (name : string) : result (list nat) :=
  match List.filter (fun cd => String.eqb (coord_name (fst cd)) name)
          (all_coords_and_dims c) with
  | [cd] => Ok (snd cd)
  | _ =>
      Raise (CoordinateNotFoundError
               ("Expected to find exactly 1 coordinate matching " ++ name)%string)
  end.

(** [iris.cube.Cube(data, **metadata)]: a cube without coordinates. *)
Definition new_Cube (d : ndarray) (m : CubeMetadata) : Cube :=
  mk_Cube m d [] [] [].

Definition has_coord (c : Cube) (co : Coord) : bool :=
  existsb (fun cd => coord_defn_eqb (fst cd) co) (all_coords_and_dims c).

(** [cube.add_dim_coord(coord, dim)] *)
Definition add_dim_coord (c : Cube) (co : Coord) (data_dim : nat)
  : result Cube :=
  if has_coord c co then
    Raise (ValueError "Duplicate coordinates are not permitted.")
  else if existsb (fun cd => Nat.eqb (snd cd) data_dim) (dim_coords_and_dims c)
  then Raise (ValueError "A dim_coord is already associated with the dimension.")
  else if negb (Nat.ltb data_dim (length (shape c))) then
    Raise (ValueError "The cube does not have the specified dimension.")
  else if negb (Nat.eqb (nth 0 (arr_shape (coord_points co)) 0%nat)
                  (nth data_dim (shape c) 0%nat)) then
    Raise (ValueError "Unequal lengths.")
  else
    Ok (mk_Cube (metadata c) (data c)
          (dim_coords_and_dims c ++ [(co, data_dim)])
          (aux_coords_and_dims c) (derived_coords_and_dims c)).

(** The shape of a coordinate agrees with a cube of shape [cube_shape] along
    [data_dims]; a coordinate without dimensions holds one point. *)
Definition dims_match (cube_shape : list nat) (co : Coord)
    (data_dims : list nat) : bool :=
  match data_dims with
  | [] => bool_decide (arr_shape (coord_points co) = [1%nat])
  | _ :: _ =>
      Nat.eqb (length data_dims) (ndim (coord_points co))
      && forallb
           (fun sd =>
              Nat.ltb (snd sd) (length cube_shape)
              && Nat.eqb (fst sd) (nth (snd sd) cube_shape 0%nat))
           (combine (arr_shape (coord_points co)) data_dims)
  end.

(** [cube.add_aux_coord(coord, dims)] *)
Definition add_aux_coord (c : Cube) (co : Coord) (data_dims : list nat)
  : result Cube :=
  if has_coord c co then
    Raise (ValueError "Duplicate coordinates are not permitted.")
  else if negb (dims_match (shape c) co data_dims) then
    Raise (ValueError "The coordinate does not fit the cube along the dimensions.")
  else
    Ok (mk_Cube (metadata c) (data c) (dim_coords_and_dims c)
          (aux_coords_and_dims c ++ [(co, data_dims)])
          (derived_coords_and_dims c)).

(** ** ensemble_copula_coupling_utilities.py: create_cube_with_percentiles *)

(** [np.float32(percentiles)] of a list of floats: every value is rounded to
    float32. *)
Definition np_float32 (l : list Q) : ndarray :=
  mk_ndarray float32 [length l] (map round32 l).

Section PercentileCube.

(** The units library: whether [cf_units.Unit] accepts the text. *)
Variable unit_is_valid : string -> bool.

(** [cube.units = u] *)
Definition set_units (c : Cube) (u : string) : result Cube :=
  if unit_is_valid u then
    Ok (mk_Cube
          (mk_CubeMetadata (standard_name (metadata c)) (long_name (metadata c))
             (var_name (metadata c)) u (attributes (metadata c))
             (cell_methods (metadata c)))
          (data c) (dim_coords_and_dims c) (aux_coords_and_dims c)
          (derived_coords_and_dims c))
  else Raise (ValueError ("Failed to parse unit " ++ u)%string).

(** The three loops read [template_cube.coord_dims(coord)] for the coordinate
    object [coord] they are at, which is the dimension (or tuple of dimensions)
    the template stores with that coordinate; [coord.copy()] is the same
    coordinate value. *)
Definition create_cube_with_percentiles
    (percentiles : list Q) (template_cube : Cube) (cube_data : ndarray)
    (custom_name : option string) (cube_unit : option string)
  : result Cube :=
  let percentile_coord_name := py_or custom_name "percentile_over_realization" in
  let! percentile_coord :=
    DimCoord (np_float32 percentiles) percentile_coord_name "%"
      percentile_coord_name in
  let metadata_dict := metadata template_cube in
  let result := new_Cube cube_data metadata_dict in
  let! result :=
    match cube_unit with
    | Some u => set_units result u
    | None => Ok result
    end in
  let! result := add_dim_coord result percentile_coord 0 in
  let! result :=
    for_each (dim_coords_and_dims template_cube)
      (fun result cd => add_dim_coord result (fst cd) (snd cd + 1))
      result in
  let! result :=
    for_each (aux_coords_and_dims template_cube)
      (fun result cd =>
         add_aux_coord result (fst cd) (map (fun dim => (dim + 1)%nat) (snd cd)))
      result in
  let! result :=
    for_each (derived_coords_and_dims template_cube)
      (fun result cd =>
         add_aux_coord result (fst cd) (map (fun dim => (dim + 1)%nat) (snd cd)))
      result in
  Ok result.

End PercentileCube.

(** ** ensemble_copula_coupling_utilities.py: get_bounds_of_distribution *)

(** An entry of the constants table [bounds_for_ecdf]: the pair of bounds and
    the name of their unit ([entry.value] and [entry.units]). *)
Module Bounds.
Record t : Type := mk { value : number * number; units : string }.
End Bounds.

Definition newline : string := String (Ascii.ascii_of_nat 10) EmptyString.

Fixpoint join (sep : string) (l : list string) : string :=
  match l with
  | [] => ""
  | [x] => x
  | x :: l' => (x ++ sep ++ join sep l')%string
  end.

(** [np.array(pair)] of a pair of numbers *)
Definition np_array_pair (p : number * number) : ndarray :=
  let d := promote_types (number_dtype (fst p)) (number_dtype (snd p)) in
  mk_ndarray d [2%nat]
    [astype (number_dtype (fst p)) d (number_value (fst p));
     astype (number_dtype (snd p)) d (number_value (snd p))].

Section BoundsOfDistribution.

(** The constants table of
    [improver.ensemble_copula_coupling.ensemble_copula_coupling_constants]. *)
Variable bounds_for_ecdf : gmap string Bounds.t.

(** The units library: [cf_units.Unit(name)] and [unit.convert(array, to)];
    [None] stands for the library's refusal (a [ValueError]). *)
Variable Unit : Type.
Variable Unit_of_string : string -> option Unit.
Variable Unit_convert : Unit -> ndarray -> Unit -> option ndarray.

(** The text Python prints for one entry of the table. *)
Variable repr_Bounds : Bounds.t -> string.

(** The text of the table: every key with its entry, between braces.  (The
    order of the entries is the order of the map's list of entries.) *)
Definition repr_table (table : gmap string Bounds.t) : string :=
  ("{"
   ++ join ", "
        (map (fun kv => "'" ++ fst kv ++ "': " ++ repr_Bounds (snd kv))
           (map_to_list table))
   ++ "}")%string.

Definition bounds_key_error_message (bounds_pairing_key : string) : string :=
  ("The bounds_pairing_key: " ++ bounds_pairing_key
   ++ " is not recognised within bounds_for_ecdf "
   ++ repr_table bounds_for_ecdf ++ ". " ++ newline
   ++ "Error: " ++ "'" ++ bounds_pairing_key ++ "'")%string.

Definition get_bounds_of_distribution
    (bounds_pairing_key : string) (desired_units : Unit) : result ndarray :=
  match bounds_for_ecdf !! bounds_pairing_key with
  | None => Raise (KeyError (bounds_key_error_message bounds_pairing_key))
  | Some entry =>
      let bounds_pairing := Bounds.value entry in
      let bounds_pairing_units := Bounds.units entry in
      match Unit_of_string bounds_pairing_units with
      | None => Raise (ValueError "Failed to parse unit")
      | Some bounds_pairing_units =>
          match Unit_convert bounds_pairing_units
                  (np_array_pair bounds_pairing) desired_units with
          | None => Raise (ValueError "Unable to convert between the units")
          | Some bounds_pairing => Ok bounds_pairing
          end
      end
  end.

End BoundsOfDistribution.

(** ** ensemble_copula_coupling_utilities.py: restore_non_probabilistic_dimensions *)

(** [l.pop(i)]: the list without its element at index [i]. *)
Definition py_pop {A : Type} (l : list A) (i : nat) : result (list A) :=
  if Nat.ltb i (length l) then Ok (firstn i l ++ skipn (S i) l)
  else Raise (IndexError "pop index out of range").

Definition is_nonempty {A : Type} (l : list A) : bool :=
  match l with
  | [] => false
  | _ :: _ => true
  end.

Section RestoreDimensions.

(** The text Python prints for a cube. *)
Variable repr_Cube : Cube -> string.

Definition not_first_dimension_message (name : string) (original_cube : Cube)
  : string :=
  ("The " ++ name ++ " coordinate is a dimension coordinate but is not "
   ++ "the first dimension coordinate in the cube: "
   ++ repr_Cube original_cube ++ "." ++ newline
   ++ "The ensure_dimension_is_the_first_dimension function "
   ++ "may be useful. ")%string.

Definition coordinate_not_available_message (name : string)
    (original_cube : Cube) : string :=
  ("A " ++ name ++ " coordinate is not available on the "
   ++ repr_Cube original_cube ++ " cube.")%string.

Definition restore_non_probabilistic_dimensions
    (array_to_reshape : ndarray) (original_cube : Cube)
    (input_probabilistic_dimension_name : string)
    (output_probabilistic_dimension_length : nat) : result ndarray :=
  let shape_to_reshape_to := shape original_cube in
  let! shape_to_reshape_to :=
    (if is_nonempty
          (coords original_cube input_probabilistic_dimension_name true)
     then
       let! dims :=
         coord_dims original_cube input_probabilistic_dimension_name in
       let! first_dim := py_index dims 0 in
       if Nat.eqb first_dim 0 then
         let! pat_coord_position :=
           coord_dims original_cube input_probabilistic_dimension_name in
         let! position := py_index pat_coord_position 0 in
         py_pop shape_to_reshape_to position
       else
         Raise (ValueError
                  (not_first_dimension_message
                     input_probabilistic_dimension_name original_cube))
     else if is_nonempty
               (coords original_cube input_probabilistic_dimension_name false)
     then Ok shape_to_reshape_to
     else
       Raise (CoordinateNotFoundError
                (coordinate_not_available_message
                   input_probabilistic_dimension_name original_cube))) in
  let shape_to_reshape_to :=
    [output_probabilistic_dimension_length] ++ shape_to_reshape_to in
  np_reshape array_to_reshape shape_to_reshape_to.

End RestoreDimensions.



(** ** utilities/vertical.py

    The view of a cube that [VerticalIntegration] uses: the coordinates that
    lie along the axis of integration, each a name with one point per level,
    and the data as one array (the remaining dimensions, flattened) per level.

    About the cube library the model takes that
    - [cube.extract] with a list of values keeps the levels whose point is
      among the values, in the cube's order, as a new cube, or gives [None]
      when no level is kept;
    - [cube.slices_over] visits the levels in order and gives, for every
      level, a cube of its own: storing the [data] of a slice stores it in
      that slice, and the cube that was sliced keeps its data. *)

Module Vertical.

Record Cube : Type := mk_Cube {
  coords : list (string * list Q);
  data : list (list Q)
}.

Record VerticalIntegration : Type := mk_VerticalIntegration {
  coord_name_to_integrate : string;
  start_point : option Q;
  end_point : option Q;
  direction_of_integration : string
}.

(** [VerticalIntegration.__init__] *)
Definition init (coord_name_to_integrate : string)
    (start_point end_point : option Q) (direction_of_integration : string)
  : result VerticalIntegration :=
  if negb (String.eqb direction_of_integration "upwards"
           || String.eqb direction_of_integration "downwards") then
    Raise (ValueError
             ("The specified direction of integration should be either "
              ++ "'upwards' or 'downwards'. " ++ direction_of_integration
              ++ " was specified.")%string)
  else
    Ok (mk_VerticalIntegration coord_name_to_integrate start_point end_point
          direction_of_integration).

(** [cube.coord(name).points] *)
Definition coord_points (cube : Cube) (name : string) : result (list Q) :=
  match List.filter (fun c => String.eqb (fst c) name) (coords cube) with
  | [c] => Ok (snd c)
  | _ =>
      Raise (CoordinateNotFoundError
               ("Expected to find exactly 1 coordinate matching " ++ name)%string)
  end.

(** [cube.coord(name).points = points] *)
Definition set_coord_points (cube : Cube) (name : string) (points : list Q)
  : Cube :=
  mk_Cube
    (map (fun c => if String.eqb (fst c) name then (fst c, points) else c)
       (coords cube))
    (data cube).

(** [np.diff(points)] *)
Fixpoint np_diff (points : list Q) : list Q :=
  match points with
  | x :: ((y :: _) as rest) => (y - x)%Q :: np_diff rest
  | _ => []
  end.

(** The elements of [l] at the positions where [mask] is true. *)
Definition select {A : Type} (mask : list bool) (l : list A) : list A :=
  map snd (List.filter (fun bx => fst bx) (combine mask l)).

(** [cube.extract(iris.Constraint(coord_values={name: values}))] *)
Definition extract (cube : Cube) (name : string) (values : list Q)
  : option Cube :=
  match coord_points cube name with
  | Raise _ => None
  | Ok points =>
      let mask := map (fun p => existsb (Qeq_bool p) values) points in
      if existsb (fun b => b) mask then
        Some (mk_Cube (map (fun c => (fst c, select mask (snd c))) (coords cube))
                (select mask (data cube)))
      else None
  end.

(** A slice of a cube at one level: the point of the coordinate there and the
    data of the level. *)
Record Slice : Type := mk_Slice {
  slice_point : Q;
  slice_data : list Q
}.

(** [cube.slices_over(name)] *)
Definition slices_over (cube : Cube) (name : string) : result (list Slice) :=
  let! points := coord_points cube name in
  Ok (map (fun pd => mk_Slice (fst pd) (snd pd)) (combine points (data cube))).

(** Python truth of an optional bound: [None] and zero are false. *)
Definition truthy (bound : option Q) : bool :=
  match bound with
  | Some q => negb (Qeq_bool q 0)
  | None => false
  end.

(** [bound and depth < bound] and [bound and depth > bound] *)
Definition and_below (bound : option Q) (depth : Q) : bool :=
  match bound with
  | Some q => truthy bound && Qlt_bool depth q
  | None => false
  end.

Definition and_above (bound : option Q) (depth : Q) : bool :=
  match bound with
  | Some q => truthy bound && Qlt_bool q depth
  | None => false
  end.

(** The value of [layer_sum]: the number it starts as, then an array. *)
Inductive Sum : Type :=
| Scalar (q : Q)
| Array (a : list Q).

Definition add_arrays (a b : list Q) : list Q :=
  map (fun xy => (fst xy + snd xy)%Q) (combine a b).

(** [layer_sum += array] *)
Definition iadd (layer_sum : Sum) (a : list Q) : Sum :=
  match layer_sum with
  | Scalar q => Array (map (fun v => (q + v)%Q) a)
  | Array s => Array (add_arrays s a)
  end.

Definition sum_values (layer_sum : Sum) : list Q :=
  match layer_sum with
  | Scalar q => [q]
  | Array a => a
  end.

Definition ensure_monotonic_in_chosen_direction
    (self : VerticalIntegration) (cube : Cube) : result Cube :=
  let coord_name := coord_name_to_integrate self in
  let direction := direction_of_integration self in
  let! points := coord_points cube coord_name in
  let increasing_order := forallb (fun d => Qlt_bool 0 d) (np_diff points) in
  if increasing_order && String.eqb direction "upwards" then Ok cube
  else if increasing_order && String.eqb direction "downwards" then
    Ok (set_coord_points cube coord_name (rev points))
  else if negb increasing_order && String.eqb direction "upwards" then
    Ok (set_coord_points cube coord_name (rev points))
  else if negb increasing_order && String.eqb direction "downwards" then
    Ok cube
  else Ok cube.

(** [zip(a, b, c)] *)
Definition zip3 {A B C : Type} (a : list A) (b : list B) (c : list C)
  : list (A * B * C) :=
  combine (combine a b) c.

(** [integrated_slice.data = values] *)
Definition set_slice_data (integrated_slice : Slice) (values : list Q)
  : Slice :=
  mk_Slice (slice_point integrated_slice) values.

(** The body of the loop of [process] for one level: the new [layer_sum] and
    the slice [integrated_slice] as the body leaves it. *)
Definition process_level (self : VerticalIntegration) (layer_sum : Sum)
    (upper_level_slice lower_level_slice integrated_slice : Slice)
  : Sum * Slice :=
  let upper_depth := slice_point upper_level_slice in
  let lower_depth := slice_point lower_level_slice in
  if and_below (start_point self) upper_depth
     || and_above (end_point self) lower_depth then
    let layer_depth := (upper_depth - lower_depth)%Q in
    let top_half_of_layer :=
      map (fun v => (v * (1 # 2) * layer_depth)%Q)
        (slice_data upper_level_slice) in
    let bottom_half_of_layer :=
      map (fun v => (v * (1 # 2) * layer_depth)%Q)
        (slice_data lower_level_slice) in
    let layer_sum :=
      iadd layer_sum (add_arrays bottom_half_of_layer top_half_of_layer) in
    (layer_sum, set_slice_data integrated_slice (sum_values layer_sum))
  else (layer_sum, integrated_slice).

Definition process (self : VerticalIntegration) (cube : Cube) : result Cube :=
  let name := coord_name_to_integrate self in
  let! points := coord_points cube name in
  let upper_levels := removelast points in
  let lower_levels := tl points in
  let upper_level_cube := extract cube name upper_levels in
  let lower_level_cube := extract cube name lower_levels in
  match upper_level_cube, lower_level_cube with
  | Some upper_level_cube, Some lower_level_cube =>
      let! upper_level_cube :=
        ensure_monotonic_in_chosen_direction self upper_level_cube in
      let! lower_level_cube :=
        ensure_monotonic_in_chosen_direction self lower_level_cube in
      let integrated_cube := lower_level_cube in
      let! upper_slices := slices_over upper_level_cube name in
      let! lower_slices := slices_over lower_level_cube name in
      let! integrated_slices := slices_over integrated_cube name in
      let levels_tuple := zip3 upper_slices lower_slices integrated_slices in
      let layer_sum_and_slices :=
        fold_left
          (fun state level =>
             let after :=
               process_level self (fst state) (fst (fst level))
                 (snd (fst level)) (snd level) in
             (fst after, snd state ++ [snd after]))
          levels_tuple (Scalar 0, []) in
      (* the slices that the loop has written are cubes of their own *)
      Ok integrated_cube
  | _, _ =>
      Raise (AttributeError "'NoneType' object has no attribute 'coord'")
  end.

End Vertical.


(** ** Example inputs *)

(** A table with one entry and a units library that knows kelvin and
    millikelvin. *)
Definition example_bounds_for_ecdf : gmap string Bounds.t :=
  {[ "air_temperature" := Bounds.mk (PyFloat 233, PyFloat 323) "K" ]}.

Definition example_Unit_of_string (s : string) : option string :=
  if String.eqb s "K" || String.eqb s "mK" then Some s else None.

Definition example_Unit_convert (from : string) (a : ndarray) (to : string)
  : option ndarray :=
  if String.eqb from "K" && String.eqb to "mK" then
    Some (mk_ndarray float64 (arr_shape a)
            (map (fun v => fmul v 1000) (arr_flat a)))
  else if String.eqb from to then Some a
  else None.

Definition example_unit_is_valid (s : string) : bool :=
  String.eqb s "K" || String.eqb s "mK" || String.eqb s "1".

(** [np.arange(n)] as float64 and [np.zeros(shape)]. *)
Definition np_arange (n : nat) : ndarray :=
  mk_ndarray float64 [n] (map (fun i => inject_Z (Z.of_nat i)) (seq 0 n)).

Definition np_zeros (shape : list nat) : ndarray :=
  mk_ndarray float64 shape (replicate (prod_shape shape) 0%Q).

Definition example_coord (name unit : string) (n : nat) : Coord :=
  mk_Coord None (Some name) None unit (np_arange n).

Definition example_metadata : CubeMetadata :=
  mk_CubeMetadata (Some "air_temperature") None None "K" ∅ [].

(** A cube of shape (5, 4, 3): realization, latitude, longitude, and a scalar
    coordinate for the forecast period. *)
Definition example_cube_543 : Cube :=
  mk_Cube example_metadata (np_zeros [5; 4; 3]%nat)
    [(example_coord "realization" "1" 5, 0%nat);
     (example_coord "latitude" "degrees" 4, 1%nat);
     (example_coord "longitude" "degrees" 3, 2%nat)]
    [(example_coord "forecast_period" "hours" 1, [])]
    [].

(** The same data with the realization coordinate on the second dimension. *)
Definition example_cube_453 : Cube :=
  mk_Cube example_metadata (np_zeros [4; 5; 3]%nat)
    [(example_coord "latitude" "degrees" 4, 0%nat);
     (example_coord "realization" "1" 5, 1%nat);
     (example_coord "longitude" "degrees" 3, 2%nat)]
    [(example_coord "forecast_period" "hours" 1, [])]
    [].

(** A template of shape (3, 3) with an auxiliary coordinate along its first
    dimension, a scalar coordinate and a derived coordinate over both
    dimensions. *)
Definition example_template_33 : Cube :=
  mk_Cube example_metadata (np_zeros [3; 3]%nat)
    [(example_coord "latitude" "degrees" 3, 0%nat);
     (example_coord "longitude" "degrees" 3, 1%nat)]
    [(example_coord "grid_row" "1" 3, [0%nat]);
     (example_coord "forecast_period" "hours" 1, [])]
    [(mk_Coord None (Some "altitude") None "m" (np_zeros [3; 3]%nat),
      [0%nat; 1%nat])].

(** A cube of shape (5, 4, 3) with an auxiliary coordinate that has the name
    of its realization coordinate. *)
Definition example_cube_two_realizations : Cube :=
  mk_Cube example_metadata (np_zeros [5; 4; 3]%nat)
    [(example_coord "realization" "1" 5, 0%nat)]
    [(mk_Coord None (Some "realization") None "m" (np_arange 4), [1%nat])]
    [].

Definition example_repr_Cube (c : Cube) : string := "<iris 'Cube'>".

(** ** Vocabulary of the statements *)

(** The dimension coordinates of a cube that carry a name, and its other
    (auxiliary and derived) coordinates that carry it. *)
Definition named_dim_coords (cube : Cube) (name : string)
  : list (Coord * nat) :=
  List.filter (fun cd => String.eqb (coord_name (fst cd)) name)
    (dim_coords_and_dims cube).

Definition named_other_coords (cube : Cube) (name : string)
  : list (Coord * list nat) :=
  List.filter (fun cd => String.eqb (coord_name (fst cd)) name)
    (aux_coords_and_dims cube ++ derived_coords_and_dims cube).

(** The percentile coordinate that [create_cube_with_percentiles] builds. *)
Definition percentile_coord (percentiles : list Q) (name : string) : Coord :=
  mk_Coord None (Some name) (Some name) "%" (np_float32 percentiles).

(** The percentiles have finite float32 values, and these are strictly
    monotonic. *)
Definition monotonic_as_float32 (percentiles : list Q) : bool :=
  forallb (fun p => Qle_bool (Qabs p) float32_max) percentiles
  && strictly_monotonic (map round32 percentiles).

(** The coordinates of a cube, in the order dimension, auxiliary, derived. *)
Definition all_coords (c : Cube) : list Coord :=
  map fst (dim_coords_and_dims c) ++ map fst (aux_coords_and_dims c)
  ++ map fst (derived_coords_and_dims c).

(** No two coordinates of the list have the same definition. *)
Definition distinct_definitions (l : list Coord) : Prop :=
  ForallOrdPairs (fun a b => coord_defn_eqb a b = false) l.

(** The consistency a cube of the library has: a dimension coordinate lies on
    a dimension of the data and has its length, no two dimension coordinates
    share a dimension, the other coordinates fit the data along their
    dimensions, and no two coordinates have the same definition. *)
Record Cube_wf (c : Cube) : Prop := mk_Cube_wf {
  wf_dim_coords :
    Forall
      (fun cd =>
         (snd cd < length (shape c))%nat
         /\ nth 0 (arr_shape (coord_points (fst cd))) 0%nat
            = nth (snd cd) (shape c) 0%nat)
      (dim_coords_and_dims c);
  wf_dims_distinct : List.NoDup (map snd (dim_coords_and_dims c));
  wf_other_coords :
    Forall (fun cd => dims_match (shape c) (fst cd) (snd cd) = true)
      (aux_coords_and_dims c ++ derived_coords_and_dims c);
  wf_definitions : distinct_definitions (all_coords c)
}.

Definition example_percentiles : list Q :=
  [5; 15; 25; 35; 45; 55; 65; 75; 85; 95]%Q.

(** Four height levels, 0 to 30, with the value 1 at every level; and three
    levels listed downwards with different values. *)
Definition example_levels_cube : Vertical.Cube :=
  Vertical.mk_Cube [("height", [0; 10; 20; 30]%Q)]
    [[1%Q]; [1%Q]; [1%Q]; [1%Q]].

Definition example_descending_cube : Vertical.Cube :=
  Vertical.mk_Cube [("height", [30; 20; 10]%Q)] [[1%Q]; [2%Q]; [3%Q]].

(** ** Vocabulary of the statements about vertical integration *)

(** The points of the chosen coordinate as
    [ensure_monotonic_in_chosen_direction] leaves them. *)
Definition oriented (self : Vertical.VerticalIntegration) (points : list Q)
  : list Q :=
  let increasing_order :=
    forallb (fun d => Qlt_bool 0 d) (Vertical.np_diff points) in
  let direction := Vertical.direction_of_integration self in
  if increasing_order && String.eqb direction "upwards" then points
  else if increasing_order && String.eqb direction "downwards" then rev points
  else if negb increasing_order && String.eqb direction "upwards" then
    rev points
  else points.

(** No two points of the list are equal numbers. *)
Definition distinct_points (points : list Q) : Prop :=
  ForallOrdPairs (fun p q => ~ (p == q)%Q) points.

Fixpoint strictly_decreasing (l : list Q) : bool :=
  match l with
  | x :: ((y :: _) as l') => Qlt_bool y x && strictly_decreasing l'
  | _ => true
  end.

(** A start point of 15 and no end point, upwards. *)
Definition example_start_15 : Vertical.VerticalIntegration :=
  Vertical.mk_VerticalIntegration "height" (Some 15%Q) None "upwards".

(** ** Vocabulary of the statements about percentiles *)

(** The list ascends: no element is greater than the next. *)
Fixpoint ascending (l : list Q) : bool :=
  match l with
  | x :: ((y :: _) as l') => Qle_bool x y && ascending l'
  | _ => true
  end.

(** Random draws for the examples: 1/2, 0, 7/8, then 1/4 for ever. *)
Definition example_random_state : random_state :=
  fun i =>
    match i with
    | 0%nat => (1 # 2)%Q
    | 1%nat => 0%Q
    | 2%nat => (7 # 8)%Q
    | _ => (1 # 4)%Q
    end.

(** The quantile percentiles for a count, whatever the state of the random
    module. *)
Definition quantile_percentiles (N : Z) : result (list Q) :=
  let! percentiles_st := choose_set_of_percentiles N "quantile" (fun _ => 0%Q) in
  Ok (fst percentiles_st).

(** The exact quotient [100 * i / (N + 1)] for the percentile with index
    [i - 1]. *)
Definition exact_percentile (N : Z) (i : nat) : Q :=
  (100 * inject_Z (Z.of_nat i + 1) / inject_Z (N + 1))%Q.

(** The distance that the statements allow between a quantile percentile and
    the exact quotient. *)
Definition percentile_tolerance : Q := (1 # 10000000000000)%Q.

(** The percentiles are [N] values that increase strictly, lie strictly
    between 0 and 100 and within the tolerance of the exact quotients, and
    that still increase strictly as float32. *)
Definition quantile_percentiles_ok (N : Z) (percentiles : list Q) : bool :=
  (Z.of_nat (length percentiles) =? N)%Z
  && strictly_increasing percentiles
  && forallb (fun p => Qlt_bool 0 p && Qlt_bool p 100) percentiles
  && forallb
       (fun i =>
          Qle_bool (Qabs (nth i percentiles 0%Q - exact_percentile N i))
            percentile_tolerance)
       (seq 0 (length percentiles))
  && strictly_increasing (map round32 percentiles).

(** The largest count of the statements that are checked count by count. *)
Definition checked_counts : nat := 100.

(** ** Vocabulary of the statements about rounding *)

(** The rounding of a positive number. *)
Definition round_pos (prec emin : Z) (q : Q) : Q :=
  (inject_Z
     (round_half_even (q / 2 ^ Z.max (log2_floor q - prec + 1) emin))
   * 2 ^ Z.max (log2_floor q - prec + 1) emin)%Q.


(** * Properties *)

(** ** Rounding *)

Local Open Scope Q_scope.

Lemma round_half_even_cases (q : Q) :
  round_half_even q = Qfloor q \/ round_half_even q = (Qfloor q + 1)%Z.
Proof.
  unfold round_half_even.
  destruct (q - inject_Z (Qfloor q) ?= 1 # 2); [destruct (Z.even _)| |]; auto.
Qed.

Lemma round_half_even_inject_Z (n : Z) : round_half_even (inject_Z n) = n.
Proof.
  unfold round_half_even. rewrite Qfloor_Z.
  destruct (Qcompare_spec (inject_Z n - inject_Z n) (1 # 2)) as [H|H|H];
    [exfalso; lra | reflexivity | exfalso; lra].
Qed.

Lemma round_half_even_le (x y : Q) :
  x <= y -> (round_half_even x <= round_half_even y)%Z.
Proof.
  intros Hxy.
  pose proof (Qfloor_resp_le _ _ Hxy) as Hf.
  destruct (Z.eq_dec (Qfloor x) (Qfloor y)) as [Heq|Hne].
  - unfold round_half_even. rewrite Heq.
    destruct (Qcompare_spec (x - inject_Z (Qfloor y)) (1 # 2)) as [Hx|Hx|Hx];
      destruct (Qcompare_spec (y - inject_Z (Qfloor y)) (1 # 2)) as [Hy|Hy|Hy];
      try (exfalso; lra); try destruct (Z.even (Qfloor y)); lia.
  - destruct (round_half_even_cases x) as [Hx|Hx];
      destruct (round_half_even_cases y) as [Hy|Hy]; lia.
Qed.

Lemma round_half_even_ge (n : Z) (x : Q) :
  inject_Z n <= x -> (n <= round_half_even x)%Z.
Proof.
  intros H. pose proof (round_half_even_le _ _ H) as Hle.
  now rewrite round_half_even_inject_Z in Hle.
Qed.

Lemma round_half_even_le_Z (n : Z) (x : Q) :
  x <= inject_Z n -> (round_half_even x <= n)%Z.
Proof.
  intros H. pose proof (round_half_even_le _ _ H) as Hle.
  now rewrite round_half_even_inject_Z in Hle.
Qed.

Lemma Qpower_2_pos (e : Z) : 0 < 2 ^ e.
Proof. apply Qpower_0_lt. reflexivity. Qed.

Lemma Qpower_2_succ (e : Z) : 2 ^ (e + 1) == 2 * 2 ^ e.
Proof.
  rewrite Qpower_plus by (intros H; discriminate H).
  rewrite Qpower_1_r. ring.
Qed.

Lemma Qpower_2_inject_Z (n : Z) :
  (0 <= n)%Z -> 2 ^ n == inject_Z (2 ^ n).
Proof. intros H. now rewrite Zpower_Qpower. Qed.

Lemma log2_floor_spec (q : Q) :
  0 < q -> 2 ^ log2_floor q <= q /\ q < 2 ^ (log2_floor q + 1).
Proof.
  intros Hq. destruct q as [n d].
  assert (Hn : (0 < n)%Z) by (unfold Qlt in Hq; simpl in Hq; lia).
  unfold log2_floor. cbn [Qnum Qden].
  set (a := Z.log2 n). set (b := Z.log2 (Z.pos d)).
  pose proof (Z.log2_spec n Hn) as Ha. fold a in Ha.
  pose proof (Z.log2_spec (Z.pos d) eq_refl) as Hb. fold b in Hb.
  pose proof (Z.log2_nonneg n) as Ha0. fold a in Ha0.
  pose proof (Z.log2_nonneg (Z.pos d)) as Hb0. fold b in Hb0.
  assert (HA : 2 ^ a <= inject_Z n /\ inject_Z n < 2 * 2 ^ a).
  { rewrite (Qpower_2_inject_Z a Ha0). split.
    - rewrite <- Zle_Qle. lia.
    - replace (2 * inject_Z (2 ^ a)) with (inject_Z 2 * inject_Z (2 ^ a))
        by reflexivity.
      rewrite <- inject_Z_mult, <- Zlt_Qlt.
      rewrite <- Z.pow_succ_r by lia. lia. }
  assert (HB : 2 ^ b <= inject_Z (Z.pos d) /\ inject_Z (Z.pos d) < 2 * 2 ^ b).
  { rewrite (Qpower_2_inject_Z b Hb0). split.
    - rewrite <- Zle_Qle. lia.
    - replace (2 * inject_Z (2 ^ b)) with (inject_Z 2 * inject_Z (2 ^ b))
        by reflexivity.
      rewrite <- inject_Z_mult, <- Zlt_Qlt.
      rewrite <- Z.pow_succ_r by lia. lia. }
  pose proof (Qpower_2_pos a) as HAp. pose proof (Qpower_2_pos b) as HBp.
  assert (Hd : 0 < inject_Z (Z.pos d)) by (rewrite <- (Zlt_Qlt 0); lia).
  assert (Hq' : n # d == inject_Z n / inject_Z (Z.pos d))
    by apply Qmake_Qdiv.
  assert (Hl : 2 ^ (a - b) == 2 ^ a / 2 ^ b)
    by (apply Qpower_minus; intros H; discriminate H).
  assert (Hlow : 2 ^ (a - b - 1) < n # d).
  { assert (H2 : 2 * 2 ^ (a - b - 1) == 2 ^ (a - b)).
    { rewrite <- Qpower_2_succ. now replace (a - b - 1 + 1)%Z with (a - b)%Z by lia. }
    rewrite Hq'. apply Qlt_shift_div_l; [exact Hd|].
    assert (H3 : 2 ^ (a - b - 1) * 2 ^ b * 2 == 2 ^ a).
    { rewrite Hl in H2. 
      assert (H4 : 2 ^ (a - b - 1) == 2 ^ a / 2 ^ b / 2).
      { rewrite <- H2. field. }
      rewrite H4. field. intros H; rewrite H in HBp; lra. }
    pose proof (Qpower_2_pos (a - b - 1)) as Hp.
    nra. }
  assert (Hhigh : n # d < 2 ^ (a - b + 1)).
  { rewrite Qpower_2_succ, Hl, Hq'.
    apply Qlt_shift_div_r; [exact Hd|].
    assert (H3 : 2 * (2 ^ a / 2 ^ b) * 2 ^ b == 2 * 2 ^ a).
    { field. intros H; rewrite H in HBp; lra. }
    assert (H5 : 0 < 2 * (2 ^ a / 2 ^ b)).
    { rewrite <- Hl. pose proof (Qpower_2_pos (a - b)). lra. }
    nra. }
  destruct (Qle_bool (2 ^ (a - b)) (n # d)) eqn:Hle.
  - apply Qle_bool_iff in Hle. split; [exact Hle | exact Hhigh].
  - assert (Hlt : n # d < 2 ^ (a - b)).
    { apply Qnot_le_lt. intros H. apply Qle_bool_iff in H. congruence. }
    split; [now apply Qlt_le_weak|].
    now replace (a - b - 1 + 1)%Z with (a - b)%Z by lia.
Qed.

Lemma log2_floor_le (x y : Q) :
  0 < x -> x <= y -> (log2_floor x <= log2_floor y)%Z.
Proof.
  intros Hx Hxy.
  destruct (log2_floor_spec x Hx) as [Hx1 _].
  destruct (log2_floor_spec y) as [_ Hy2]; [lra|].
  assert (H : 2 ^ log2_floor x < 2 ^ (log2_floor y + 1)) by lra.
  apply Qpower_lt_compat_l_inv in H; [lia | reflexivity].
Qed.

Lemma Qabs_of_pos (q : Q) : 0 < q -> Qabs q = q.
Proof.
  destruct q as [n d]. unfold Qlt. simpl. intros H.
  destruct n; try lia. reflexivity.
Qed.

Lemma Qabs_of_neg (q : Q) : q < 0 -> Qabs q = - q.
Proof.
  destruct q as [n d]. unfold Qlt. simpl. intros H.
  destruct n; try lia. reflexivity.
Qed.

Lemma round_to_pos (prec emin : Z) (q : Q) :
  0 < q -> round_to prec emin q == round_pos prec emin q.
Proof.
  intros Hq. unfold round_to.
  destruct (Qeq_bool q 0) eqn:H0.
  - apply Qeq_bool_iff in H0. lra.
  - rewrite (Qabs_of_pos q Hq).
    assert (Hle : Qle_bool 0 q = true) by (apply Qle_bool_iff; lra).
    rewrite Hle, Qred_correct. reflexivity.
Qed.

Lemma round_to_neg (prec emin : Z) (q : Q) :
  q < 0 -> round_to prec emin q == - round_pos prec emin (- q).
Proof.
  intros Hq. unfold round_to.
  destruct (Qeq_bool q 0) eqn:H0.
  - apply Qeq_bool_iff in H0. lra.
  - rewrite (Qabs_of_neg q Hq).
    assert (Hle : Qle_bool 0 q = false).
    { destruct (Qle_bool 0 q) eqn:H; [|reflexivity].
      apply Qle_bool_iff in H. lra. }
    rewrite Hle, Qred_correct. reflexivity.
Qed.

Lemma round_to_zero (prec emin : Z) (q : Q) :
  q == 0 -> round_to prec emin q == 0.
Proof.
  intros Hq. unfold round_to.
  apply Qeq_bool_iff in Hq. rewrite Hq. reflexivity.
Qed.

Lemma round_pos_nonneg (prec emin : Z) (q : Q) :
  0 < q -> 0 <= round_pos prec emin q.
Proof.
  intros Hq. unfold round_pos.
  set (e := Z.max _ _).
  pose proof (Qpower_2_pos e) as He.
  assert (H : (0 <= round_half_even (q / 2 ^ e))%Z).
  { apply round_half_even_ge. apply Qle_shift_div_l; [exact He|].
    change (inject_Z 0) with 0. lra. }
  rewrite Zle_Qle in H. change (inject_Z 0) with 0 in H.
  apply Qmult_le_0_compat; [exact H | lra].
Qed.

(** A number in the normal range rounds to at least the power of two below
    it. *)
Lemma round_pos_ge_power (prec emin : Z) (q : Q) :
  (0 < prec)%Z -> 0 < q -> (emin <= log2_floor q - prec + 1)%Z ->
  2 ^ log2_floor q <= round_pos prec emin q.
Proof.
  intros Hprec Hq Hnormal. unfold round_pos.
  rewrite Z.max_l by lia.
  set (l := log2_floor q). set (e := (l - prec + 1)%Z).
  destruct (log2_floor_spec q Hq) as [Hl _]. fold l in Hl.
  pose proof (Qpower_2_pos e) as He.
  assert (Hsplit : 2 ^ l == 2 ^ (prec - 1) * 2 ^ e).
  { rewrite <- Qpower_plus by (intros H; discriminate H).
    now replace (prec - 1 + e)%Z with l by (unfold e; lia). }
  assert (H : (2 ^ (prec - 1) <= round_half_even (q / 2 ^ e))%Z).
  { apply round_half_even_ge.
    rewrite <- Qpower_2_inject_Z by lia.
    apply Qle_shift_div_l; [exact He|]. now rewrite <- Hsplit. }
  rewrite Zle_Qle in H. rewrite <- Qpower_2_inject_Z in H by lia.
  rewrite Hsplit. nra.
Qed.

(** A number below a power of two that lies on its grid rounds to at most
    that power. *)
Lemma round_pos_le_power (prec emin : Z) (q : Q) (k : Z) :
  0 < q -> q <= 2 ^ k ->
  (Z.max (log2_floor q - prec + 1) emin <= k)%Z ->
  round_pos prec emin q <= 2 ^ k.
Proof.
  intros Hq Hk He. unfold round_pos.
  set (e := Z.max _ _) in *.
  pose proof (Qpower_2_pos e) as Hep.
  assert (Hsplit : 2 ^ k == 2 ^ (k - e) * 2 ^ e).
  { rewrite <- Qpower_plus by (intros H; discriminate H).
    now replace (k - e + e)%Z with k by lia. }
  assert (H : (round_half_even (q / 2 ^ e) <= 2 ^ (k - e))%Z).
  { apply round_half_even_le_Z.
    rewrite <- Qpower_2_inject_Z by lia.
    apply Qle_shift_div_r; [exact Hep|]. now rewrite <- Hsplit. }
  rewrite Zle_Qle in H. rewrite <- Qpower_2_inject_Z in H by lia.
  rewrite Hsplit. nra.
Qed.

Lemma round_pos_le (prec emin : Z) (x y : Q) :
  (0 < prec)%Z -> 0 < x -> x <= y ->
  round_pos prec emin x <= round_pos prec emin y.
Proof.
  intros Hprec Hx Hxy.
  assert (Hy : 0 < y) by lra.
  pose proof (log2_floor_le x y Hx Hxy) as Hl.
  destruct (Z.eq_dec (Z.max (log2_floor x - prec + 1) emin)
              (Z.max (log2_floor y - prec + 1) emin)) as [Heq|Hne].
  - unfold round_pos. rewrite Heq.
    set (e := Z.max _ _).
    pose proof (Qpower_2_pos e) as He.
    assert (H : (round_half_even (x / 2 ^ e) <= round_half_even (y / 2 ^ e))%Z).
    { apply round_half_even_le.
      apply Qle_shift_div_l; [exact He|].
      assert (Hc : x / 2 ^ e * 2 ^ e == x) by (field; lra).
      rewrite Hc. exact Hxy. }
    rewrite Zle_Qle in H. nra.
  - assert (Hlt : (log2_floor x < log2_floor y)%Z) by lia.
    assert (Hnormal : (emin <= log2_floor y - prec + 1)%Z) by lia.
    apply Qle_trans with (2 ^ log2_floor y).
    + apply round_pos_le_power; [exact Hx | | lia].
      destruct (log2_floor_spec x Hx) as [_ Hx2].
      apply Qle_trans with (2 ^ (log2_floor x + 1)); [lra|].
      apply Qpower_le_compat_l; [lia | lra].
    + now apply round_pos_ge_power.
Qed.

(** Rounding keeps the order of the numbers. *)
Lemma round_to_le (prec emin : Z) (x y : Q) :
  (0 < prec)%Z -> x <= y -> round_to prec emin x <= round_to prec emin y.
Proof.
  intros Hprec Hxy.
  destruct (Q_dec x 0) as [[Hx|Hx]|Hx]; destruct (Q_dec y 0) as [[Hy|Hy]|Hy];
    try (exfalso; lra).
  - rewrite (round_to_neg _ _ x Hx), (round_to_neg _ _ y Hy).
    assert (H : round_pos prec emin (- y) <= round_pos prec emin (- x))
      by (apply round_pos_le; [exact Hprec | lra | lra]).
    lra.
  - rewrite (round_to_neg _ _ x Hx), (round_to_pos _ _ y Hy).
    pose proof (round_pos_nonneg prec emin (- x)).
    pose proof (round_pos_nonneg prec emin y Hy). lra.
  - rewrite (round_to_neg _ _ x Hx), (round_to_zero _ _ y Hy).
    pose proof (round_pos_nonneg prec emin (- x)). lra.
  - rewrite (round_to_pos _ _ x Hx), (round_to_pos _ _ y Hy).
    now apply round_pos_le.
  - rewrite (round_to_zero _ _ x Hx), (round_to_pos _ _ y Hy).
    now apply round_pos_nonneg.
  - rewrite (round_to_zero _ _ x Hx), (round_to_zero _ _ y Hy). lra.
Qed.

(** The float of an integer other than zero is not zero. *)
Lemma round64_inject_Z_nonzero (k : Z) :
  k <> 0%Z -> ~ round64 (inject_Z k) == 0.
Proof.
  intros Hk.
  assert (Hone : forall z : Z, (1 <= z)%Z -> 1 <= round_pos 53 (-1074) (inject_Z z)).
  { intros z Hz.
    assert (Hq : 0 < inject_Z z) by (rewrite <- (Zlt_Qlt 0); lia).
    assert (Hl : (0 <= log2_floor (inject_Z z))%Z).
    { change 0%Z with (log2_floor 1).
      apply log2_floor_le; [reflexivity|].
      change 1 with (inject_Z 1). rewrite <- Zle_Qle. lia. }
    apply Qle_trans with (2 ^ log2_floor (inject_Z z)).
    - apply Qpower_1_le; [lra | exact Hl].
    - apply round_pos_ge_power; [lia | exact Hq | lia]. }
  unfold round64.
  destruct (Z_lt_ge_dec k 0) as [Hneg|Hpos].
  - assert (Hq : inject_Z k < 0) by (rewrite <- (Zlt_Qlt _ 0); lia).
    rewrite (round_to_neg _ _ _ Hq).
    assert (H : - inject_Z k == inject_Z (- k)) by (rewrite inject_Z_opp; reflexivity).
    pose proof (Hone (- k)%Z ltac:(lia)) as H1.
    assert (Hc : round_pos 53 (-1074) (- inject_Z k)
                 = round_pos 53 (-1074) (inject_Z (- k))).
    { now rewrite inject_Z_opp. }
    rewrite Hc. lra.
  - assert (Hq : 0 < inject_Z k) by (rewrite <- (Zlt_Qlt 0); lia).
    rewrite (round_to_pos _ _ _ Hq).
    pose proof (Hone k ltac:(lia)). lra.
Qed.

Local Close Scope Q_scope.

(** *** Arrays as rows *)

Lemma row_of_concat (n : nat) (rs : list (list Q)) :
  Forall (fun r => length r = n) rs ->
  forall i, (i < length rs)%nat ->
  firstn n (skipn (i * n) (concat rs)) = nth i rs [].
Proof.
  intros Hall. induction Hall as [| r rs Hr Hrs IH]; intros i Hi.
  - simpl in Hi. lia.
  - destruct i as [| i]; simpl.
    + rewrite drop_0, take_app_length'; [reflexivity | symmetry; assumption].
    + replace (n + i * n)%nat with (length r + i * n)%nat by lia.
      rewrite drop_app_add. apply IH. simpl in Hi. lia.
Qed.

Lemma map_nth_seq (rs : list (list Q)) :
  map (fun i => nth i rs []) (seq 0 (length rs)) = rs.
Proof.
  induction rs as [| r rs IH]; simpl; [reflexivity |].
  f_equal. rewrite <- seq_shift, map_map. exact IH.
Qed.

Lemma rows_of_concat (d : dtype) (r n : nat) (rs : list (list Q)) :
  length rs = r ->
  Forall (fun x => length x = n) rs ->
  rows (mk_ndarray d [r; n] (concat rs)) = rs.
Proof.
  intros Hlen Hall. unfold rows, row, nrows, ncols. simpl.
  rewrite <- Hlen.
  rewrite <- (map_nth_seq rs) at 2.
  apply map_ext_in. intros i Hi. apply in_seq in Hi.
  apply row_of_concat; [assumption | lia].
Qed.

Lemma length_row (a : ndarray) (r c i : nat) :
  arr_shape a = [r; c] ->
  length (arr_flat a) = (r * c)%nat ->
  (i < r)%nat ->
  length (row a i) = c.
Proof.
  intros Hs Hl Hi. unfold row, ncols. rewrite Hs. simpl.
  rewrite length_firstn, length_skipn, Hl. nia.
Qed.

Lemma row_of_column (r : nat) (v : Q) (d : dtype) (i : nat) :
  (i < r)%nat ->
  row (mk_ndarray d [r; 1%nat] (replicate (prod_shape [r; 1%nat]) v)) i = [v].
Proof.
  intros Hi. unfold row, ncols, prod_shape. simpl.
  rewrite Nat.mul_1_r, drop_replicate, take_replicate.
  replace (1 `min` (r * 1 - i))%nat with 1%nat by lia.
  reflexivity.
Qed.

Lemma promote_types_diag (d : dtype) : promote_types d d = d.
Proof. destruct d; reflexivity. Qed.

Lemma astype_same (d : dtype) (v : Q) : astype d d v = v.
Proof. destruct d; reflexivity. Qed.

Lemma map_astype_same (d : dtype) (l : list Q) : map (astype d d) l = l.
Proof.
  rewrite <- (map_id l) at 2. apply map_ext. intros v. apply astype_same.
Qed.

(** An endpoint of the dtype of the array is taken as it is. *)
Lemma cast_same (d : dtype) (x : number) (v : Q) :
  number_dtype x = d -> cast d x = Ok v -> v = number_value x.
Proof.
  intros Hd. unfold cast. destruct (representable _ _); [| discriminate].
  rewrite Hd, astype_same. congruence.
Qed.

(** *** Endpoint padding *)

Lemma concatenate_2d_array_with_2d_array_endpoints_ok
    (array_2d : ndarray) (lo hi : number) (r c : nat) (lo' hi' : Q) :
  arr_shape array_2d = [r; c] ->
  cast (arr_dtype array_2d) lo = Ok lo' ->
  cast (arr_dtype array_2d) hi = Ok hi' ->
  concatenate_2d_array_with_2d_array_endpoints array_2d lo hi
  = Ok (mk_ndarray (arr_dtype array_2d) [r; (1 + c + 1)%nat]
          (concat
             (map (fun i => [lo'] ++ row array_2d i ++ [hi']) (seq 0 r)))).
Proof.
  intros Hs Hlo Hhi.
  unfold concatenate_2d_array_with_2d_array_endpoints, np_full.
  rewrite Hs, Hlo, Hhi. cbn [py_index nth_error bind].
  unfold np_concatenate_axis1, ndim, nrows, ncols.
  cbn [arr_shape arr_dtype arr_flat length nth]. rewrite Hs.
  cbn [length nth]. rewrite !Nat.eqb_refl. cbn [andb negb].
  rewrite !promote_types_diag. do 3 f_equal.
  apply map_ext_in. intros i Hi. apply in_seq in Hi.
  rewrite !map_astype_same.
  pose proof (row_of_column r lo' (arr_dtype array_2d) i ltac:(lia)) as Hl.
  pose proof (row_of_column r hi' (arr_dtype array_2d) i ltac:(lia)) as Hh.
  unfold row, ncols in Hl, Hh. cbn [arr_shape arr_flat nth] in Hl, Hh.
  unfold row, ncols. cbn [arr_shape arr_flat nth]. rewrite Hs. cbn [nth].
  rewrite Hl, Hh. reflexivity.
Qed.

(** The rows of the result of the two-dimensional variant. *)
Lemma concatenate_2d_array_with_2d_array_endpoints_rows
    (array_2d : ndarray) (lo hi : number) (r c : nat) (lo' hi' : Q) :
  arr_shape array_2d = [r; c] ->
  length (arr_flat array_2d) = (r * c)%nat ->
  cast (arr_dtype array_2d) lo = Ok lo' ->
  cast (arr_dtype array_2d) hi = Ok hi' ->
  exists res,
    concatenate_2d_array_with_2d_array_endpoints array_2d lo hi = Ok res
    /\ arr_dtype res = arr_dtype array_2d
    /\ arr_shape res = [r; (1 + c + 1)%nat]
    /\ rows res = map (fun row => [lo'] ++ row ++ [hi']) (rows array_2d).
Proof.
  intros H2 H3 Hlo Hhi.
  rewrite (concatenate_2d_array_with_2d_array_endpoints_ok _ _ _ r c lo' hi'
             H2 Hlo Hhi).
  eexists. split; [reflexivity |]. split; [reflexivity |].
  split; [reflexivity |].
  assert (Hrows :
    map (fun i => [lo'] ++ row array_2d i ++ [hi']) (seq 0 r)
    = map (fun row => [lo'] ++ row ++ [hi']) (rows array_2d)).
  { unfold rows, nrows. rewrite H2. simpl. rewrite map_map. reflexivity. }
  rewrite Hrows.
  rewrite rows_of_concat; [reflexivity | |].
  - rewrite length_map. unfold rows, nrows. rewrite H2. simpl.
    rewrite length_map. apply length_seq.
  - apply List.Forall_forall. intros x Hx. apply in_map_iff in Hx.
    destruct Hx as [rw [<- Hrw]]. unfold rows, nrows in Hrw.
    rewrite H2 in Hrw. simpl in Hrw. apply in_map_iff in Hrw.
    destruct Hrw as [i [<- Hi]]. apply in_seq in Hi.
    simpl. rewrite length_app. simpl.
    rewrite (length_row array_2d r c i) by (assumption || lia). lia.
Qed.

(** The result of the one-dimensional variant. *)
Lemma insert_lower_and_upper_endpoint_to_1d_array_ok
    (array_1d : ndarray) (lo hi : number) :
  ndim array_1d = 1%nat ->
  let d :=
    promote_types (promote_types (number_dtype lo) (arr_dtype array_1d))
      (number_dtype hi) in
  insert_lower_and_upper_endpoint_to_1d_array array_1d lo hi
  = Ok (mk_ndarray d [S (S (length (arr_flat array_1d)))]
          ([astype (number_dtype lo) d (number_value lo)]
           ++ map (astype (arr_dtype array_1d) d) (arr_flat array_1d)
           ++ [astype (number_dtype hi) d (number_value hi)])).
Proof.
  intros H1 d.
  unfold insert_lower_and_upper_endpoint_to_1d_array, np_concatenate_1d.
  cbn [forallb]. rewrite H1. unfold np_array_singleton, ndim.
  cbn [arr_shape length Nat.eqb andb].
  cbn [map fold_left arr_dtype concat arr_flat]. unfold elements_as.
  cbn [arr_dtype arr_flat map]. fold d.
  rewrite app_nil_r. f_equal. f_equal.
  cbn [app length]. rewrite length_app, length_map. cbn [length].
  do 2 f_equal. lia.
Qed.

(** C4: the one-dimensional variant builds its endpoint arrays without the
    dtype of the input, so the result takes the promoted dtype: a float32
    array padded with Python floats comes back as float64 (and an int64 array
    too), where the two-dimensional variant keeps float32. *)
Theorem insert_lower_and_upper_endpoint_to_1d_array_promotes_dtype :
  (exists res,
     insert_lower_and_upper_endpoint_to_1d_array
       (mk_ndarray float32 [3%nat] [1; 2; 3]%Q) (PyFloat 0) (PyFloat 4)
     = Ok res
     /\ arr_dtype res = float64
     /\ arr_dtype res <> float32)
  /\ (exists res,
        insert_lower_and_upper_endpoint_to_1d_array
          (mk_ndarray int64 [3%nat] [1; 2; 3]%Q) (PyFloat 0) (PyFloat 4)
        = Ok res
        /\ arr_dtype res = float64)
  /\ (exists res,
        concatenate_2d_array_with_2d_array_endpoints
          (mk_ndarray float32 [1%nat; 3%nat] [1; 2; 3]%Q) (PyFloat 0)
          (PyFloat 4)
        = Ok res
        /\ arr_dtype res = float32).
Proof.
  split; [| split]; eexists; (split; [vm_compute; reflexivity |]); simpl;
    try split; try reflexivity; discriminate.
Qed.

(** C5, as stated, fails for the two-dimensional variant on an integer array:
    the column added to [[1, 2]] for the endpoints 0.5 and 9.5 holds 0 and 9. *)
Lemma concatenate_2d_array_endpoints_not_always_lo_hi :
  exists res,
    concatenate_2d_array_with_2d_array_endpoints
      (mk_ndarray int64 [1%nat; 2%nat] [1; 2]%Q) (PyFloat (1 # 2))
      (PyFloat (19 # 2))
    = Ok res
    /\ rows res = [[0; 1; 2; 9]%Q]
    /\ ~ Forall2 (Forall2 Qeq) (rows res) [[1 # 2; 1; 2; 19 # 2]%Q].
Proof.
  eexists. split; [vm_compute; reflexivity |]. split; [reflexivity |].
  intros H. inversion H as [| x y l l' Hrow _]; subst.
  inversion Hrow as [| a b m m' Hab _]; subst.
  vm_compute in Hab. discriminate.
Qed.

(** C5 (amended): the one-dimensional variant returns the low endpoint, the
    elements of the array and the high endpoint, in this order, each converted
    to the promoted dtype of the result, which leaves the values of a float64
    array padded with floats as they are; the two-dimensional variant, for
    endpoints that have a value in the dtype of the array, returns for each
    row of the input the row with the low endpoint before it and the high
    endpoint behind it, both converted to the dtype of the array (an endpoint
    of that dtype is taken as it is), and as many rows as the input has. *)
Theorem endpoint_padding_values
    (array_1d array_2d : ndarray) (lo hi : number) (r c : nat) (lo' hi' : Q)
    (H1 : ndim array_1d = 1%nat)
    (H2 : arr_shape array_2d = [r; c])
    (H3 : length (arr_flat array_2d) = (r * c)%nat)
    (Hlo : cast (arr_dtype array_2d) lo = Ok lo')
    (Hhi : cast (arr_dtype array_2d) hi = Ok hi') :
  (exists res,
     insert_lower_and_upper_endpoint_to_1d_array array_1d lo hi = Ok res
     /\ arr_flat res
        = [astype (number_dtype lo) (arr_dtype res) (number_value lo)]
          ++ map (astype (arr_dtype array_1d) (arr_dtype res))
               (arr_flat array_1d)
          ++ [astype (number_dtype hi) (arr_dtype res) (number_value hi)]
     /\ arr_shape res = [S (S (length (arr_flat array_1d)))]
     /\ (arr_dtype array_1d = float64 ->
         number_dtype lo = float64 -> number_dtype hi = float64 ->
         arr_flat res
         = [number_value lo] ++ arr_flat array_1d ++ [number_value hi]))
  /\ (exists res,
        concatenate_2d_array_with_2d_array_endpoints array_2d lo hi = Ok res
        /\ arr_shape res = [r; (1 + c + 1)%nat]
        /\ rows res
           = map (fun row => [lo'] ++ row ++ [hi']) (rows array_2d)
        /\ length (rows res) = length (rows array_2d)
        /\ (number_dtype lo = arr_dtype array_2d -> lo' = number_value lo)
        /\ (number_dtype hi = arr_dtype array_2d -> hi' = number_value hi)).
Proof.
  split.
  - rewrite (insert_lower_and_upper_endpoint_to_1d_array_ok _ lo hi H1).
    eexists. split; [reflexivity |]. cbn [arr_flat arr_dtype arr_shape].
    split; [reflexivity |]. split; [reflexivity |].
    intros Ha Hl Hh. rewrite Ha, Hl, Hh. cbn [promote_types].
    rewrite map_astype_same. reflexivity.
  - destruct (concatenate_2d_array_with_2d_array_endpoints_rows
                array_2d lo hi r c lo' hi' H2 H3 Hlo Hhi)
      as [res [Hres [_ [Hshape Hrows]]]].
    exists res. split; [exact Hres |]. split; [exact Hshape |].
    split; [exact Hrows |]. split; [rewrite Hrows; apply length_map |].
    split; intros Hd.
    + exact (cast_same _ _ _ Hd Hlo).
    + exact (cast_same _ _ _ Hd Hhi).
Qed.

Lemma endpoint_padding_values_witness :
  (exists res,
     insert_lower_and_upper_endpoint_to_1d_array
       (mk_ndarray float64 [3%nat] [5; 6; 7]%Q) (PyFloat (1 # 2)) (PyFloat 9)
     = Ok res
     /\ arr_flat res
        = [astype float64 (arr_dtype res) (1 # 2)]
          ++ map (astype float64 (arr_dtype res)) [5; 6; 7]%Q
          ++ [astype float64 (arr_dtype res) 9]
     /\ arr_shape res = [5%nat]
     /\ (float64 = float64 -> float64 = float64 -> float64 = float64 ->
         arr_flat res = [1 # 2; 5; 6; 7; 9]%Q))
  /\ (exists res,
        concatenate_2d_array_with_2d_array_endpoints
          (mk_ndarray int64 [2%nat; 2%nat] [1; 2; 3; 4]%Q)
          (PyFloat (1 # 2)) (PyFloat 9)
        = Ok res
        /\ arr_shape res = [2%nat; 4%nat]
        /\ rows res
           = map (fun row => [0%Q] ++ row ++ [9%Q]) [[1; 2]; [3; 4]]%Q
        /\ length (rows res) = 2%nat
        /\ (float64 = int64 -> 0%Q = (1 # 2)%Q)
        /\ (float64 = int64 -> 9%Q = 9%Q)).
Proof.
  apply (endpoint_padding_values
           (mk_ndarray float64 [3%nat] [5; 6; 7]%Q)
           (mk_ndarray int64 [2%nat; 2%nat] [1; 2; 3; 4]%Q)
           (PyFloat (1 # 2)) (PyFloat 9) 2 2 0%Q 9%Q);
    (vm_compute; reflexivity).
Defined.

(** *** Percentiles *)

Local Open Scope Q_scope.


Lemma Qeq_bool_false (x y : Q) : ~ x == y -> Qeq_bool x y = false.
Proof.
  intros H. destruct (Qeq_bool x y) eqn:E; [| reflexivity].
  apply Qeq_bool_eq in E. contradiction.
Qed.


(** The float of an int below [2^1023] in magnitude. *)
Lemma py_float_ok (k : Z) :
  (Z.abs k < 2 ^ 1023)%Z -> py_float k = Ok (round64 (inject_Z k)).
Proof.
  intros Hk. unfold py_float.
  replace (2 ^ 1024 - 2 ^ 970 <=? Z.abs k)%Z with false; [reflexivity |].
  symmetry. apply Z.leb_gt.
  assert (H : (2 ^ 1023 <= 2 ^ 1024 - 2 ^ 970)%Z) by (vm_compute; discriminate).
  lia.
Qed.

(** A division by the float of an int other than zero does not raise. *)
Lemma py_truediv_ok (a : Q) (k : Z) :
  k <> 0%Z ->
  py_truediv a (round64 (inject_Z k)) = Ok (fdiv a (round64 (inject_Z k))).
Proof.
  intros Hk. unfold py_truediv.
  rewrite (Qeq_bool_false _ _ (round64_inject_Z_nonzero k Hk)). reflexivity.
Qed.

(** The two ends of the interval of the percentiles, as the code computes
    them. *)
Lemma percentile_interval_ok (N : Z) :
  (1 <= N)%Z -> (N < 2 ^ 1023)%Z ->
  exists lo hi,
    (let! d := py_float (1 + N) in py_truediv 1 d) = Ok lo
    /\ (let! d := py_float (1 + N) in
        let! n := py_float N in py_truediv n d) = Ok hi.
Proof.
  intros HN Hmax.
  assert (H : (2 ^ 1023 + 1 <= 2 ^ 1024 - 2 ^ 970)%Z) by (vm_compute; discriminate).
  assert (Hd : py_float (1 + N) = Ok (round64 (inject_Z (1 + N)))).
  { unfold py_float.
    replace (2 ^ 1024 - 2 ^ 970 <=? Z.abs (1 + N))%Z with false; [reflexivity |].
    symmetry. apply Z.leb_gt. lia. }
  rewrite Hd, (py_float_ok N) by lia. cbn [bind].
  rewrite !py_truediv_ok by lia. eauto.
Qed.

(** The quantile percentiles do not depend on the state of the random
    module, which they leave as it is. *)
Lemma choose_set_of_percentiles_quantile_state (N : Z) (st : random_state) :
  choose_set_of_percentiles N "quantile" st
  = let! percentiles := quantile_percentiles N in Ok (percentiles, st).
Proof.
  unfold quantile_percentiles, choose_set_of_percentiles.
  cbn [String.eqb Ascii.eqb Bool.eqb].
  destruct (py_float (1 + N)) as [d | e]; [| reflexivity]. cbn [bind].
  destruct (py_truediv 1 d) as [lo | e]; [| reflexivity]. cbn [bind].
  destruct (py_float N) as [n | e]; [| reflexivity]. cbn [bind].
  destruct (py_truediv n d) as [hi | e]; [| reflexivity]. cbn [bind].
  destruct (np_linspace lo hi N) as [y | e]; reflexivity.
Qed.


(** The check of the quantile percentiles, count by count. *)
Lemma quantile_percentiles_checked :
  forallb
    (fun n =>
       match quantile_percentiles (Z.of_nat n) with
       | Ok percentiles => quantile_percentiles_ok (Z.of_nat n) percentiles
       | Raise _ => false
       end)
    (seq 1 checked_counts)
  = true.
Proof. vm_compute. reflexivity. Qed.

Lemma quantile_percentiles_checked_at (N : Z) :
  (1 <= N <= Z.of_nat checked_counts)%Z ->
  exists percentiles,
    quantile_percentiles N = Ok percentiles
    /\ quantile_percentiles_ok N percentiles = true.
Proof.
  intros HN.
  pose proof quantile_percentiles_checked as H.
  rewrite forallb_forall in H.
  specialize (H (Z.to_nat N)).
  rewrite Z2Nat.id in H by lia.
  destruct (quantile_percentiles N) as [percentiles | e].
  - exists percentiles. split; [reflexivity |]. apply H, in_seq. lia.
  - assert (Hf : false = true) by (apply H, in_seq; lia). discriminate Hf.
Qed.

Lemma Qlt_bool_lt (x y : Q) : Qlt_bool x y = true -> x < y.
Proof.
  unfold Qlt_bool. intros H. apply negb_true_iff in H.
  apply Qnot_le_lt. intros Hle. apply Qle_bool_iff in Hle. congruence.
Qed.

(** What the check says of the percentiles. *)
Lemma quantile_percentiles_ok_spec (N : Z) (percentiles : list Q) :
  quantile_percentiles_ok N percentiles = true ->
  Z.of_nat (length percentiles) = N
  /\ strictly_increasing percentiles = true
  /\ Forall (fun p => 0 < p /\ p < 100) percentiles
  /\ (forall i, (i < length percentiles)%nat ->
        Qabs (nth i percentiles 0 - exact_percentile N i)
        <= percentile_tolerance)
  /\ strictly_increasing (map round32 percentiles) = true.
Proof.
  unfold quantile_percentiles_ok. intros H.
  apply andb_prop in H as [H H5]. apply andb_prop in H as [H H4].
  apply andb_prop in H as [H H3]. apply andb_prop in H as [H1 H2].
  split; [apply Z.eqb_eq; exact H1 |]. split; [exact H2 |].
  split; [| split; [| exact H5]].
  - apply List.Forall_forall. intros p Hp.
    rewrite forallb_forall in H3. specialize (H3 p Hp).
    apply andb_prop in H3 as [Ha Hb].
    split; apply Qlt_bool_lt; assumption.
  - intros i Hi. rewrite forallb_forall in H4.
    apply Qle_bool_iff, H4, in_seq. lia.
Qed.




(** For three percentiles the values are 25, 50 and 75. *)
Example quantile_percentiles_of_three :
  choose_set_of_percentiles 3 "quantile" (fun _ => 0)
  = Ok ([25; 50; 75], fun _ => 0).
Proof. vm_compute. reflexivity. Qed.

(** C8: a sampling mode other than "quantile" and "random" raises a
    [ValueError] whose message names the mode. *)
Theorem choose_set_of_percentiles_unsupported_sampling
    (N : Z) (sampling : string) (st : random_state)
    (Hq : sampling <> "quantile") (Hr : sampling <> "random") :
  choose_set_of_percentiles N sampling st
  = Raise (ValueError
             ("The " ++ sampling ++ " sampling option is not yet implemented.")%string)
  /\ names ("The " ++ sampling ++ " sampling option is not yet implemented.")%string
       sampling.
Proof.
  split.
  - unfold choose_set_of_percentiles.
    apply String.eqb_neq in Hq, Hr. rewrite Hq, Hr. reflexivity.
  - exists "The ", " sampling option is not yet implemented.". reflexivity.
Qed.

Lemma choose_set_of_percentiles_unsupported_sampling_witness :
  choose_set_of_percentiles 3 "bogus" (fun _ => 0)
  = Raise (ValueError "The bogus sampling option is not yet implemented.")
  /\ names "The bogus sampling option is not yet implemented." "bogus".
Proof.
  apply (choose_set_of_percentiles_unsupported_sampling 3 "bogus" (fun _ => 0));
    discriminate.
Defined.

Local Close Scope Q_scope.

(** *** Messages *)

Lemma string_app_assoc (a b c : string) :
  ((a ++ b) ++ c = a ++ (b ++ c))%string.
Proof.
  induction a as [| ch a IH]; [reflexivity |].
  change (String ch ((a ++ b) ++ c) = String ch (a ++ (b ++ c)))%string.
  rewrite IH. reflexivity.
Qed.

Lemma names_self (part : string) : names part part.
Proof.
  exists "", "". change (part = part ++ "")%string.
  induction part as [| ch p IH]; [reflexivity |].
  change (String ch p = String ch (p ++ ""))%string. rewrite <- IH. reflexivity.
Qed.

Lemma names_app_l (a b part : string) :
  names a part -> names (a ++ b)%string part.
Proof.
  intros [pre [post ->]]. exists pre, (post ++ b)%string.
  rewrite !string_app_assoc. reflexivity.
Qed.

Lemma names_app_r (a b part : string) :
  names b part -> names (a ++ b)%string part.
Proof.
  intros [pre [post ->]]. exists (a ++ pre)%string, post.
  rewrite !string_app_assoc. reflexivity.
Qed.

Lemma names_join (sep part : string) (l : list string) :
  Exists (fun s => names s part) l -> names (join sep l) part.
Proof.
  induction l as [| x l IH]; intros H; [inversion H |].
  destruct l as [| y l].
  - inversion H as [? ? Hx | ? ? Hl]; subst; [exact Hx | inversion Hl].
  - change (join sep (x :: y :: l)) with (x ++ sep ++ join sep (y :: l))%string.
    inversion H as [? ? Hx | ? ? Hl]; subst.
    + apply names_app_l. exact Hx.
    + apply names_app_r, names_app_r, IH. exact Hl.
Qed.

(** *** get_bounds_of_distribution *)

Section BoundsOfDistributionProperties.

Variable bounds_for_ecdf : gmap string Bounds.t.
Variable Unit : Type.
Variable Unit_of_string : string -> option Unit.
Variable Unit_convert : Unit -> ndarray -> Unit -> option ndarray.
Variable repr_Bounds : Bounds.t -> string.

Lemma repr_table_names_key (table : gmap string Bounds.t) (key : string) :
  is_Some (table !! key) -> names (repr_table repr_Bounds table) key.
Proof.
  intros [entry Hentry]. unfold repr_table.
  apply names_app_r, names_app_l, names_join.
  apply List.Exists_exists.
  exists ("'" ++ key ++ "': " ++ repr_Bounds entry)%string. split.
  - apply in_map_iff. exists (key, entry). split; [reflexivity |].
    apply list_elem_of_In, elem_of_map_to_list. exact Hentry.
  - apply names_app_r, names_app_l, names_self.
Qed.

(** C6: the lookup raises a [KeyError] exactly when the key is not in the
    table; the message then names the key and every key of the table.  For a
    key of the table the result is the stored pair, as an array, converted by
    the units library from the stored unit to the desired one. *)
Theorem get_bounds_of_distribution_spec
    (bounds_pairing_key : string) (desired_units : Unit) :
  ((exists msg,
      get_bounds_of_distribution bounds_for_ecdf Unit Unit_of_string
        Unit_convert repr_Bounds bounds_pairing_key desired_units
      = Raise (KeyError msg))
   <-> bounds_for_ecdf !! bounds_pairing_key = None)
  /\ (bounds_for_ecdf !! bounds_pairing_key = None ->
      exists msg,
        get_bounds_of_distribution bounds_for_ecdf Unit Unit_of_string
          Unit_convert repr_Bounds bounds_pairing_key desired_units
        = Raise (KeyError msg)
        /\ names msg bounds_pairing_key
        /\ forall key, key ∈ dom bounds_for_ecdf -> names msg key)
  /\ (forall entry native_units converted,
        bounds_for_ecdf !! bounds_pairing_key = Some entry ->
        Unit_of_string (Bounds.units entry) = Some native_units ->
        Unit_convert native_units (np_array_pair (Bounds.value entry))
          desired_units = Some converted ->
        get_bounds_of_distribution bounds_for_ecdf Unit Unit_of_string
          Unit_convert repr_Bounds bounds_pairing_key desired_units
        = Ok converted).
Proof.
  unfold get_bounds_of_distribution. split; [| split].
  - split.
    + intros [msg Hmsg].
      destruct (bounds_for_ecdf !! bounds_pairing_key) as [entry |];
        [| reflexivity].
      destruct (Unit_of_string (Bounds.units entry)) as [u |];
        [| discriminate].
      destruct (Unit_convert u _ desired_units); discriminate.
    + intros ->. eexists. reflexivity.
  - intros ->. eexists. split; [reflexivity |].
    unfold bounds_key_error_message. split.
    + apply names_app_r, names_app_l, names_self.
    + intros key Hkey. apply elem_of_dom in Hkey.
      do 3 apply names_app_r. apply names_app_l.
      apply repr_table_names_key. exact Hkey.
  - intros entry native_units converted -> -> ->. reflexivity.
Qed.

End BoundsOfDistributionProperties.

Lemma get_bounds_of_distribution_spec_witness :
  (exists msg,
     get_bounds_of_distribution example_bounds_for_ecdf string
       example_Unit_of_string example_Unit_convert (fun _ => "bounds")
       "wind_speed" "mK"
     = Raise (KeyError msg)
     /\ names msg "wind_speed"
     /\ forall key, key ∈ dom example_bounds_for_ecdf -> names msg key)
  /\ get_bounds_of_distribution example_bounds_for_ecdf string
       example_Unit_of_string example_Unit_convert (fun _ => "bounds")
       "air_temperature" "mK"
     = Ok (mk_ndarray float64 [2%nat] [233000%Q; 323000%Q]).
Proof.
  split.
  - apply (get_bounds_of_distribution_spec example_bounds_for_ecdf string
             example_Unit_of_string example_Unit_convert (fun _ => "bounds")
             "wind_speed" "mK").
    reflexivity.
  - apply (proj2 (proj2 (get_bounds_of_distribution_spec
                           example_bounds_for_ecdf string
                           example_Unit_of_string example_Unit_convert
                           (fun _ => "bounds") "air_temperature" "mK"))
             (Bounds.mk (PyFloat 233, PyFloat 323) "K") "K");
      vm_compute; reflexivity.
Defined.


(** *** restore_non_probabilistic_dimensions *)

Lemma filter_map_fst {A B : Type} (p : A -> bool) (l : list (A * B)) :
  List.filter p (map fst l) = map fst (List.filter (fun cd => p (fst cd)) l).
Proof.
  induction l as [| x l IH]; [reflexivity |]. simpl.
  destruct (p (fst x)); simpl; rewrite IH; reflexivity.
Qed.

Lemma filter_map_dims (p : Coord -> bool) (l : list (Coord * nat)) :
  List.filter (fun cd => p (fst cd)) (map (fun cd => (fst cd, [snd cd])) l)
  = map (fun cd => (fst cd, [snd cd])) (List.filter (fun cd => p (fst cd)) l).
Proof.
  induction l as [| x l IH]; [reflexivity |]. simpl.
  destruct (p (fst x)); simpl; rewrite IH; reflexivity.
Qed.

Lemma np_reshape_ok (a : ndarray) (s : list nat) :
  prod_shape s = length (arr_flat a) ->
  np_reshape a s = Ok (mk_ndarray (arr_dtype a) s (arr_flat a)).
Proof.
  intros H. unfold np_reshape. rewrite H, Nat.eqb_refl. reflexivity.
Qed.

Lemma np_reshape_size_mismatch (a : ndarray) (s : list nat) :
  prod_shape s <> length (arr_flat a) ->
  np_reshape a s
  = Raise (ValueError "cannot reshape array into the requested shape").
Proof.
  intros H. unfold np_reshape. apply Nat.eqb_neq in H. rewrite H. reflexivity.
Qed.

Section RestoreDimensionsProperties.

Variable repr_Cube : Cube -> string.

Variable array_to_reshape : ndarray.
Variable original_cube : Cube.
Variable name : string.
Variable output_length : nat.

Lemma coords_dim_named :
  coords original_cube name true
  = map fst (named_dim_coords original_cube name).
Proof.
  unfold coords, dim_coords, named_dim_coords.
  apply (filter_map_fst (fun co => String.eqb (coord_name co) name)).
Qed.

Lemma coords_other_named :
  coords original_cube name false
  = map fst (named_other_coords original_cube name).
Proof.
  unfold coords, aux_coords, derived_coords, named_other_coords.
  rewrite <- map_app.
  apply (filter_map_fst (fun co => String.eqb (coord_name co) name)).
Qed.

Lemma all_coords_named :
  List.filter (fun cd => String.eqb (coord_name (fst cd)) name)
    (all_coords_and_dims original_cube)
  = map (fun cd => (fst cd, [snd cd])) (named_dim_coords original_cube name)
    ++ named_other_coords original_cube name.
Proof.
  unfold all_coords_and_dims, named_dim_coords, named_other_coords.
  rewrite List.filter_app.
  rewrite (filter_map_dims (fun co => String.eqb (coord_name co) name)).
  reflexivity.
Qed.

(** The four cases of the function, up to the final reshape. *)
Lemma restore_non_probabilistic_dimensions_cases :
  (forall co n rest,
      named_dim_coords original_cube name = [(co, 0%nat)] -> named_other_coords original_cube name = [] ->
      shape original_cube = n :: rest ->
      restore_non_probabilistic_dimensions repr_Cube array_to_reshape
        original_cube name output_length
      = np_reshape array_to_reshape (output_length :: rest))
  /\ (forall co d,
         named_dim_coords original_cube name = [(co, S d)] -> named_other_coords original_cube name = [] ->
         restore_non_probabilistic_dimensions repr_Cube array_to_reshape
           original_cube name output_length
         = Raise (ValueError
                    (not_first_dimension_message repr_Cube name original_cube)))
  /\ (named_dim_coords original_cube name = [] -> named_other_coords original_cube name <> [] ->
      restore_non_probabilistic_dimensions repr_Cube array_to_reshape
        original_cube name output_length
      = np_reshape array_to_reshape (output_length :: shape original_cube))
  /\ (named_dim_coords original_cube name = [] -> named_other_coords original_cube name = [] ->
      restore_non_probabilistic_dimensions repr_Cube array_to_reshape
        original_cube name output_length
      = Raise (CoordinateNotFoundError
                 (coordinate_not_available_message repr_Cube name
                    original_cube))).
Proof.
  unfold restore_non_probabilistic_dimensions, coord_dims.
  rewrite coords_dim_named, coords_other_named, all_coords_named.
  repeat split.
  - intros co n rest -> -> ->. reflexivity.
  - intros co d -> ->. reflexivity.
  - intros -> Hne. simpl.
    destruct (named_other_coords original_cube name); [contradiction |].
    reflexivity.
  - intros -> ->. reflexivity.
Qed.

(** A name that a dimension coordinate and one more coordinate carry: the
    lookup of the dimensions of the coordinate raises. *)
Lemma restore_non_probabilistic_dimensions_not_unique :
  named_dim_coords original_cube name <> [] ->
  (2 <= length (named_dim_coords original_cube name)
        + length (named_other_coords original_cube name))%nat ->
  restore_non_probabilistic_dimensions repr_Cube array_to_reshape
    original_cube name output_length
  = Raise (CoordinateNotFoundError
             ("Expected to find exactly 1 coordinate matching " ++ name)%string).
Proof.
  intros Hdim Htwo.
  unfold restore_non_probabilistic_dimensions, coord_dims.
  rewrite coords_dim_named, all_coords_named.
  destruct (named_dim_coords original_cube name) as [| d1 ds];
    [contradiction |].
  simpl is_nonempty. cbv iota.
  destruct ds as [| d2 ds].
  - destruct (named_other_coords original_cube name) as [| o os];
      [simpl in Htwo; lia |].
    reflexivity.
  - reflexivity.
Qed.

End RestoreDimensionsProperties.

(** C2, as stated, fails on its own example: a flat array of shape (20, 12)
    holds 240 elements and the shape (7, 4, 3) holds 84, so the final reshape
    raises. *)
Lemma restore_non_probabilistic_dimensions_20_12_raises :
  restore_non_probabilistic_dimensions example_repr_Cube
    (np_zeros [20; 12]%nat) example_cube_543 "realization" 7
  = Raise (ValueError "cannot reshape array into the requested shape")
  /\ ~ (exists res,
          restore_non_probabilistic_dimensions example_repr_Cube
            (np_zeros [20; 12]%nat) example_cube_543 "realization" 7
          = Ok res
          /\ arr_shape res = [7; 4; 3]%nat).
Proof.
  assert (H : restore_non_probabilistic_dimensions example_repr_Cube
                (np_zeros [20; 12]%nat) example_cube_543 "realization" 7
              = Raise (ValueError
                         "cannot reshape array into the requested shape"))
    by (vm_compute; reflexivity).
  split; [exact H |].
  intros [res [Hres _]]. rewrite H in Hres. discriminate.
Qed.

(** C2 (amended): the flat array is reshaped to the output length followed by
    the shape of the original cube without its first dimension when the name
    is carried by one coordinate only, the dimension coordinate of dimension
    0, and followed by the whole shape when the name is carried by
    non-dimension coordinates only; in both cases the reshape succeeds when
    the array holds as many elements as the new shape and raises otherwise.
    A name carried by one coordinate only, a dimension coordinate on another
    dimension, raises the invalid-state error; a name that a dimension
    coordinate and a further coordinate carry, and a name that no coordinate
    carries, raise the coordinate-not-found error. *)
Theorem restore_non_probabilistic_dimensions_spec
    (repr_Cube : Cube -> string) (array_to_reshape : ndarray)
    (original_cube : Cube) (name : string) (output_length : nat) :
  (forall co n rest,
      named_dim_coords original_cube name = [(co, 0%nat)] ->
      named_other_coords original_cube name = [] ->
      shape original_cube = n :: rest ->
      (prod_shape (output_length :: rest) = length (arr_flat array_to_reshape) ->
       exists res,
         restore_non_probabilistic_dimensions repr_Cube array_to_reshape
           original_cube name output_length = Ok res
         /\ arr_shape res = output_length :: rest
         /\ arr_flat res = arr_flat array_to_reshape)
      /\ (prod_shape (output_length :: rest)
          <> length (arr_flat array_to_reshape) ->
          restore_non_probabilistic_dimensions repr_Cube array_to_reshape
            original_cube name output_length
          = Raise (ValueError "cannot reshape array into the requested shape")))
  /\ (forall co d,
         named_dim_coords original_cube name = [(co, S d)] ->
         named_other_coords original_cube name = [] ->
         restore_non_probabilistic_dimensions repr_Cube array_to_reshape
           original_cube name output_length
         = Raise (ValueError
                    (not_first_dimension_message repr_Cube name original_cube)))
  /\ (named_dim_coords original_cube name = [] ->
      named_other_coords original_cube name <> [] ->
      (prod_shape (output_length :: shape original_cube)
       = length (arr_flat array_to_reshape) ->
       exists res,
         restore_non_probabilistic_dimensions repr_Cube array_to_reshape
           original_cube name output_length = Ok res
         /\ arr_shape res = output_length :: shape original_cube
         /\ arr_flat res = arr_flat array_to_reshape)
      /\ (prod_shape (output_length :: shape original_cube)
          <> length (arr_flat array_to_reshape) ->
          restore_non_probabilistic_dimensions repr_Cube array_to_reshape
            original_cube name output_length
          = Raise (ValueError "cannot reshape array into the requested shape")))
  /\ (named_dim_coords original_cube name = [] ->
      named_other_coords original_cube name = [] ->
      restore_non_probabilistic_dimensions repr_Cube array_to_reshape
        original_cube name output_length
      = Raise (CoordinateNotFoundError
                 (coordinate_not_available_message repr_Cube name
                    original_cube)))
  /\ (named_dim_coords original_cube name <> [] ->
      (2 <= length (named_dim_coords original_cube name)
            + length (named_other_coords original_cube name))%nat ->
      exists msg,
        restore_non_probabilistic_dimensions repr_Cube array_to_reshape
          original_cube name output_length
        = Raise (CoordinateNotFoundError msg)).
Proof.
  destruct (restore_non_probabilistic_dimensions_cases repr_Cube
              array_to_reshape original_cube name output_length)
    as [Hfirst [Hnot_first [Hother Habsent]]].
  split; [| split; [| split; [| split]]];
    [| | | |
     intros Hdim Htwo; eexists;
     apply restore_non_probabilistic_dimensions_not_unique; assumption].
  - intros co n rest Hd Ho Hs. rewrite (Hfirst co n rest Hd Ho Hs). split.
    + intros Hsize. rewrite (np_reshape_ok _ _ Hsize).
      eexists. split; [reflexivity |]. split; reflexivity.
    + apply np_reshape_size_mismatch.
  - exact Hnot_first.
  - intros Hd Ho. rewrite (Hother Hd Ho). split.
    + intros Hsize. rewrite (np_reshape_ok _ _ Hsize).
      eexists. split; [reflexivity |]. split; reflexivity.
    + apply np_reshape_size_mismatch.
  - exact Habsent.
Qed.

(** The example with a flat array of shape (7, 12); the realization
    coordinate on dimension 1; a scalar coordinate; an unknown name; a
    second coordinate with the name of the realization coordinate. *)
Lemma restore_non_probabilistic_dimensions_spec_witness :
  (exists res,
     restore_non_probabilistic_dimensions example_repr_Cube
       (np_zeros [7; 12]%nat) example_cube_543 "realization" 7 = Ok res
     /\ arr_shape res = [7; 4; 3]%nat
     /\ arr_flat res = arr_flat (np_zeros [7; 12]%nat))
  /\ restore_non_probabilistic_dimensions example_repr_Cube
       (np_zeros [7; 12]%nat) example_cube_453 "realization" 7
     = Raise (ValueError
                (not_first_dimension_message example_repr_Cube "realization"
                   example_cube_453))
  /\ (exists res,
        restore_non_probabilistic_dimensions example_repr_Cube
          (np_zeros [7; 60]%nat) example_cube_543 "forecast_period" 7 = Ok res
        /\ arr_shape res = [7; 5; 4; 3]%nat
        /\ arr_flat res = arr_flat (np_zeros [7; 60]%nat))
  /\ restore_non_probabilistic_dimensions example_repr_Cube
       (np_zeros [7; 12]%nat) example_cube_543 "height" 7
     = Raise (CoordinateNotFoundError
                (coordinate_not_available_message example_repr_Cube "height"
                   example_cube_543))
  /\ (exists msg,
        restore_non_probabilistic_dimensions example_repr_Cube
          (np_zeros [7; 12]%nat) example_cube_two_realizations "realization" 7
        = Raise (CoordinateNotFoundError msg)).
Proof.
  split; [| split; [| split; [| split]]].
  - apply (proj1 (restore_non_probabilistic_dimensions_spec example_repr_Cube
                    (np_zeros [7; 12]%nat) example_cube_543 "realization" 7)
             (example_coord "realization" "1" 5) 5%nat [4; 3]%nat);
      reflexivity.
  - apply (proj1 (proj2 (restore_non_probabilistic_dimensions_spec
                           example_repr_Cube (np_zeros [7; 12]%nat)
                           example_cube_453 "realization" 7))
             (example_coord "realization" "1" 5) 0%nat);
      reflexivity.
  - apply (proj1 (proj2 (proj2 (restore_non_probabilistic_dimensions_spec
                                  example_repr_Cube (np_zeros [7; 60]%nat)
                                  example_cube_543 "forecast_period" 7))));
      [reflexivity | discriminate | reflexivity].
  - apply (proj1 (proj2 (proj2 (proj2
             (restore_non_probabilistic_dimensions_spec
                example_repr_Cube (np_zeros [7; 12]%nat)
                example_cube_543 "height" 7)))));
      reflexivity.
  - apply (proj2 (proj2 (proj2 (proj2
             (restore_non_probabilistic_dimensions_spec
                example_repr_Cube (np_zeros [7; 12]%nat)
                example_cube_two_realizations "realization" 7)))));
      [discriminate | simpl; lia].
Defined.


(** *** create_cube_with_percentiles *)

Lemma FOP_before {A : Type} (R : A -> A -> Prop) (l1 l2 : list A) (x : A) :
  ForallOrdPairs R (l1 ++ x :: l2) -> List.Forall (fun a => R a x) l1.
Proof.
  induction l1 as [| a l1 IH]; intros H; [constructor |].
  inversion H as [| ? ? Ha Hrest]; subst. constructor.
  - rewrite List.Forall_forall in Ha. apply Ha. apply in_or_app. right. left.
    reflexivity.
  - apply IH. exact Hrest.
Qed.

Lemma has_coord_false (c : Cube) (co : Coord) :
  List.Forall (fun a => coord_defn_eqb a co = false) (all_coords c) ->
  has_coord c co = false.
Proof.
  intros H. unfold has_coord.
  assert (Hmap : map fst (all_coords_and_dims c) = all_coords c).
  { unfold all_coords_and_dims, all_coords. rewrite !map_app, map_map.
    reflexivity. }
  rewrite <- Hmap in H. clear Hmap.
  induction (all_coords_and_dims c) as [| x l IH]; [reflexivity |].
  simpl in *. inversion H as [| ? ? Hx Hl]; subst.
  rewrite Hx. simpl. apply IH. exact Hl.
Qed.

Lemma forallb_combine_shift (s : list nat) (n : nat) (l dims : list nat) :
  forallb
    (fun sd => Nat.ltb (snd sd) (length s)
               && Nat.eqb (fst sd) (nth (snd sd) s 0%nat))
    (combine l dims) = true ->
  forallb
    (fun sd => Nat.ltb (snd sd) (length (n :: s))
               && Nat.eqb (fst sd) (nth (snd sd) (n :: s) 0%nat))
    (combine l (map (fun dim => (dim + 1)%nat) dims)) = true.
Proof.
  revert dims. induction l as [| p l IH]; intros dims Hall; [reflexivity |].
  destruct dims as [| e dims]; [reflexivity |].
  simpl in Hall. apply andb_true_iff in Hall. destruct Hall as [He Hrest].
  apply andb_true_iff in He. destruct He as [Hlt Heq].
  cbn [map combine forallb fst snd].
  rewrite (IH dims Hrest), andb_true_r.
  replace (e + 1)%nat with (S e) by lia.
  apply andb_true_iff. split.
  - apply Nat.ltb_lt. apply Nat.ltb_lt in Hlt. simpl. lia.
  - exact Heq.
Qed.

Lemma dims_match_shift (s : list nat) (n : nat) (co : Coord) (ds : list nat) :
  dims_match s co ds = true ->
  dims_match (n :: s) co (map (fun dim => (dim + 1)%nat) ds) = true.
Proof.
  unfold dims_match. destruct ds as [| d ds]; [intros H; exact H |].
  intros H. apply andb_true_iff in H. destruct H as [Hlen Hall].
  change (map (fun dim => (dim + 1)%nat) (d :: ds))
    with ((d + 1)%nat :: map (fun dim => (dim + 1)%nat) ds).
  cbv iota. apply andb_true_iff. split.
  - simpl length in *. rewrite length_map. exact Hlen.
  - apply (forallb_combine_shift s n _ (d :: ds)). exact Hall.
Qed.

Section AddCoordinates.

Variable pc : Coord.
Variable P : nat.
Variable s : list nat.

Lemma for_each_add_dim_coord_ok (todo : list (Coord * nat)) :
  forall (done : list (Coord * nat)) (c : Cube),
    dim_coords_and_dims c
    = (pc, 0%nat) :: map (fun cd => (fst cd, (snd cd + 1)%nat)) done ->
    aux_coords_and_dims c = [] ->
    derived_coords_and_dims c = [] ->
    shape c = P :: s ->
    distinct_definitions (pc :: map fst (done ++ todo)) ->
    List.NoDup (map snd (done ++ todo)) ->
    List.Forall
      (fun cd =>
         (snd cd < length s)%nat
         /\ nth 0 (arr_shape (coord_points (fst cd))) 0%nat
            = nth (snd cd) s 0%nat)
      todo ->
    for_each todo
      (fun result cd => add_dim_coord result (fst cd) (snd cd + 1)) c
    = Ok (mk_Cube (metadata c) (data c)
            ((pc, 0%nat)
             :: map (fun cd => (fst cd, (snd cd + 1)%nat)) (done ++ todo))
            [] []).
Proof.
  induction todo as [| x todo IH]; intros done c Hdims Haux Hder Hshape
    Hdistinct Hnodup Hfit.
  - destruct c; simpl in *; subst. rewrite app_nil_r. reflexivity.
  - simpl for_each. unfold add_dim_coord at 1.
    rewrite has_coord_false.
    2:{ unfold all_coords. rewrite Hdims, Haux, Hder. simpl.
        rewrite app_nil_r, map_map. simpl.
        apply (FOP_before (fun a b => coord_defn_eqb a b = false)
                 (pc :: map fst done) (map fst todo) (fst x)).
        unfold distinct_definitions in Hdistinct.
        rewrite map_app in Hdistinct. exact Hdistinct. }
    rewrite Hdims.
    assert (Hclash :
      existsb (fun cd => Nat.eqb (snd cd) (snd x + 1))
        ((pc, 0%nat) :: map (fun cd => (fst cd, (snd cd + 1)%nat)) done)
      = false).
    { simpl. replace (snd x + 1)%nat with (S (snd x)) by lia. simpl.
      apply not_true_is_false. intros Hex. apply existsb_exists in Hex.
      destruct Hex as [e [He Heq]]. apply in_map_iff in He.
      destruct He as [e0 [<- He0]]. simpl in Heq.
      apply Nat.eqb_eq in Heq.
      rewrite map_app in Hnodup. simpl in Hnodup.
      apply List.NoDup_remove_2 in Hnodup. apply Hnodup.
      apply in_or_app. left. apply in_map_iff. exists e0.
      split; [lia | exact He0]. }
    rewrite Hclash. rewrite Hshape.
    inversion Hfit as [| ? ? [Hlt Hlen] Hfit']; subst.
    replace (snd x + 1 <? length (P :: s))%nat with true
      by (symmetry; apply Nat.ltb_lt; simpl; lia).
    replace (snd x + 1)%nat with (S (snd x)) by lia. simpl nth.
    rewrite Hlen, Nat.eqb_refl. simpl.
    rewrite (IH (done ++ [x])).
    + simpl. rewrite <- !app_assoc. simpl.
      replace (snd x + 1)%nat with (S (snd x)) by lia. reflexivity.
    + simpl. rewrite map_app. simpl.
      replace (snd x + 1)%nat with (S (snd x)) by lia. reflexivity.
    + exact Haux.
    + exact Hder.
    + exact Hshape.
    + rewrite <- app_assoc. exact Hdistinct.
    + rewrite <- app_assoc. exact Hnodup.
    + exact Hfit'.
Qed.

Lemma for_each_add_aux_coord_ok (todo : list (Coord * list nat)) :
  forall (done : list (Coord * list nat)) (c : Cube),
    aux_coords_and_dims c
    = map (fun cd => (fst cd, map (fun dim => (dim + 1)%nat) (snd cd))) done ->
    derived_coords_and_dims c = [] ->
    shape c = P :: s ->
    distinct_definitions
      (map fst (dim_coords_and_dims c) ++ map fst (done ++ todo)) ->
    List.Forall (fun cd => dims_match s (fst cd) (snd cd) = true) todo ->
    for_each todo
      (fun result cd =>
         add_aux_coord result (fst cd)
           (map (fun dim => (dim + 1)%nat) (snd cd))) c
    = Ok (mk_Cube (metadata c) (data c) (dim_coords_and_dims c)
            (map (fun cd => (fst cd, map (fun dim => (dim + 1)%nat) (snd cd)))
               (done ++ todo))
            []).
Proof.
  induction todo as [| x todo IH]; intros done c Haux Hder Hshape Hdistinct
    Hfit.
  - destruct c; simpl in *; subst. rewrite app_nil_r. reflexivity.
  - simpl for_each. unfold add_aux_coord at 1.
    rewrite has_coord_false.
    2:{ unfold all_coords. rewrite Haux, Hder. simpl.
        rewrite app_nil_r, map_map. simpl.
        unfold distinct_definitions in Hdistinct.
        rewrite map_app, app_assoc in Hdistinct.
        apply (FOP_before (fun a b => coord_defn_eqb a b = false)
                 _ (map fst todo) (fst x)).
        exact Hdistinct. }
    inversion Hfit as [| ? ? Hx Hfit']; subst.
    rewrite Hshape, (dims_match_shift s P _ _ Hx). simpl.
    rewrite (IH (done ++ [x])).
    + simpl. rewrite <- !app_assoc. reflexivity.
    + simpl. rewrite Haux, map_app. reflexivity.
    + exact Hder.
    + exact Hshape.
    + simpl. rewrite <- app_assoc. exact Hdistinct.
    + exact Hfit'.
Qed.

End AddCoordinates.

Lemma FOP_app_l {A : Type} (R : A -> A -> Prop) (l1 l2 : list A) :
  ForallOrdPairs R (l1 ++ l2) -> ForallOrdPairs R l1.
Proof.
  induction l1 as [| a l1 IH]; intros H; [constructor |].
  inversion H as [| ? ? Ha Hrest]; subst. constructor.
  - apply List.Forall_app in Ha. apply Ha.
  - apply IH. exact Hrest.
Qed.

Lemma DimCoord_percentiles (percentiles : list Q) (name : string) :
  strictly_monotonic (map round32 percentiles) = true ->
  DimCoord (np_float32 percentiles) name "%" name
  = Ok (percentile_coord percentiles name).
Proof.
  intros Hmono. unfold DimCoord, percentile_coord, np_float32, ndim.
  simpl. rewrite Hmono. reflexivity.
Qed.

Lemma add_percentile_coord (c : Cube) (percentiles : list Q) (name : string)
    (s : list nat) :
  dim_coords_and_dims c = [] ->
  aux_coords_and_dims c = [] ->
  derived_coords_and_dims c = [] ->
  shape c = length percentiles :: s ->
  add_dim_coord c (percentile_coord percentiles name) 0
  = Ok (mk_Cube (metadata c) (data c)
          [(percentile_coord percentiles name, 0%nat)] [] []).
Proof.
  intros Hd Ha Hder Hs. unfold add_dim_coord, has_coord, all_coords_and_dims.
  rewrite Hd, Ha, Hder, Hs. simpl. rewrite Nat.eqb_refl. reflexivity.
Qed.

(** The cube that [create_cube_with_percentiles] starts from: the data with
    the metadata of the template, the unit replaced when one is given. *)
Lemma create_cube_with_percentiles_start
    (unit_is_valid : string -> bool) (template_cube : Cube)
    (cube_data : ndarray) (cube_unit : option string) :
  match cube_unit with
  | Some u => unit_is_valid u = true
  | None => True
  end ->
  exists c0,
    match cube_unit with
    | Some u =>
        set_units unit_is_valid (new_Cube cube_data (metadata template_cube)) u
    | None => Ok (new_Cube cube_data (metadata template_cube))
    end = Ok c0
    /\ dim_coords_and_dims c0 = [] /\ aux_coords_and_dims c0 = []
    /\ derived_coords_and_dims c0 = [] /\ data c0 = cube_data
    /\ standard_name (metadata c0) = standard_name (metadata template_cube)
    /\ long_name (metadata c0) = long_name (metadata template_cube)
    /\ var_name (metadata c0) = var_name (metadata template_cube)
    /\ attributes (metadata c0) = attributes (metadata template_cube)
    /\ cell_methods (metadata c0) = cell_methods (metadata template_cube)
    /\ units (metadata c0)
       = match cube_unit with
         | Some u => u
         | None => units (metadata template_cube)
         end.
Proof.
  intros Hunit. destruct cube_unit as [u |].
  - unfold set_units. rewrite Hunit. eexists. split; [reflexivity |].
    repeat split.
  - eexists. split; [reflexivity |]. repeat split.
Qed.

(** The result of [create_cube_with_percentiles] on a consistent template. *)
Lemma create_cube_with_percentiles_result
    (unit_is_valid : string -> bool)
    (percentiles : list Q) (template_cube : Cube) (cube_data : ndarray)
    (custom_name cube_unit : option string)
    (Hmonotonic : monotonic_as_float32 percentiles = true)
    (Htemplate : Cube_wf template_cube)
    (Hshape : arr_shape cube_data = length percentiles :: shape template_cube)
    (Hfresh :
       List.Forall
         (fun co =>
            coord_defn_eqb
              (percentile_coord percentiles
                 (py_or custom_name "percentile_over_realization")) co
            = false)
         (all_coords template_cube))
    (Hunit :
       match cube_unit with
       | Some u => unit_is_valid u = true
       | None => True
       end) :
  exists c0,
    create_cube_with_percentiles unit_is_valid percentiles template_cube
      cube_data custom_name cube_unit
    = Ok (mk_Cube (metadata c0) (data c0)
            ((percentile_coord percentiles
                (py_or custom_name "percentile_over_realization"), 0%nat)
             :: map (fun cd => (fst cd, (snd cd + 1)%nat))
                  (dim_coords_and_dims template_cube))
            (map (fun cd => (fst cd, map (fun dim => (dim + 1)%nat) (snd cd)))
               (aux_coords_and_dims template_cube
                ++ derived_coords_and_dims template_cube))
            [])
    /\ data c0 = cube_data
    /\ standard_name (metadata c0) = standard_name (metadata template_cube)
    /\ long_name (metadata c0) = long_name (metadata template_cube)
    /\ var_name (metadata c0) = var_name (metadata template_cube)
    /\ attributes (metadata c0) = attributes (metadata template_cube)
    /\ cell_methods (metadata c0) = cell_methods (metadata template_cube)
    /\ units (metadata c0)
       = match cube_unit with
         | Some u => u
         | None => units (metadata template_cube)
         end.
Proof.
  set (name := py_or custom_name "percentile_over_realization") in *.
  set (pc := percentile_coord percentiles name) in *.
  destruct Htemplate as [Hdim Hnodup Hother Hdefs].
  assert (Hall : distinct_definitions
                   (pc :: map fst (dim_coords_and_dims template_cube)
                    ++ map fst (aux_coords_and_dims template_cube
                                ++ derived_coords_and_dims template_cube))).
  { constructor; rewrite map_app; [exact Hfresh | exact Hdefs]. }
  destruct (create_cube_with_percentiles_start unit_is_valid template_cube
              cube_data cube_unit Hunit)
    as [c0 [Hstart [Hc0d [Hc0a [Hc0r [Hc0data Hmeta]]]]]].
  assert (Hc0s : shape c0 = length percentiles :: shape template_cube)
    by (unfold shape at 1; rewrite Hc0data; exact Hshape).
  apply andb_prop in Hmonotonic as [_ Hmonotonic].
  exists c0. split; [| split; [exact Hc0data | exact Hmeta]].
  unfold create_cube_with_percentiles. fold name.
  rewrite (DimCoord_percentiles percentiles name Hmonotonic).
  fold pc. cbn [bind]. rewrite Hstart. cbn [bind].
  unfold pc at 1.
  rewrite (add_percentile_coord c0 percentiles name (shape template_cube)
             Hc0d Hc0a Hc0r Hc0s).
  fold pc. simpl bind.
  rewrite (for_each_add_dim_coord_ok pc (length percentiles)
             (shape template_cube) (dim_coords_and_dims template_cube) []).
  2:{ reflexivity. }
  2:{ reflexivity. }
  2:{ reflexivity. }
  2:{ exact Hc0s. }
  2:{ simpl. unfold distinct_definitions in *.
      rewrite app_comm_cons in Hall. apply FOP_app_l in Hall. exact Hall. }
  2:{ exact Hnodup. }
  2:{ exact Hdim. }
  simpl bind. simpl app.
  rewrite (for_each_add_aux_coord_ok (length percentiles)
             (shape template_cube) (aux_coords_and_dims template_cube) []).
  2:{ reflexivity. }
  2:{ reflexivity. }
  2:{ exact Hc0s. }
  2:{ simpl. rewrite map_map. simpl. unfold distinct_definitions in *.
      rewrite map_app, app_assoc, app_comm_cons in Hall.
      apply FOP_app_l in Hall.
      exact Hall. }
  2:{ apply List.Forall_app in Hother. apply Hother. }
  simpl bind. simpl app.
  rewrite (for_each_add_aux_coord_ok (length percentiles)
             (shape template_cube) (derived_coords_and_dims template_cube)
             (aux_coords_and_dims template_cube)).
  2:{ reflexivity. }
  2:{ reflexivity. }
  2:{ exact Hc0s. }
  2:{ simpl. rewrite map_map. simpl. exact Hall. }
  2:{ apply List.Forall_app in Hother. apply Hother. }
  reflexivity.
Qed.

(** C7, as stated, fails on the values of the coordinate: the percentiles are
    stored as float32, so the coordinate built for the two quantile
    percentiles 33.33333333333333 and 66.66666666666666 holds 33.333332 and
    66.66666 (here as exact fractions). *)
Lemma create_cube_with_percentiles_rounds_the_percentiles :
  exists result pc,
    create_cube_with_percentiles example_unit_is_valid
      [2345624805922133 # 70368744177664; 2345624805922133 # 35184372088832]%Q
      example_template_33 (np_zeros [2; 3; 3]%nat) None None = Ok result
    /\ dim_coords_and_dims result !! 0%nat = Some (pc, 0%nat)
    /\ arr_flat (coord_points pc)
       = [8738133 # 262144; 8738133 # 131072]%Q
    /\ ~ Forall2 Qeq (arr_flat (coord_points pc))
           [2345624805922133 # 70368744177664;
            2345624805922133 # 35184372088832]%Q.
Proof.
  eexists. eexists. split; [vm_compute; reflexivity |].
  split; [reflexivity |]. split; [reflexivity |].
  intros H. inversion H as [| a b l l' Hab _]; subst.
  vm_compute in Hab. discriminate Hab.
Qed.

(** C7 (amended): on a consistent template, with percentiles that are
    strictly monotonic as float32 numbers, data of the template's shape
    behind a leading dimension of the number of percentiles, no template
    coordinate defined like the percentile coordinate, and a [cube_unit] (if
    one is given) that the units library accepts, the function returns a cube
    that holds the data; whose dimension 0 carries the percentile coordinate,
    in percent, with the given percentiles rounded to float32 as points;
    whose dimension coordinates are those of the template on the next
    dimension each; whose auxiliary coordinates are the auxiliary and derived
    coordinates of the template with every dimension shifted by one; and
    whose metadata are the template's, the unit replaced by [cube_unit] when
    it is given. *)
Theorem create_cube_with_percentiles_spec
    (unit_is_valid : string -> bool)
    (percentiles : list Q) (template_cube : Cube) (cube_data : ndarray)
    (custom_name cube_unit : option string)
    (Hmonotonic : monotonic_as_float32 percentiles = true)
    (Htemplate : Cube_wf template_cube)
    (Hshape : arr_shape cube_data = length percentiles :: shape template_cube)
    (Hfresh :
       List.Forall
         (fun co =>
            coord_defn_eqb
              (percentile_coord percentiles
                 (py_or custom_name "percentile_over_realization")) co
            = false)
         (all_coords template_cube))
    (Hunit :
       match cube_unit with
       | Some u => unit_is_valid u = true
       | None => True
       end) :
  exists result,
    create_cube_with_percentiles unit_is_valid percentiles template_cube
      cube_data custom_name cube_unit = Ok result
    /\ data result = cube_data
    /\ shape result = length percentiles :: shape template_cube
    /\ dim_coords_and_dims result
       = (percentile_coord percentiles
            (py_or custom_name "percentile_over_realization"), 0%nat)
         :: map (fun cd => (fst cd, (snd cd + 1)%nat))
              (dim_coords_and_dims template_cube)
    /\ aux_coords_and_dims result
       = map (fun cd => (fst cd, map (fun dim => (dim + 1)%nat) (snd cd)))
           (aux_coords_and_dims template_cube
            ++ derived_coords_and_dims template_cube)
    /\ derived_coords_and_dims result = []
    /\ coord_units
         (percentile_coord percentiles
            (py_or custom_name "percentile_over_realization")) = "%"
    /\ arr_flat
         (coord_points
            (percentile_coord percentiles
               (py_or custom_name "percentile_over_realization")))
       = map round32 percentiles
    /\ standard_name (metadata result) = standard_name (metadata template_cube)
    /\ long_name (metadata result) = long_name (metadata template_cube)
    /\ var_name (metadata result) = var_name (metadata template_cube)
    /\ attributes (metadata result) = attributes (metadata template_cube)
    /\ cell_methods (metadata result) = cell_methods (metadata template_cube)
    /\ units (metadata result)
       = match cube_unit with
         | Some u => u
         | None => units (metadata template_cube)
         end.
Proof.
  destruct (create_cube_with_percentiles_result unit_is_valid percentiles
              template_cube cube_data custom_name cube_unit Hmonotonic
              Htemplate Hshape Hfresh Hunit)
    as [c0 [Hrun [Hdata [Hsn [Hln [Hvn [Hat [Hcm Hun]]]]]]]].
  eexists. split; [exact Hrun |]. cbn [data metadata dim_coords_and_dims
    aux_coords_and_dims derived_coords_and_dims].
  split; [exact Hdata |].
  split; [unfold shape; cbn [data]; rewrite Hdata; exact Hshape |].
  split; [reflexivity |]. split; [reflexivity |]. split; [reflexivity |].
  split; [reflexivity |]. split; [reflexivity |].
  repeat split; assumption.
Qed.

Lemma example_template_33_wf : Cube_wf example_template_33.
Proof.
  constructor.
  - repeat constructor.
  - repeat constructor; simpl; intuition discriminate.
  - repeat constructor.
  - unfold distinct_definitions. repeat constructor.
Qed.

(** The template of shape (3, 3) with data of shape (10, 3, 3) and ten
    percentiles: the result has the shape (10, 3, 3), the percentile
    coordinate on dimension 0 and every dimension of the template's
    coordinates moved up by one. *)
Lemma create_cube_with_percentiles_spec_witness :
  exists result,
    create_cube_with_percentiles example_unit_is_valid example_percentiles
      example_template_33 (np_zeros [10; 3; 3]%nat) None (Some "mK")
    = Ok result
    /\ shape result = [10; 3; 3]%nat
    /\ map (fun cd => (coord_name (fst cd), snd cd)) (dim_coords_and_dims result)
       = [("percentile_over_realization", 0%nat); ("latitude", 1%nat);
          ("longitude", 2%nat)]
    /\ map (fun cd => (coord_name (fst cd), snd cd)) (aux_coords_and_dims result)
       = [("grid_row", [1%nat]); ("forecast_period", []);
          ("altitude", [1%nat; 2%nat])]
    /\ units (metadata result) = "mK".
Proof.
  destruct (create_cube_with_percentiles_spec example_unit_is_valid
              example_percentiles example_template_33
              (np_zeros [10; 3; 3]%nat) None (Some "mK"))
    as [result [Hrun [_ [Hshape [Hdims [Haux [_ [_ [_ [_ [_ [_ [_ [_ Hunits]]]]]]]]]]]]]].
  - vm_compute. reflexivity.
  - exact example_template_33_wf.
  - reflexivity.
  - repeat constructor.
  - reflexivity.
  - exists result. split; [exact Hrun |]. split; [exact Hshape |].
    split; [rewrite Hdims; reflexivity |].
    split; [rewrite Haux; reflexivity |]. exact Hunits.
Defined.


Lemma ensure_monotonic_in_chosen_direction_data
    (self : Vertical.VerticalIntegration) (cube cube' : Vertical.Cube) :
  Vertical.ensure_monotonic_in_chosen_direction self cube = Ok cube' ->
  Vertical.data cube' = Vertical.data cube.
Proof.
  unfold Vertical.ensure_monotonic_in_chosen_direction.
  destruct (Vertical.coord_points cube (Vertical.coord_name_to_integrate self))
    as [points | e]; [| discriminate].
  simpl bind.
  repeat match goal with
         | |- context [if ?b then _ else _] => destruct b
         end;
    intros H; injection H as <-; reflexivity.
Qed.

(** [process] returns the lower-level cube, oriented: the loop stores its sums
    in the slices, and no slice is the cube. *)
Lemma process_returns_lower_level_cube
    (self : Vertical.VerticalIntegration) (cube integrated : Vertical.Cube) :
  Vertical.process self cube = Ok integrated ->
  exists points lower_level_cube,
    Vertical.coord_points cube (Vertical.coord_name_to_integrate self)
    = Ok points
    /\ Vertical.extract cube (Vertical.coord_name_to_integrate self)
         (tl points) = Some lower_level_cube
    /\ Vertical.ensure_monotonic_in_chosen_direction self lower_level_cube
       = Ok integrated.
Proof.
  unfold Vertical.process.
  destruct (Vertical.coord_points cube (Vertical.coord_name_to_integrate self))
    as [points | e]; [| discriminate].
  simpl bind.
  destruct (Vertical.extract cube _ (removelast points)) as [upper |];
    [| discriminate].
  destruct (Vertical.extract cube _ (tl points)) as [lower |] eqn:Hextract;
    [| discriminate].
  destruct (Vertical.ensure_monotonic_in_chosen_direction self upper)
    as [upper' | e]; [| discriminate].
  simpl bind.
  destruct (Vertical.ensure_monotonic_in_chosen_direction self lower)
    as [lower' | e] eqn:Hlower; [| discriminate].
  simpl bind.
  destruct (Vertical.slices_over upper' _) as [us | e]; [| discriminate].
  simpl bind.
  destruct (Vertical.slices_over lower' _) as [ls | e]; [| discriminate].
  simpl bind. intros H. injection H as <-.
  exists points, lower. split; [reflexivity |]. split; [exact Hextract |].
  exact Hlower.
Qed.

(** Whatever the cube, [process] without bounds (or with bounds of zero)
    returns the data of the lower-level cube as it is: no layer is
    integrated. *)
Lemma process_without_bounds_returns_lower_levels
    (self : Vertical.VerticalIntegration) (cube integrated : Vertical.Cube) :
  Vertical.truthy (Vertical.start_point self) = false ->
  Vertical.truthy (Vertical.end_point self) = false ->
  Vertical.process self cube = Ok integrated ->
  exists points lower_level_cube,
    Vertical.coord_points cube (Vertical.coord_name_to_integrate self)
    = Ok points
    /\ Vertical.extract cube (Vertical.coord_name_to_integrate self)
         (tl points) = Some lower_level_cube
    /\ Vertical.data integrated = Vertical.data lower_level_cube.
Proof.
  intros _ _ Hrun.
  destruct (process_returns_lower_level_cube self cube integrated Hrun)
    as [points [lower [Hp [He Hm]]]].
  exists points, lower. split; [exact Hp |]. split; [exact He |].
  exact (ensure_monotonic_in_chosen_direction_data self lower integrated Hm).
Qed.

(** *** Vertical integration *)

Lemma ensure_monotonic_in_chosen_direction_ext
    (s1 s2 : Vertical.VerticalIntegration) (cube : Vertical.Cube) :
  Vertical.coord_name_to_integrate s1 = Vertical.coord_name_to_integrate s2 ->
  Vertical.direction_of_integration s1 = Vertical.direction_of_integration s2 ->
  Vertical.ensure_monotonic_in_chosen_direction s1 cube
  = Vertical.ensure_monotonic_in_chosen_direction s2 cube.
Proof.
  intros Hn Hd. unfold Vertical.ensure_monotonic_in_chosen_direction.
  rewrite Hn, Hd. reflexivity.
Qed.

(** [process] depends on the bounds through the two tests of the loop
    only. *)
Lemma process_bounds_ext
    (s1 s2 : Vertical.VerticalIntegration) (cube : Vertical.Cube) :
  Vertical.coord_name_to_integrate s1 = Vertical.coord_name_to_integrate s2 ->
  Vertical.direction_of_integration s1 = Vertical.direction_of_integration s2 ->
  (forall depth,
      Vertical.and_below (Vertical.start_point s1) depth
      = Vertical.and_below (Vertical.start_point s2) depth) ->
  (forall depth,
      Vertical.and_above (Vertical.end_point s1) depth
      = Vertical.and_above (Vertical.end_point s2) depth) ->
  Vertical.process s1 cube = Vertical.process s2 cube.
Proof.
  intros Hn Hd _ _. unfold Vertical.process. rewrite <- Hn.
  destruct (Vertical.coord_points cube (Vertical.coord_name_to_integrate s1))
    as [points | e]; [| reflexivity].
  simpl bind.
  destruct (Vertical.extract cube _ (removelast points)) as [upper |];
    [| reflexivity].
  destruct (Vertical.extract cube _ (tl points)) as [lower |]; [| reflexivity].
  rewrite <- !(ensure_monotonic_in_chosen_direction_ext s1 s2) by assumption.
  reflexivity.
Qed.

(** C9: a bound that is zero is not applied: [process] with a start point (or
    an end point) of zero returns what it returns without that bound. *)
Theorem process_zero_bound_is_unset
    (name direction : string) (start_point end_point : option Q)
    (zero : Q) (cube : Vertical.Cube) (Hzero : (zero == 0)%Q) :
  Vertical.process
    (Vertical.mk_VerticalIntegration name (Some zero) end_point direction) cube
  = Vertical.process
      (Vertical.mk_VerticalIntegration name None end_point direction) cube
  /\ Vertical.process
       (Vertical.mk_VerticalIntegration name start_point (Some zero) direction)
       cube
     = Vertical.process
         (Vertical.mk_VerticalIntegration name start_point None direction) cube
  /\ (forall depth,
         Vertical.and_below (Some zero) depth = false
         /\ Vertical.and_above (Some zero) depth = false).
Proof.
  assert (Hz : Qeq_bool zero 0 = true) by (apply Qeq_bool_iff; exact Hzero).
  assert (Htests : forall depth,
             Vertical.and_below (Some zero) depth = false
             /\ Vertical.and_above (Some zero) depth = false).
  { intros depth. unfold Vertical.and_below, Vertical.and_above,
      Vertical.truthy. rewrite Hz. split; reflexivity. }
  split; [| split; [| exact Htests]].
  - apply process_bounds_ext; try reflexivity.
    intros depth. simpl. apply Htests.
  - apply process_bounds_ext; try reflexivity.
    intros depth. simpl. apply Htests.
Qed.

Lemma process_zero_bound_is_unset_witness :
  Vertical.process
    (Vertical.mk_VerticalIntegration "height" (Some 0%Q) (Some 15%Q) "upwards")
    example_levels_cube
  = Vertical.process
      (Vertical.mk_VerticalIntegration "height" None (Some 15%Q) "upwards")
      example_levels_cube
  /\ Vertical.process
       (Vertical.mk_VerticalIntegration "height" (Some 15%Q) (Some 0%Q)
          "upwards")
       example_levels_cube
     = Vertical.process
         (Vertical.mk_VerticalIntegration "height" (Some 15%Q) None "upwards")
         example_levels_cube.
Proof.
  destruct (process_zero_bound_is_unset "height" "upwards" (Some 15%Q)
              (Some 15%Q) 0%Q example_levels_cube) as [Hs [He _]].
  - reflexivity.
  - split; [exact Hs | exact He].
Defined.

(** C10: the returned cube holds the data of the given cube; its coordinates
    are the given ones, or the given ones with the points of the chosen
    coordinate reversed.  The call raises only when the cube does not have the
    coordinate. *)
Theorem ensure_monotonic_in_chosen_direction_keeps_data
    (self : Vertical.VerticalIntegration) (cube : Vertical.Cube) :
  match Vertical.ensure_monotonic_in_chosen_direction self cube with
  | Ok cube' =>
      Vertical.data cube' = Vertical.data cube
      /\ exists points,
           Vertical.coord_points cube (Vertical.coord_name_to_integrate self)
           = Ok points
           /\ (cube' = cube
               \/ cube'
                  = Vertical.set_coord_points cube
                      (Vertical.coord_name_to_integrate self) (rev points))
  | Raise e =>
      Vertical.coord_points cube (Vertical.coord_name_to_integrate self)
      = Raise e
  end.
Proof.
  unfold Vertical.ensure_monotonic_in_chosen_direction.
  destruct (Vertical.coord_points cube (Vertical.coord_name_to_integrate self))
    as [points | e]; [| reflexivity].
  simpl bind.
  repeat match goal with
         | |- context [if ?b then _ else _] => destruct b
         end;
    (split; [reflexivity |]); exists points; (split; [reflexivity |]);
    (left; reflexivity) || (right; reflexivity).
Qed.

(** Levels listed downwards, integrated upwards: the points are reversed and
    every level keeps its data. *)
Example ensure_monotonic_in_chosen_direction_reverses_points_only :
  Vertical.ensure_monotonic_in_chosen_direction
    (Vertical.mk_VerticalIntegration "height" None None "upwards")
    example_descending_cube
  = Ok (Vertical.mk_Cube [("height", [10; 20; 30]%Q)]
          [[1%Q]; [2%Q]; [3%Q]]).
Proof. reflexivity. Qed.

(** C1: [process] integrates nothing into its result.  For the levels 0, 10,
    20, 30 with the value 1 everywhere it returns the values 1, 1, 1 of the
    three levels it keeps, not the sums 10, 20, 30, and it returns them
    whatever the start and the end point are.  The loop does compute sums,
    for the layers that lie outside of a bound that is set: with the start
    point 15 the layer from 0 to 10 adds -10 to [layer_sum] and the layer
    from 20 to 30 adds nothing; the sum is stored in the slice. *)
Theorem process_returns_the_lower_levels_unchanged :
  Vertical.process
    (Vertical.mk_VerticalIntegration "height" None None "upwards")
    example_levels_cube
  = Ok (Vertical.mk_Cube [("height", [10; 20; 30]%Q)] [[1%Q]; [1%Q]; [1%Q]])
  /\ (forall start_point end_point : option Q,
        Vertical.process
          (Vertical.mk_VerticalIntegration "height" start_point end_point
             "upwards")
          example_levels_cube
        = Ok (Vertical.mk_Cube [("height", [10; 20; 30]%Q)]
                [[1%Q]; [1%Q]; [1%Q]]))
  /\ (exists layer_sum integrated_slice,
        Vertical.process_level example_start_15 (Vertical.Scalar 0)
          (Vertical.mk_Slice 0 [1%Q]) (Vertical.mk_Slice 10 [1%Q])
          (Vertical.mk_Slice 10 [1%Q])
        = (Vertical.Array layer_sum, integrated_slice)
        /\ Forall2 Qeq layer_sum [(-10)%Q]
        /\ Vertical.slice_data integrated_slice = layer_sum)
  /\ Vertical.process_level example_start_15 (Vertical.Scalar 0)
       (Vertical.mk_Slice 20 [1%Q]) (Vertical.mk_Slice 30 [1%Q])
       (Vertical.mk_Slice 30 [1%Q])
     = (Vertical.Scalar 0, Vertical.mk_Slice 30 [1%Q]).
Proof.
  split; [reflexivity |]. split; [intros start_point end_point; reflexivity |].
  split; [| reflexivity].
  eexists. eexists. split; [reflexivity |]. split; [| reflexivity].
  repeat constructor.
Qed.

(** ** Further properties of vertical integration *)

Lemma coord_points_map_points (f : list Q -> list Q)
    (cs : list (string * list Q)) (d d' : list (list Q)) (name : string)
    (points : list Q) :
  Vertical.coord_points (Vertical.mk_Cube cs d) name = Ok points ->
  Vertical.coord_points
    (Vertical.mk_Cube (map (fun c => (fst c, f (snd c))) cs) d') name
  = Ok (f points).
Proof.
  unfold Vertical.coord_points. simpl.
  assert (H : List.filter (fun c => String.eqb (fst c) name)
                (map (fun c : string * list Q => (fst c, f (snd c))) cs)
              = map (fun c => (fst c, f (snd c)))
                  (List.filter (fun c => String.eqb (fst c) name) cs)).
  { induction cs as [| c cs IH]; [reflexivity |]. simpl.
    destruct (String.eqb (fst c) name); simpl; rewrite IH; reflexivity. }
  rewrite H.
  destruct (List.filter (fun c => String.eqb (fst c) name) cs)
    as [| c [| c' l]]; try discriminate.
  intros Hc. injection Hc as <-. reflexivity.
Qed.

Lemma coord_points_set_coord_points (cube : Vertical.Cube) (name : string)
    (points new_points : list Q) :
  Vertical.coord_points cube name = Ok points ->
  Vertical.coord_points (Vertical.set_coord_points cube name new_points) name
  = Ok new_points.
Proof.
  unfold Vertical.coord_points, Vertical.set_coord_points. simpl.
  assert (H : List.filter (fun c => String.eqb (fst c) name)
                (map (fun c : string * list Q =>
                        if String.eqb (fst c) name then (fst c, new_points)
                        else c)
                   (Vertical.coords cube))
              = map (fun c => (fst c, new_points))
                  (List.filter (fun c => String.eqb (fst c) name)
                     (Vertical.coords cube))).
  { induction (Vertical.coords cube) as [| c cs IH]; [reflexivity |]. simpl.
    destruct (String.eqb (fst c) name) eqn:E; simpl; rewrite ?E, IH;
      reflexivity. }
  rewrite H.
  destruct (List.filter (fun c => String.eqb (fst c) name)
              (Vertical.coords cube)) as [| c [| c' l]]; try discriminate.
  intros _. reflexivity.
Qed.

(** What [ensure_monotonic_in_chosen_direction] returns for a cube that has
    the coordinate. *)
Lemma ensure_monotonic_in_chosen_direction_oriented
    (self : Vertical.VerticalIntegration) (cube : Vertical.Cube)
    (points : list Q) :
  Vertical.coord_points cube (Vertical.coord_name_to_integrate self)
  = Ok points ->
  exists cube',
    Vertical.ensure_monotonic_in_chosen_direction self cube = Ok cube'
    /\ Vertical.coord_points cube' (Vertical.coord_name_to_integrate self)
       = Ok (oriented self points)
    /\ Vertical.data cube' = Vertical.data cube.
Proof.
  intros Hp. unfold Vertical.ensure_monotonic_in_chosen_direction, oriented.
  rewrite Hp. simpl bind.
  repeat match goal with
         | |- context [if ?b then _ else _] => destruct b
         end;
    eexists; (split; [reflexivity |]); (split; [| reflexivity]);
    (exact Hp || exact (coord_points_set_coord_points _ _ _ _ Hp)).
Qed.

Lemma select_all_but_last {A : Type} (n : nat) (l : list A) :
  Vertical.select (replicate n true ++ [false]) l = firstn n l.
Proof.
  unfold Vertical.select. revert l.
  induction n as [| n IH]; intros l.
  - destruct l; reflexivity.
  - destruct l as [| x l]; [reflexivity |]. simpl. f_equal. apply IH.
Qed.

Lemma select_all_but_first {A : Type} (n : nat) (l : list A) :
  Vertical.select (false :: replicate n true) l = firstn n (tl l).
Proof.
  unfold Vertical.select. destruct l as [| x l]; [destruct n; reflexivity |].
  simpl. revert l. induction n as [| n IH]; intros l.
  - destruct l; reflexivity.
  - destruct l as [| y l]; [reflexivity |]. simpl. f_equal. apply IH.
Qed.

Lemma Qeq_bool_refl (q : Q) : Qeq_bool q q = true.
Proof. apply Qeq_bool_iff. reflexivity. Qed.

Lemma mask_of_own_points (l values : list Q) :
  incl l values ->
  map (fun p => existsb (Qeq_bool p) values) l = replicate (length l) true.
Proof.
  induction l as [| x l IH]; intros Hincl; [reflexivity |]. simpl.
  rewrite IH by (intros y Hy; apply Hincl; right; exact Hy).
  f_equal. apply existsb_exists. exists x. split.
  - apply Hincl. left. reflexivity.
  - apply Qeq_bool_refl.
Qed.

Lemma distinct_points_app_last (l : list Q) (x : Q) :
  distinct_points (l ++ [x]) -> existsb (Qeq_bool x) l = false.
Proof.
  intros H. apply not_true_is_false. intros Hex.
  apply existsb_exists in Hex. destruct Hex as [q [Hq Heq]].
  apply Qeq_bool_iff in Heq.
  apply (FOP_before (fun p q => ~ (p == q)%Q) l [] x) in H.
  rewrite List.Forall_forall in H. apply (H q Hq). symmetry. exact Heq.
Qed.

Lemma distinct_points_head (x : Q) (l : list Q) :
  distinct_points (x :: l) -> existsb (Qeq_bool x) l = false.
Proof.
  intros H. apply not_true_is_false. intros Hex.
  apply existsb_exists in Hex. destruct Hex as [q [Hq Heq]].
  apply Qeq_bool_iff in Heq.
  inversion H as [| ? ? Hx _]; subst.
  rewrite List.Forall_forall in Hx. exact (Hx q Hq Heq).
Qed.

Lemma mask_upper_levels (points : list Q) :
  points <> [] ->
  distinct_points points ->
  map (fun p => existsb (Qeq_bool p) (removelast points)) points
  = replicate (length points - 1) true ++ [false].
Proof.
  intros Hne Hd.
  destruct (@exists_last _ points Hne) as [l [x ->]].
  rewrite removelast_last, map_app, length_app. simpl.
  replace (length l + 1 - 1)%nat with (length l) by lia.
  rewrite mask_of_own_points by (intros y Hy; exact Hy).
  rewrite (distinct_points_app_last l x Hd). reflexivity.
Qed.

Lemma mask_lower_levels (points : list Q) :
  points <> [] ->
  distinct_points points ->
  map (fun p => existsb (Qeq_bool p) (tl points)) points
  = false :: replicate (length points - 1) true.
Proof.
  intros Hne Hd. destruct points as [| x l]; [contradiction |]. simpl.
  rewrite (distinct_points_head x l Hd).
  rewrite mask_of_own_points by (intros y Hy; exact Hy).
  replace (length l - 0)%nat with (length l) by lia. reflexivity.
Qed.

Lemma firstn_pred_removelast {A : Type} (l : list A) :
  firstn (length l - 1) l = removelast l.
Proof.
  destruct l as [| a l]; [reflexivity |].
  destruct (@exists_last _ (a :: l)) as [l' [y Hl]]; [discriminate |].
  rewrite Hl, removelast_last, length_app. simpl.
  replace (length l' + 1 - 1)%nat with (length l') by lia.
  rewrite firstn_app, Nat.sub_diag, firstn_all. simpl. apply app_nil_r.
Qed.

Lemma firstn_pred_tl {A : Type} (l : list A) :
  firstn (length l - 1) (tl l) = tl l.
Proof.
  destruct l as [| a l]; [reflexivity |]. simpl.
  replace (length l - 0)%nat with (length l) by lia. apply firstn_all.
Qed.

Lemma extract_upper_levels (cube : Vertical.Cube) (name : string)
    (points : list Q) :
  Vertical.coord_points cube name = Ok points ->
  distinct_points points ->
  (2 <= length points)%nat ->
  Vertical.extract cube name (removelast points)
  = Some (Vertical.mk_Cube
            (map (fun c => (fst c, firstn (length points - 1) (snd c)))
               (Vertical.coords cube))
            (firstn (length points - 1) (Vertical.data cube))).
Proof.
  intros Hp Hd Hn. unfold Vertical.extract. rewrite Hp.
  rewrite mask_upper_levels by (assumption || (destruct points; simpl in *;
                                               [lia | discriminate])).
  replace (existsb (fun b : bool => b)
             (replicate (length points - 1) true ++ [false])) with true.
  - f_equal. f_equal.
    + apply map_ext. intros c. rewrite select_all_but_last. reflexivity.
    + apply select_all_but_last.
  - symmetry. destruct (length points - 1)%nat eqn:E; [lia | reflexivity].
Qed.

Lemma extract_lower_levels (cube : Vertical.Cube) (name : string)
    (points : list Q) :
  Vertical.coord_points cube name = Ok points ->
  distinct_points points ->
  (2 <= length points)%nat ->
  Vertical.extract cube name (tl points)
  = Some (Vertical.mk_Cube
            (map (fun c => (fst c, firstn (length points - 1) (tl (snd c))))
               (Vertical.coords cube))
            (firstn (length points - 1) (tl (Vertical.data cube)))).
Proof.
  intros Hp Hd Hn. unfold Vertical.extract. rewrite Hp.
  rewrite mask_lower_levels by (assumption || (destruct points; simpl in *;
                                               [lia | discriminate])).
  replace (existsb (fun b : bool => b)
             (false :: replicate (length points - 1) true)) with true.
  - f_equal. f_equal.
    + apply map_ext. intros c. rewrite select_all_but_first. reflexivity.
    + apply select_all_but_first.
  - symmetry. destruct (length points - 1)%nat eqn:E; [lia | reflexivity].
Qed.

(** For a cube that has the coordinate with pairwise different points, at
    least two levels and data for every level, [process] returns the levels
    but the first as the cube has them, with the chosen coordinate
    oriented. *)
Lemma process_lower_levels
    (self : Vertical.VerticalIntegration) (cube : Vertical.Cube)
    (points : list Q)
    (Hpoints :
       Vertical.coord_points cube (Vertical.coord_name_to_integrate self)
       = Ok points)
    (Hdistinct : distinct_points points)
    (Hlevels : (2 <= length points)%nat)
    (Hdata : length (Vertical.data cube) = length points) :
  exists integrated,
    Vertical.process self cube = Ok integrated
    /\ Vertical.coord_points integrated (Vertical.coord_name_to_integrate self)
       = Ok (oriented self (tl points))
    /\ Vertical.data integrated = tl (Vertical.data cube).
Proof.
  unfold Vertical.process. rewrite Hpoints. simpl bind.
  rewrite (extract_upper_levels _ _ _ Hpoints Hdistinct Hlevels).
  rewrite (extract_lower_levels _ _ _ Hpoints Hdistinct Hlevels).
  destruct cube as [cs d]. simpl Vertical.coords. simpl Vertical.data in *.
  assert (Hup : Vertical.coord_points
                  (Vertical.mk_Cube
                     (map (fun c => (fst c, firstn (length points - 1) (snd c)))
                        cs)
                     (firstn (length points - 1) d))
                  (Vertical.coord_name_to_integrate self)
                = Ok (firstn (length points - 1) points))
    by (apply (coord_points_map_points
                 (fun l => firstn (length points - 1) l) cs d); exact Hpoints).
  assert (Hlow : Vertical.coord_points
                   (Vertical.mk_Cube
                      (map (fun c =>
                              (fst c, firstn (length points - 1) (tl (snd c))))
                         cs)
                      (firstn (length points - 1) (tl d)))
                   (Vertical.coord_name_to_integrate self)
                 = Ok (firstn (length points - 1) (tl points)))
    by (apply (coord_points_map_points
                 (fun l => firstn (length points - 1) (tl l)) cs d);
        exact Hpoints).
  rewrite firstn_pred_removelast in Hup. rewrite firstn_pred_tl in Hlow.
  destruct (ensure_monotonic_in_chosen_direction_oriented self _ _ Hup)
    as [upper' [Heu [Hpu Hdu]]].
  destruct (ensure_monotonic_in_chosen_direction_oriented self _ _ Hlow)
    as [lower' [Hel [Hpl Hdl]]].
  rewrite Heu, Hel. simpl bind.
  unfold Vertical.slices_over. rewrite Hpu, Hpl. simpl bind.
  eexists. split; [reflexivity |]. split; [exact Hpl |].
  rewrite Hdl. simpl Vertical.data.
  rewrite <- Hdata. apply firstn_pred_tl.
Qed.

Lemma nth_tl {A : Type} (l : list A) (i : nat) (d : A) :
  nth i (tl l) d = nth (S i) l d.
Proof. destruct l; [destruct i; reflexivity | reflexivity]. Qed.

Lemma length_tl' {A : Type} (l : list A) : length (tl l) = (length l - 1)%nat.
Proof. destruct l; simpl; lia. Qed.

Lemma example_levels_distinct : distinct_points [0; 10; 20; 30]%Q.
Proof.
  unfold distinct_points.
  repeat constructor; intros H; vm_compute in H; discriminate.
Qed.

(** X1: [process] integrates nothing into the cube it returns.  For a cube
    that has the coordinate with pairwise different points, at least two
    levels and data for every level, and for every start and end point, it
    returns the levels but the first with the data the cube has there, and
    with the chosen coordinate oriented as asked. *)
Theorem process_returns_the_lower_levels
    (self : Vertical.VerticalIntegration) (cube : Vertical.Cube)
    (points : list Q)
    (Hpoints :
       Vertical.coord_points cube (Vertical.coord_name_to_integrate self)
       = Ok points)
    (Hdistinct : distinct_points points)
    (Hlevels : (2 <= length points)%nat)
    (Hdata : length (Vertical.data cube) = length points) :
  exists integrated,
    Vertical.process self cube = Ok integrated
    /\ Vertical.coord_points integrated (Vertical.coord_name_to_integrate self)
       = Ok (oriented self (tl points))
    /\ Vertical.data integrated = tl (Vertical.data cube)
    /\ length (Vertical.data integrated) = (length points - 1)%nat.
Proof.
  destruct (process_lower_levels self cube points Hpoints Hdistinct Hlevels
              Hdata) as [integrated [Hrun [Hc Hd]]].
  exists integrated. split; [exact Hrun |]. split; [exact Hc |].
  split; [exact Hd |]. rewrite Hd, length_tl'. lia.
Qed.

Lemma process_returns_the_lower_levels_witness :
  exists integrated,
    Vertical.process example_start_15 example_levels_cube = Ok integrated
    /\ Vertical.coord_points integrated "height" = Ok [10; 20; 30]%Q
    /\ Vertical.data integrated = [[1]; [1]; [1]]%Q
    /\ length (Vertical.data integrated) = 3%nat.
Proof.
  apply (process_returns_the_lower_levels example_start_15
           example_levels_cube [0; 10; 20; 30]%Q).
  - reflexivity.
  - exact example_levels_distinct.
  - simpl. lia.
  - reflexivity.
Defined.

(** X2: under the same conditions a layer that is outside of the guard (its
    upper point is not below a set start point and its lower point is not
    above a set end point) is not integrated: the result holds, at the index
    of the layer, the data the cube has at the layer's lower level. *)
Theorem process_keeps_levels_outside_the_guard
    (self : Vertical.VerticalIntegration) (cube : Vertical.Cube)
    (points : list Q) (i : nat)
    (Hpoints :
       Vertical.coord_points cube (Vertical.coord_name_to_integrate self)
       = Ok points)
    (Hdistinct : distinct_points points)
    (Hlevels : (2 <= length points)%nat)
    (Hdata : length (Vertical.data cube) = length points)
    (Hi : (i < length points - 1)%nat)
    (Hbelow :
       Vertical.and_below (Vertical.start_point self)
         (nth i (oriented self (removelast points)) 0%Q) = false)
    (Habove :
       Vertical.and_above (Vertical.end_point self)
         (nth i (oriented self (tl points)) 0%Q) = false) :
  exists integrated,
    Vertical.process self cube = Ok integrated
    /\ nth i (Vertical.data integrated) [] = nth (S i) (Vertical.data cube) [].
Proof.
  destruct (process_lower_levels self cube points Hpoints Hdistinct Hlevels
              Hdata) as [integrated [Hrun [_ Hd]]].
  exists integrated. split; [exact Hrun |]. rewrite Hd. apply nth_tl.
Qed.

Lemma process_keeps_levels_outside_the_guard_witness :
  exists integrated,
    Vertical.process example_start_15 example_levels_cube = Ok integrated
    /\ nth 2 (Vertical.data integrated) [] = nth 3 [[1]; [1]; [1]; [1]]%Q [].
Proof.
  apply (process_keeps_levels_outside_the_guard example_start_15
           example_levels_cube [0; 10; 20; 30]%Q 2).
  - reflexivity.
  - exact example_levels_distinct.
  - simpl. lia.
  - reflexivity.
  - simpl. lia.
  - reflexivity.
  - reflexivity.
Defined.

(** X5: [process] raises the coordinate lookup's error when the cube does not
    have the coordinate, and an [AttributeError] when the coordinate has fewer
    than two points: the extraction of the levels then matches nothing and
    gives [None]. *)
Theorem process_needs_two_levels
    (self : Vertical.VerticalIntegration) (cube : Vertical.Cube) :
  (forall e,
      Vertical.coord_points cube (Vertical.coord_name_to_integrate self)
      = Raise e ->
      Vertical.process self cube = Raise e)
  /\ (forall points,
         Vertical.coord_points cube (Vertical.coord_name_to_integrate self)
         = Ok points ->
         (length points <= 1)%nat ->
         Vertical.process self cube
         = Raise (AttributeError "'NoneType' object has no attribute 'coord'")).
Proof.
  split.
  - intros e He. unfold Vertical.process. rewrite He. reflexivity.
  - intros points Hp Hlen. unfold Vertical.process, Vertical.extract.
    rewrite Hp. simpl bind.
    destruct points as [| p [| q points]]; [reflexivity | reflexivity |].
    simpl in Hlen. lia.
Qed.

Lemma process_needs_two_levels_witness :
  Vertical.process example_start_15
    (Vertical.mk_Cube [("pressure", [1000; 900]%Q)] [[1%Q]; [2%Q]])
  = Raise (CoordinateNotFoundError
             "Expected to find exactly 1 coordinate matching height")
  /\ Vertical.process example_start_15
       (Vertical.mk_Cube [("height", [10%Q])] [[1%Q]])
     = Raise (AttributeError "'NoneType' object has no attribute 'coord'").
Proof.
  split.
  - apply (proj1 (process_needs_two_levels example_start_15
                    (Vertical.mk_Cube [("pressure", [1000; 900]%Q)]
                       [[1%Q]; [2%Q]]))).
    reflexivity.
  - apply (proj2 (process_needs_two_levels example_start_15
                    (Vertical.mk_Cube [("height", [10%Q])] [[1%Q]]))
             [10%Q]).
    + reflexivity.
    + simpl. lia.
Defined.

(** X7: the constructor accepts the directions "upwards" and "downwards" and
    no other: it returns the configuration with the four values given, or
    raises a [ValueError] whose message names the direction. *)
Theorem init_validates_direction
    (coord_name direction : string) (start_point end_point : option Q) :
  (direction = "upwards" \/ direction = "downwards" ->
   Vertical.init coord_name start_point end_point direction
   = Ok (Vertical.mk_VerticalIntegration coord_name start_point end_point
           direction))
  /\ (direction <> "upwards" -> direction <> "downwards" ->
      exists msg,
        Vertical.init coord_name start_point end_point direction
        = Raise (ValueError msg)
        /\ names msg direction).
Proof.
  unfold Vertical.init. split.
  - intros [-> | ->]; reflexivity.
  - intros Hu Hd. apply String.eqb_neq in Hu, Hd. rewrite Hu, Hd. simpl.
    eexists. split; [reflexivity |].
    apply names_app_r, names_app_r, names_app_l, names_self.
Qed.

Lemma init_validates_direction_witness :
  Vertical.init "height" None (Some 5%Q) "downwards"
  = Ok (Vertical.mk_VerticalIntegration "height" None (Some 5%Q) "downwards")
  /\ exists msg,
       Vertical.init "height" None None "sideways" = Raise (ValueError msg)
       /\ names msg "sideways".
Proof.
  split.
  - apply (proj1 (init_validates_direction "height" "downwards" None
                    (Some 5%Q))).
    right. reflexivity.
  - apply (proj2 (init_validates_direction "height" "sideways" None None));
      discriminate.
Defined.

(** X6: whatever the cube, when both bounds are unset or zero [process]
    integrates nothing: the result holds the data of the lower-level cube
    (the levels whose point is among the points but the first). *)
Theorem process_without_bounds_integrates_nothing
    (self : Vertical.VerticalIntegration) (cube integrated : Vertical.Cube)
    (Hstart : Vertical.truthy (Vertical.start_point self) = false)
    (Hend : Vertical.truthy (Vertical.end_point self) = false)
    (Hrun : Vertical.process self cube = Ok integrated) :
  exists points lower_level_cube,
    Vertical.coord_points cube (Vertical.coord_name_to_integrate self)
    = Ok points
    /\ Vertical.extract cube (Vertical.coord_name_to_integrate self)
         (tl points) = Some lower_level_cube
    /\ Vertical.data integrated = Vertical.data lower_level_cube.
Proof.
  exact (process_without_bounds_returns_lower_levels self cube integrated
           Hstart Hend Hrun).
Qed.

Lemma process_without_bounds_integrates_nothing_witness :
  exists points lower_level_cube,
    Vertical.coord_points example_levels_cube "height" = Ok points
    /\ Vertical.extract example_levels_cube "height" (tl points)
       = Some lower_level_cube
    /\ Vertical.data
         (Vertical.mk_Cube [("height", [10; 20; 30]%Q)] [[1%Q]; [1%Q]; [1%Q]])
       = Vertical.data lower_level_cube.
Proof.
  apply (process_without_bounds_integrates_nothing
           (Vertical.mk_VerticalIntegration "height" None (Some 0%Q) "upwards")
           example_levels_cube
           (Vertical.mk_Cube [("height", [10; 20; 30]%Q)]
              [[1%Q]; [1%Q]; [1%Q]])); reflexivity.
Defined.

Lemma Qlt_bool_diff (x y : Q) : Qlt_bool 0 (y - x) = Qlt_bool x y.
Proof.
  unfold Qlt_bool. f_equal.
  destruct (Qle_bool (y - x) 0) eqn:E1, (Qle_bool y x) eqn:E2; try reflexivity.
  - apply Qle_bool_iff in E1.
    assert (H : (y <= x)%Q) by lra.
    apply Qle_bool_iff in H. congruence.
  - apply Qle_bool_iff in E2.
    assert (H : (y - x <= 0)%Q) by lra.
    apply Qle_bool_iff in H. congruence.
Qed.

Lemma np_diff_positive (l : list Q) :
  forallb (fun d => Qlt_bool 0 d) (Vertical.np_diff l) = strictly_increasing l.
Proof.
  induction l as [| x l IH]; [reflexivity |].
  destruct l as [| y l]; [reflexivity |].
  change (Vertical.np_diff (x :: y :: l))
    with ((y - x)%Q :: Vertical.np_diff (y :: l)).
  change (strictly_increasing (x :: y :: l))
    with (Qlt_bool x y && strictly_increasing (y :: l)).
  cbn [forallb]. rewrite IH, Qlt_bool_diff. reflexivity.
Qed.

Lemma strictly_increasing_app_last (l : list Q) (x : Q) :
  strictly_increasing (l ++ [x])
  = strictly_increasing l
    && match l with
       | [] => true
       | _ :: _ => Qlt_bool (List.last l 0%Q) x
       end.
Proof.
  induction l as [| a l IH]; [reflexivity |].
  destruct l as [| b l].
  - simpl. rewrite andb_true_r. reflexivity.
  - change (strictly_increasing ((a :: b :: l) ++ [x]))
      with (Qlt_bool a b && strictly_increasing ((b :: l) ++ [x])).
    rewrite IH.
    change (strictly_increasing (a :: b :: l))
      with (Qlt_bool a b && strictly_increasing (b :: l)).
    rewrite andb_assoc. reflexivity.
Qed.

Lemma strictly_increasing_rev (l : list Q) :
  strictly_increasing (rev l) = strictly_decreasing l.
Proof.
  induction l as [| a l IH]; [reflexivity |].
  simpl rev. rewrite strictly_increasing_app_last, IH.
  destruct l as [| b l]; [reflexivity |].
  simpl rev. rewrite List.last_last.
  change (strictly_decreasing (a :: b :: l))
    with (Qlt_bool b a && strictly_decreasing (b :: l)).
  destruct (rev l ++ [b]) eqn:E.
  - destruct (rev l); discriminate.
  - apply andb_comm.
Qed.

Lemma strictly_decreasing_rev (l : list Q) :
  strictly_decreasing (rev l) = strictly_increasing l.
Proof.
  rewrite <- strictly_increasing_rev, rev_involutive. reflexivity.
Qed.

(** X8: on a coordinate whose points are strictly increasing or strictly
    decreasing, [ensure_monotonic_in_chosen_direction] returns a cube whose
    points increase strictly when the direction is "upwards" and decrease
    strictly when it is "downwards". *)
Theorem ensure_monotonic_in_chosen_direction_orients
    (self : Vertical.VerticalIntegration) (cube : Vertical.Cube)
    (points : list Q)
    (Hpoints :
       Vertical.coord_points cube (Vertical.coord_name_to_integrate self)
       = Ok points)
    (Hmonotonic :
       strictly_increasing points = true \/ strictly_decreasing points = true) :
  exists cube' points',
    Vertical.ensure_monotonic_in_chosen_direction self cube = Ok cube'
    /\ Vertical.coord_points cube' (Vertical.coord_name_to_integrate self)
       = Ok points'
    /\ (Vertical.direction_of_integration self = "upwards" ->
        strictly_increasing points' = true)
    /\ (Vertical.direction_of_integration self = "downwards" ->
        strictly_decreasing points' = true).
Proof.
  destruct (ensure_monotonic_in_chosen_direction_oriented self cube points
              Hpoints) as [cube' [Hrun [Hp' _]]].
  exists cube', (oriented self points).
  split; [exact Hrun |]. split; [exact Hp' |].
  unfold oriented. rewrite np_diff_positive.
  destruct (strictly_increasing points) eqn:Hinc.
  - split; intros ->; simpl.
    + exact Hinc.
    + rewrite strictly_decreasing_rev. exact Hinc.
  - destruct Hmonotonic as [H | Hdec]; [discriminate |].
    split; intros ->; simpl.
    + rewrite strictly_increasing_rev. exact Hdec.
    + exact Hdec.
Qed.

Lemma ensure_monotonic_in_chosen_direction_orients_witness :
  exists cube' points',
    Vertical.ensure_monotonic_in_chosen_direction example_start_15
      example_descending_cube = Ok cube'
    /\ Vertical.coord_points cube' "height" = Ok points'
    /\ ("upwards" = "upwards" -> strictly_increasing points' = true)
    /\ ("upwards" = "downwards" -> strictly_decreasing points' = true).
Proof.
  apply (ensure_monotonic_in_chosen_direction_orients example_start_15
           example_descending_cube [30; 20; 10]%Q).
  - reflexivity.
  - right. reflexivity.
Defined.

(** X9: [ensure_monotonic_in_chosen_direction] checks nothing: the only error
    it raises is the coordinate lookup's, and for a coordinate whose points
    are not strictly monotonic it returns a cube whose points are not
    strictly monotonic either. *)
Theorem ensure_monotonic_in_chosen_direction_never_rejects
    (self : Vertical.VerticalIntegration) (cube : Vertical.Cube) :
  (forall e,
      Vertical.ensure_monotonic_in_chosen_direction self cube = Raise e ->
      exists msg, e = CoordinateNotFoundError msg)
  /\ (forall points,
         Vertical.coord_points cube (Vertical.coord_name_to_integrate self)
         = Ok points ->
         strictly_monotonic points = false ->
         exists cube' points',
           Vertical.ensure_monotonic_in_chosen_direction self cube = Ok cube'
           /\ Vertical.coord_points cube'
                (Vertical.coord_name_to_integrate self) = Ok points'
           /\ strictly_monotonic points' = false).
Proof.
  split.
  - intros e He.
    destruct (Vertical.coord_points cube
                (Vertical.coord_name_to_integrate self)) as [points | e']
      eqn:Hp.
    + destruct (ensure_monotonic_in_chosen_direction_oriented self cube points
                  Hp) as [cube' [Hrun _]].
      rewrite Hrun in He. discriminate.
    + unfold Vertical.ensure_monotonic_in_chosen_direction in He.
      rewrite Hp in He. simpl in He. injection He as <-.
      unfold Vertical.coord_points in Hp.
      destruct (List.filter _ _) as [| c [| c' l]] in Hp;
        try discriminate; injection Hp as <-; eexists; reflexivity.
  - intros points Hp Hnot.
    destruct (ensure_monotonic_in_chosen_direction_oriented self cube points
                Hp) as [cube' [Hrun [Hp' _]]].
    exists cube', (oriented self points).
    split; [exact Hrun |]. split; [exact Hp' |].
    assert (Hrev : strictly_monotonic (rev points) = false).
    { unfold strictly_monotonic in *. rewrite rev_involutive, orb_comm.
      exact Hnot. }
    unfold oriented.
    repeat match goal with
           | |- context [if ?b then _ else _] => destruct b
           end; assumption.
Qed.

Lemma ensure_monotonic_in_chosen_direction_never_rejects_witness :
  exists cube' points',
    Vertical.ensure_monotonic_in_chosen_direction example_start_15
      (Vertical.mk_Cube [("height", [0; 20; 10]%Q)] [[1%Q]; [2%Q]; [3%Q]])
    = Ok cube'
    /\ Vertical.coord_points cube' "height" = Ok points'
    /\ strictly_monotonic points' = false.
Proof.
  apply (proj2 (ensure_monotonic_in_chosen_direction_never_rejects
                  example_start_15
                  (Vertical.mk_Cube [("height", [0; 20; 10]%Q)]
                     [[1%Q]; [2%Q]; [3%Q]]))
           [0; 20; 10]%Q); reflexivity.
Defined.


(** ** Further properties of the percentiles *)

Local Open Scope Q_scope.

Lemma Qle_bool_false_le (x y : Q) : Qle_bool y x = false -> Qle_bool x y = true.
Proof.
  intros H. apply Qle_bool_iff.
  destruct (Qlt_le_dec x y) as [Hlt | Hle]; [lra |].
  apply Qle_bool_iff in Hle. congruence.
Qed.

Lemma ascending_cons (x : Q) (l : list Q) :
  ascending (x :: l)
  = match l with
    | [] => true
    | y :: _ => Qle_bool x y && ascending l
    end.
Proof. destruct l; reflexivity. Qed.

Lemma ascending_insert_sorted (x : Q) (l : list Q) :
  ascending l = true -> ascending (insert_sorted x l) = true.
Proof.
  induction l as [| y l IH]; intros Hl; [reflexivity |].
  simpl insert_sorted. destruct (Qle_bool y x) eqn:Hyx.
  - rewrite ascending_cons in Hl. destruct l as [| z l].
    + simpl. rewrite Hyx. reflexivity.
    + apply andb_true_iff in Hl. destruct Hl as [Hyz Hzl].
      specialize (IH Hzl). simpl insert_sorted in *.
      destruct (Qle_bool z x) eqn:Hzx.
      * rewrite ascending_cons, Hyz, IH. reflexivity.
      * rewrite ascending_cons, Hyx. simpl andb. exact IH.
  - rewrite ascending_cons, (Qle_bool_false_le x y Hyx), Hl. reflexivity.
Qed.

Lemma insert_sorted_Forall (P : Q -> Prop) (x : Q) (l : list Q) :
  P x -> List.Forall P l -> List.Forall P (insert_sorted x l).
Proof.
  intros Hx Hl. induction Hl as [| y l Hy Hl IH]; simpl.
  - constructor; [exact Hx | constructor].
  - destruct (Qle_bool y x); constructor; try assumption.
    constructor; assumption.
Qed.

Lemma length_insert_sorted (x : Q) (l : list Q) :
  length (insert_sorted x l) = S (length l).
Proof.
  induction l as [| y l IH]; [reflexivity |]. simpl.
  destruct (Qle_bool y x); simpl; [rewrite IH |]; reflexivity.
Qed.

Lemma sorted_spec (P : Q -> Prop) (l : list Q) :
  List.Forall P l ->
  ascending (sorted l) = true
  /\ List.Forall P (sorted l)
  /\ length (sorted l) = length l.
Proof.
  unfold sorted.
  assert (H : forall acc,
             ascending acc = true -> List.Forall P acc -> List.Forall P l ->
             ascending (fold_left (fun acc x => insert_sorted x acc) l acc)
             = true
             /\ List.Forall P
                  (fold_left (fun acc x => insert_sorted x acc) l acc)
             /\ length (fold_left (fun acc x => insert_sorted x acc) l acc)
                = (length acc + length l)%nat).
  { induction l as [| x l IH]; intros acc Ha Hp Hl.
    - simpl. repeat split; [assumption | assumption | lia].
    - inversion Hl as [| ? ? Hx Hl']; subst. simpl.
      destruct (IH (insert_sorted x acc)) as [H1 [H2 H3]].
      + apply ascending_insert_sorted. exact Ha.
      + apply insert_sorted_Forall; assumption.
      + exact Hl'.
      + repeat split; [assumption | assumption |].
        rewrite H3, length_insert_sorted. lia. }
  intros Hl. apply (H [] eq_refl (List.Forall_nil P) Hl).
Qed.

(** Scaling by 100 in float64 keeps the order: rounding does. *)
Lemma ascending_scaled (l : list Q) :
  ascending l = true -> ascending (map (fun item => fmul item 100) l) = true.
Proof.
  induction l as [| x l IH]; intros H; [reflexivity |].
  destruct l as [| y l]; [reflexivity |].
  change (ascending (x :: y :: l)) with (Qle_bool x y && ascending (y :: l))
    in H.
  apply andb_true_iff in H. destruct H as [Hxy Hl].
  change (ascending (map (fun item => fmul item 100) (x :: y :: l)))
    with (Qle_bool (fmul x 100) (fmul y 100)
          && ascending (map (fun item => fmul item 100) (y :: l))).
  rewrite (IH Hl), andb_true_r.
  apply Qle_bool_iff. apply Qle_bool_iff in Hxy.
  unfold fmul, round64. apply round_to_le; [lia | lra].
Qed.

(** A loop that appends one value in every step. *)
Lemma for_each_append {A B : Type} (f : A -> B) (body : list B -> A -> result (list B))
    (l : list A) :
  (forall acc x, body acc x = Ok (acc ++ [f x])) ->
  forall acc, for_each l body acc = Ok (acc ++ map f l).
Proof.
  intros Hbody. induction l as [| x l IH]; intros acc.
  - simpl. rewrite app_nil_r. reflexivity.
  - simpl. rewrite Hbody. cbn [bind]. rewrite IH, <- app_assoc. reflexivity.
Qed.

(** X10: for a count N of at least one (and below 2^1023, where the float of
    N + 1 exists), random sampling returns N percentiles in ascending order
    and uses up N draws: the percentiles are the draws, each taken to the
    interval between the floats 1/(N+1) and N/(N+1), sorted and scaled by
    100. *)
Theorem choose_set_of_percentiles_random
    (N : Z) (st : random_state)
    (HN : (1 <= N)%Z) (Hfloat : (N < 2 ^ 1023)%Z) :
  exists lo hi percentiles,
    (let! d := py_float (1 + N) in py_truediv 1 d) = Ok lo
    /\ (let! d := py_float (1 + N) in
        let! n := py_float N in py_truediv n d) = Ok hi
    /\ choose_set_of_percentiles N "random" st
       = Ok (percentiles, fun i => st (i + Z.to_nat N)%nat)
    /\ percentiles
       = map (fun item => fmul item 100)
           (sorted (map (fun i => random_uniform lo hi (st i))
                      (seq 0 (Z.to_nat N))))
    /\ length percentiles = Z.to_nat N
    /\ ascending percentiles = true.
Proof.
  destruct (percentile_interval_ok N HN Hfloat) as [lo [hi [Hlo Hhi]]].
  exists lo, hi.
  set (draws := map (fun i => random_uniform lo hi (st i))
                  (seq 0 (Z.to_nat N))).
  destruct (sorted_spec (fun _ => True) draws) as [Hasc [_ Hlen]].
  { apply List.Forall_forall. intros p _. exact I. }
  exists (map (fun item => fmul item 100) (sorted draws)).
  split; [exact Hlo |]. split; [exact Hhi |].
  split; [| split; [reflexivity | split]].
  - unfold choose_set_of_percentiles.
    cbn [String.eqb Ascii.eqb Bool.eqb].
    rewrite (for_each_append (fun i => random_uniform lo hi (st i))).
    + reflexivity.
    + intros acc i.
      destruct (py_float (1 + N)) as [d | e]; [| discriminate Hlo].
      cbn [bind] in *. rewrite Hlo. cbn [bind].
      destruct (py_float N) as [n | e]; [| discriminate Hhi].
      cbn [bind] in *. rewrite Hhi. reflexivity.
  - rewrite length_map, Hlen. unfold draws.
    rewrite length_map, length_seq. reflexivity.
  - apply ascending_scaled. exact Hasc.
Qed.

Lemma choose_set_of_percentiles_random_witness :
  exists lo hi percentiles,
    (let! d := py_float (1 + 3) in py_truediv 1 d) = Ok lo
    /\ (let! d := py_float (1 + 3) in
        let! n := py_float 3 in py_truediv n d) = Ok hi
    /\ choose_set_of_percentiles 3 "random" example_random_state
       = Ok (percentiles, fun i => example_random_state (i + 3)%nat)
    /\ percentiles
       = map (fun item => fmul item 100)
           (sorted (map (fun i => random_uniform lo hi (example_random_state i))
                      (seq 0 3)))
    /\ length percentiles = 3%nat
    /\ ascending percentiles = true.
Proof.
  apply (choose_set_of_percentiles_random 3 example_random_state);
    [lia | vm_compute; reflexivity].
Defined.

(** With the draws 1/2, 0 and 7/8 the three percentiles are 25, 50 and
    68.75. *)
Example random_percentiles_of_three :
  choose_set_of_percentiles 3 "random" example_random_state
  = Ok ([25; 50; 275 # 4], fun i => example_random_state (i + 3)%nat).
Proof. vm_compute. reflexivity. Qed.

(** X11: the counts below one.  Quantile sampling raises the [ValueError] of
    [np.linspace] for a count of -2 or less (above -2^1023, where the float of
    the count exists) and a [ZeroDivisionError] for -1, and returns no
    percentile for 0; random sampling returns no percentile for every count
    of 0 or less, its loop running no step, and uses no draw. *)
Theorem choose_set_of_percentiles_small_counts (st : random_state) :
  (forall N, (- 2 ^ 1023 < N)%Z -> (N <= -2)%Z ->
     exists msg,
       choose_set_of_percentiles N "quantile" st = Raise (ValueError msg))
  /\ choose_set_of_percentiles (-1) "quantile" st
     = Raise (ZeroDivisionError "float division by zero")
  /\ choose_set_of_percentiles 0 "quantile" st = Ok ([], st)
  /\ (forall N, (N <= 0)%Z ->
        exists st',
          choose_set_of_percentiles N "random" st = Ok ([], st')
          /\ forall i, st' i = st i).
Proof.
  split; [| split; [| split]].
  - intros N Hmin HN. unfold choose_set_of_percentiles.
    cbn [String.eqb Ascii.eqb Bool.eqb].
    rewrite (py_float_ok (1 + N)), (py_float_ok N) by lia. cbn [bind].
    rewrite !py_truediv_ok by lia. cbn [bind]. unfold np_linspace.
    replace (N <? 0)%Z with true by (symmetry; apply Z.ltb_lt; lia).
    eexists. reflexivity.
  - vm_compute. reflexivity.
  - vm_compute. reflexivity.
  - intros N HN. unfold choose_set_of_percentiles.
    cbn [String.eqb Ascii.eqb Bool.eqb].
    replace (Z.to_nat N) with 0%nat by lia. simpl.
    eexists. split; [reflexivity |].
    intros i. simpl. f_equal. lia.
Qed.

Lemma choose_set_of_percentiles_small_counts_witness :
  (exists msg,
     choose_set_of_percentiles (-5) "quantile" example_random_state
     = Raise (ValueError msg))
  /\ exists st',
       choose_set_of_percentiles (-5) "random" example_random_state
       = Ok ([], st')
       /\ forall i, st' i = example_random_state i.
Proof.
  split.
  - apply (proj1 (choose_set_of_percentiles_small_counts
                    example_random_state)); [vm_compute; reflexivity | lia].
  - apply (proj2 (proj2 (proj2 (choose_set_of_percentiles_small_counts
                                  example_random_state)))). lia.
Defined.

Local Close Scope Q_scope.


(** ** Further properties of the endpoint padding *)

(** X12: for a one-dimensional array the result of
    [insert_lower_and_upper_endpoint_to_1d_array] has the dtype that numpy
    promotes the dtypes of the low endpoint, the array and the high endpoint
    to: the array's own dtype when the array is float64 and no endpoint is a
    Python object (an int beyond the 64-bit integers), and when both
    endpoints are of the array's dtype.  An array that is not one-dimensional
    makes [np.concatenate] raise a [ValueError]. *)
Theorem insert_lower_and_upper_endpoint_to_1d_array_dtype
    (array_1d : ndarray) (lo hi : number) :
  (ndim array_1d = 1%nat ->
   exists res,
     insert_lower_and_upper_endpoint_to_1d_array array_1d lo hi = Ok res
     /\ arr_dtype res
        = promote_types (promote_types (number_dtype lo) (arr_dtype array_1d))
            (number_dtype hi)
     /\ (arr_dtype array_1d = float64 ->
         number_dtype lo <> object_ -> number_dtype hi <> object_ ->
         arr_dtype res = float64)
     /\ (number_dtype lo = arr_dtype array_1d ->
         number_dtype hi = arr_dtype array_1d ->
         arr_dtype res = arr_dtype array_1d))
  /\ (ndim array_1d <> 1%nat ->
      exists msg,
        insert_lower_and_upper_endpoint_to_1d_array array_1d lo hi
        = Raise (ValueError msg)).
Proof.
  split.
  - intros H1.
    rewrite (insert_lower_and_upper_endpoint_to_1d_array_ok _ lo hi H1).
    eexists. split; [reflexivity |]. cbn [arr_dtype].
    split; [reflexivity |]. split.
    + intros -> Hlo Hhi.
      destruct (number_dtype lo), (number_dtype hi);
        reflexivity || contradiction.
    + intros -> ->. rewrite !promote_types_diag. reflexivity.
  - intros H1.
    unfold insert_lower_and_upper_endpoint_to_1d_array, np_concatenate_1d.
    cbn [forallb]. apply Nat.eqb_neq in H1. rewrite H1.
    rewrite andb_false_r. cbn [andb]. eexists. reflexivity.
Qed.

Lemma insert_lower_and_upper_endpoint_to_1d_array_dtype_witness :
  (exists res,
     insert_lower_and_upper_endpoint_to_1d_array
       (mk_ndarray float32 [2%nat] [1; 2]%Q) (NpScalar float32 0)
       (NpScalar float32 3) = Ok res
     /\ arr_dtype res = float32)
  /\ exists msg,
       insert_lower_and_upper_endpoint_to_1d_array
         (mk_ndarray float64 [1%nat; 2%nat] [1; 2]%Q) (PyFloat 0) (PyFloat 3)
       = Raise (ValueError msg).
Proof.
  split.
  - destruct (proj1 (insert_lower_and_upper_endpoint_to_1d_array_dtype
                       (mk_ndarray float32 [2%nat] [1; 2]%Q)
                       (NpScalar float32 0) (NpScalar float32 3)))
      as [res [Hrun [_ [_ Hsame]]]].
    + reflexivity.
    + exists res. split; [exact Hrun |]. apply Hsame; reflexivity.
  - apply (proj2 (insert_lower_and_upper_endpoint_to_1d_array_dtype
                    (mk_ndarray float64 [1%nat; 2%nat] [1; 2]%Q)
                    (PyFloat 0) (PyFloat 3))).
    discriminate.
Defined.

(** X13: the two variants agree row by row.  When both endpoints are of the
    dtype of a two-dimensional array, and finite there, every row of the
    result of [concatenate_2d_array_with_2d_array_endpoints] holds what
    [insert_lower_and_upper_endpoint_to_1d_array] returns for that row of the
    array, and both results have the dtype of the array. *)
Theorem endpoint_padding_2d_is_1d_on_rows
    (array_2d : ndarray) (lo hi : number) (r c : nat)
    (Hshape : arr_shape array_2d = [r; c])
    (Hsize : length (arr_flat array_2d) = (r * c)%nat)
    (Hlo : number_dtype lo = arr_dtype array_2d)
    (Hhi : number_dtype hi = arr_dtype array_2d)
    (Hlo_finite : representable (arr_dtype array_2d) (number_value lo) = true)
    (Hhi_finite : representable (arr_dtype array_2d) (number_value hi) = true) :
  exists res,
    concatenate_2d_array_with_2d_array_endpoints array_2d lo hi = Ok res
    /\ arr_dtype res = arr_dtype array_2d
    /\ length (rows res) = r
    /\ Forall2
         (fun row_in row_out =>
            exists res_1d,
              insert_lower_and_upper_endpoint_to_1d_array
                (mk_ndarray (arr_dtype array_2d) [c] row_in) lo hi
              = Ok res_1d
              /\ arr_dtype res_1d = arr_dtype array_2d
              /\ arr_flat res_1d = row_out)
         (rows array_2d) (rows res).
Proof.
  assert (Hclo : cast (arr_dtype array_2d) lo = Ok (number_value lo)).
  { unfold cast. rewrite Hlo_finite, Hlo, astype_same. reflexivity. }
  assert (Hchi : cast (arr_dtype array_2d) hi = Ok (number_value hi)).
  { unfold cast. rewrite Hhi_finite, Hhi, astype_same. reflexivity. }
  destruct (concatenate_2d_array_with_2d_array_endpoints_rows array_2d lo hi
              r c _ _ Hshape Hsize Hclo Hchi)
    as [res [Hrun [Hdtype [_ Hrows]]]].
  exists res. split; [exact Hrun |]. split; [exact Hdtype |].
  rewrite Hrows. split.
  - rewrite length_map. unfold rows, nrows. rewrite Hshape. simpl.
    rewrite length_map. apply length_seq.
  - clear Hrows. induction (rows array_2d) as [| rw l IH]; simpl.
    + constructor.
    + constructor; [| exact IH].
      rewrite (insert_lower_and_upper_endpoint_to_1d_array_ok
                 (mk_ndarray (arr_dtype array_2d) [c] rw) lo hi eq_refl).
      cbn [arr_dtype arr_flat]. rewrite Hlo, Hhi, !promote_types_diag.
      rewrite !astype_same, map_astype_same.
      eexists. split; [reflexivity |]. split; reflexivity.
Qed.

Lemma endpoint_padding_2d_is_1d_on_rows_witness :
  exists res,
    concatenate_2d_array_with_2d_array_endpoints
      (mk_ndarray float64 [2%nat; 2%nat] [1; 2; 3; 4]%Q) (PyFloat 0)
      (PyFloat 9) = Ok res
    /\ arr_dtype res = float64
    /\ length (rows res) = 2%nat
    /\ Forall2
         (fun row_in row_out =>
            exists res_1d,
              insert_lower_and_upper_endpoint_to_1d_array
                (mk_ndarray float64 [2%nat] row_in) (PyFloat 0) (PyFloat 9)
              = Ok res_1d
              /\ arr_dtype res_1d = float64
              /\ arr_flat res_1d = row_out)
         (rows (mk_ndarray float64 [2%nat; 2%nat] [1; 2; 3; 4]%Q)) (rows res).
Proof.
  apply (endpoint_padding_2d_is_1d_on_rows
           (mk_ndarray float64 [2%nat; 2%nat] [1; 2; 3; 4]%Q) (PyFloat 0)
           (PyFloat 9) 2 2); vm_compute; reflexivity.
Defined.


(** ** Further properties of the percentile cube *)

Lemma option_string_eqb_eq (a b : option string) :
  option_string_eqb a b = true -> a = b.
Proof.
  destruct a, b; simpl; try discriminate; try reflexivity.
  intros H. apply String.eqb_eq in H. subst. reflexivity.
Qed.

Lemma coord_defn_eqb_name (a b : Coord) :
  coord_defn_eqb a b = true -> coord_name a = coord_name b.
Proof.
  unfold coord_defn_eqb, coord_name. intros H.
  apply andb_true_iff in H. destruct H as [H _].
  apply andb_true_iff in H. destruct H as [H Hv].
  apply andb_true_iff in H. destruct H as [Hs Hl].
  apply option_string_eqb_eq in Hs, Hl, Hv. rewrite Hs, Hl, Hv. reflexivity.
Qed.

Lemma py_or_nonempty (a : option string) (b : string) :
  b <> EmptyString -> py_or a b <> EmptyString.
Proof.
  intros Hb. unfold py_or. destruct a as [s |]; [| exact Hb].
  destruct (String.eqb_spec s EmptyString); assumption.
Qed.

Lemma coord_name_percentile_coord (percentiles : list Q) (name : string) :
  name <> EmptyString ->
  coord_name (percentile_coord percentiles name) = name.
Proof.
  intros Hn. unfold coord_name, percentile_coord. simpl.
  apply String.eqb_neq in Hn. rewrite Hn. reflexivity.
Qed.

Lemma for_each_raises_only {A S : Type} (P : exception -> Prop)
    (body : S -> A -> result S) (l : list A) :
  (forall s x e, body s x = Raise e -> P e) ->
  forall s e, for_each l body s = Raise e -> P e.
Proof.
  intros Hbody. induction l as [| x l IH]; intros s e H; [discriminate |].
  simpl in H. destruct (body s x) as [s' | e'] eqn:Hb.
  - simpl in H. exact (IH s' e H).
  - simpl in H. injection H as <-. exact (Hbody s x e' Hb).
Qed.

Lemma for_each_preserves {A S : Type} (Inv : S -> Prop) (bad : A -> Prop)
    (body : S -> A -> result S) (l : list A) :
  (forall s x s', Inv s -> body s x = Ok s' -> Inv s' /\ ~ bad x) ->
  forall s s', Inv s -> for_each l body s = Ok s' ->
               Inv s' /\ List.Forall (fun x => ~ bad x) l.
Proof.
  intros Hbody. induction l as [| x l IH]; intros s s' Hs H.
  - simpl in H. injection H as <-. split; [exact Hs | constructor].
  - simpl in H. destruct (body s x) as [s1 | e] eqn:Hb; [| discriminate].
    simpl in H. destruct (Hbody s x s1 Hs Hb) as [Hs1 Hx].
    destruct (IH s1 s' Hs1 H) as [Hs' Hl].
    split; [exact Hs' | constructor; assumption].
Qed.

Lemma add_dim_coord_raises (c : Cube) (co : Coord) (d : nat) (e : exception) :
  add_dim_coord c co d = Raise e -> exists msg, e = ValueError msg.
Proof.
  unfold add_dim_coord.
  repeat match goal with
         | |- context [if ?b then _ else _] => destruct b
         end; intros H; try discriminate; injection H as <-; eexists;
    reflexivity.
Qed.

Lemma add_aux_coord_raises (c : Cube) (co : Coord) (ds : list nat)
    (e : exception) :
  add_aux_coord c co ds = Raise e -> exists msg, e = ValueError msg.
Proof.
  unfold add_aux_coord.
  repeat match goal with
         | |- context [if ?b then _ else _] => destruct b
         end; intros H; try discriminate; injection H as <-; eexists;
    reflexivity.
Qed.

Lemma DimCoord_raises (points : ndarray) (ln u vn : string) (e : exception) :
  DimCoord points ln u vn = Raise e -> exists msg, e = ValueError msg.
Proof.
  unfold DimCoord.
  repeat match goal with
         | |- context [if ?b then _ else _] => destruct b
         end; intros H; try discriminate; injection H as <-; eexists;
    reflexivity.
Qed.

(** The cube holds the coordinate [pc] among its dimension coordinates. *)
Lemma has_coord_of_dim_coord (c : Cube) (pc co : Coord) :
  In pc (map fst (dim_coords_and_dims c)) ->
  coord_defn_eqb pc co = true ->
  has_coord c co = true.
Proof.
  intros Hin Heq. unfold has_coord, all_coords_and_dims.
  apply existsb_exists. apply in_map_iff in Hin.
  destruct Hin as [cd [<- Hcd]].
  exists (fst cd, [snd cd]). split; [| exact Heq].
  apply in_or_app. left. apply in_map_iff. exists cd. split;
    [reflexivity | exact Hcd].
Qed.

Lemma add_dim_coord_keeps (pc : Coord) (c : Cube) (x : Coord * nat)
    (c' : Cube) :
  In pc (map fst (dim_coords_and_dims c)) ->
  add_dim_coord c (fst x) (snd x + 1) = Ok c' ->
  In pc (map fst (dim_coords_and_dims c'))
  /\ ~ coord_defn_eqb pc (fst x) = true.
Proof.
  intros Hin Hadd. split.
  - unfold add_dim_coord in Hadd.
    repeat match type of Hadd with
           | context [if ?b then _ else _] => destruct b
           end; try discriminate.
    injection Hadd as <-. simpl. rewrite map_app. apply in_or_app. left.
    exact Hin.
  - intros Heq. unfold add_dim_coord in Hadd.
    rewrite (has_coord_of_dim_coord c pc (fst x) Hin Heq) in Hadd.
    discriminate.
Qed.

Lemma add_aux_coord_keeps (pc : Coord) (c : Cube) (x : Coord * list nat)
    (c' : Cube) :
  In pc (map fst (dim_coords_and_dims c)) ->
  add_aux_coord c (fst x) (map (fun dim => (dim + 1)%nat) (snd x)) = Ok c' ->
  In pc (map fst (dim_coords_and_dims c'))
  /\ ~ coord_defn_eqb pc (fst x) = true.
Proof.
  intros Hin Hadd. split.
  - unfold add_aux_coord in Hadd.
    repeat match type of Hadd with
           | context [if ?b then _ else _] => destruct b
           end; try discriminate.
    injection Hadd as <-. simpl. exact Hin.
  - intros Heq. unfold add_aux_coord in Hadd.
    rewrite (has_coord_of_dim_coord c pc (fst x) Hin Heq) in Hadd.
    discriminate.
Qed.

Lemma set_units_raises (unit_is_valid : string -> bool) (c : Cube)
    (u : string) (e : exception) :
  set_units unit_is_valid c u = Raise e -> exists msg, e = ValueError msg.
Proof.
  unfold set_units. destruct (unit_is_valid u); [discriminate |].
  intros H. injection H as <-. eexists. reflexivity.
Qed.

(** Rounding to float32 does not put numbers in a strict order that they did
    not have. *)
Lemma strictly_increasing_round32 (l : list Q) :
  strictly_increasing (map round32 l) = true -> strictly_increasing l = true.
Proof.
  induction l as [| x l IH]; intros H; [reflexivity |].
  destruct l as [| y l]; [reflexivity |].
  change (strictly_increasing (map round32 (x :: y :: l)))
    with (Qlt_bool (round32 x) (round32 y)
          && strictly_increasing (map round32 (y :: l))) in H.
  apply andb_true_iff in H. destruct H as [Hxy Hl].
  change (strictly_increasing (x :: y :: l))
    with (Qlt_bool x y && strictly_increasing (y :: l)).
  rewrite (IH Hl), andb_true_r.
  unfold Qlt_bool in *. apply negb_true_iff. apply negb_true_iff in Hxy.
  destruct (Qle_bool y x) eqn:E; [| reflexivity].
  apply Qle_bool_iff in E.
  assert (Hr : (round32 y <= round32 x)%Q)
    by (unfold round32; apply round_to_le; [lia | exact E]).
  apply Qle_bool_iff in Hr. congruence.
Qed.

Lemma strictly_monotonic_round32 (l : list Q) :
  strictly_monotonic (map round32 l) = true -> strictly_monotonic l = true.
Proof.
  unfold strictly_monotonic. intros H. apply orb_true_iff in H.
  apply orb_true_iff. destruct H as [H | H].
  - left. apply strictly_increasing_round32. exact H.
  - right. rewrite <- map_rev in H. apply strictly_increasing_round32.
    exact H.
Qed.

(** X14: [create_cube_with_percentiles] has no check of its own; what the
    cube library refuses comes back as a [ValueError]: percentiles that are
    not strictly monotonic, and data whose first dimension is not the number
    of percentiles. *)
Theorem create_cube_with_percentiles_rejects
    (unit_is_valid : string -> bool)
    (percentiles : list Q) (template_cube : Cube) (cube_data : ndarray)
    (custom_name cube_unit : option string) :
  (percentiles <> [] -> strictly_monotonic percentiles = false ->
   exists msg,
     create_cube_with_percentiles unit_is_valid percentiles template_cube
       cube_data custom_name cube_unit = Raise (ValueError msg))
  /\ (percentiles <> [] -> strictly_monotonic percentiles = true ->
      nth 0 (arr_shape cube_data) 0%nat <> length percentiles ->
      exists msg,
        create_cube_with_percentiles unit_is_valid percentiles template_cube
          cube_data custom_name cube_unit = Raise (ValueError msg)).
Proof.
  split.
  - intros Hne Hmono. unfold create_cube_with_percentiles, DimCoord.
    unfold np_float32, ndim. cbn [arr_shape arr_flat length Nat.eqb negb].
    destruct (strictly_monotonic (map round32 percentiles)) eqn:Hr.
    + rewrite (strictly_monotonic_round32 _ Hr) in Hmono. discriminate.
    + simpl. eexists. reflexivity.
  - intros Hne Hmono Hlen. unfold create_cube_with_percentiles.
    destruct (DimCoord _ _ _ _) as [pc | e] eqn:Hpc.
    2:{ destruct (DimCoord_raises _ _ _ _ _ Hpc) as [msg ->].
        exists msg. reflexivity. }
    assert (Hpoints : arr_shape (coord_points pc) = [length percentiles]).
    { unfold DimCoord in Hpc.
      repeat match type of Hpc with
             | context [if ?b then _ else _] => destruct b
             end; try discriminate.
      injection Hpc as <-. reflexivity. }
    cbn [bind].
    match goal with
    | |- context [bind ?m _] => destruct m as [c0 | e] eqn:Hstart
    end.
    2:{ destruct cube_unit as [u |]; [| discriminate].
        destruct (set_units_raises _ _ _ _ Hstart) as [msg ->].
        exists msg. reflexivity. }
    cbn [bind].
    assert (Hc0 : dim_coords_and_dims c0 = [] /\ aux_coords_and_dims c0 = []
                  /\ derived_coords_and_dims c0 = []
                  /\ data c0 = cube_data).
    { destruct cube_unit as [u |].
      - unfold set_units in Hstart. destruct (unit_is_valid u);
          [| discriminate].
        injection Hstart as <-. repeat split.
      - injection Hstart as <-. repeat split. }
    destruct Hc0 as [Hd [Ha [Hr Hdata]]].
    assert (Hadd : exists msg, add_dim_coord c0 pc 0 = Raise (ValueError msg)).
    { unfold add_dim_coord, has_coord, all_coords_and_dims, shape.
      rewrite Hd, Ha, Hr, Hdata, Hpoints.
      apply Nat.eqb_neq in Hlen. rewrite Nat.eqb_sym in Hlen.
      cbn [map app existsb nth]. rewrite Hlen.
      destruct (negb _); eexists; reflexivity. }
    destruct Hadd as [msg ->]. exists msg. reflexivity.
Qed.

Lemma create_cube_with_percentiles_rejects_witness :
  (exists msg,
     create_cube_with_percentiles example_unit_is_valid [50; 10; 90]%Q
       example_template_33 (np_zeros [3; 3; 3]%nat) None None
     = Raise (ValueError msg))
  /\ exists msg,
       create_cube_with_percentiles example_unit_is_valid example_percentiles
         example_template_33 (np_zeros [3; 3; 3]%nat) None None
       = Raise (ValueError msg).
Proof.
  split.
  - apply (proj1 (create_cube_with_percentiles_rejects example_unit_is_valid
                    [50; 10; 90]%Q example_template_33
                    (np_zeros [3; 3; 3]%nat) None None));
      [discriminate | reflexivity].
  - apply (proj2 (create_cube_with_percentiles_rejects example_unit_is_valid
                    example_percentiles example_template_33
                    (np_zeros [3; 3; 3]%nat) None None));
      [discriminate | reflexivity | simpl; lia].
Defined.

(** X15: [create_cube_with_percentiles] raises a [ValueError] whenever the
    template already has a coordinate with the definition (names and unit) of
    the percentile coordinate: the cube refuses the duplicate. *)
Theorem create_cube_with_percentiles_rejects_duplicate
    (unit_is_valid : string -> bool)
    (percentiles : list Q) (template_cube : Cube) (cube_data : ndarray)
    (custom_name cube_unit : option string)
    (Hdup :
       List.Exists
         (fun co =>
            coord_defn_eqb
              (percentile_coord percentiles
                 (py_or custom_name "percentile_over_realization")) co = true)
         (all_coords template_cube)) :
  exists msg,
    create_cube_with_percentiles unit_is_valid percentiles template_cube
      cube_data custom_name cube_unit = Raise (ValueError msg).
Proof.
  set (pc := percentile_coord percentiles
               (py_or custom_name "percentile_over_realization")).
  assert (Honly : forall e,
             create_cube_with_percentiles unit_is_valid percentiles
               template_cube cube_data custom_name cube_unit = Raise e ->
             exists msg, e = ValueError msg).
  { intros e. unfold create_cube_with_percentiles.
    destruct (DimCoord _ _ _ _) as [pc' | e1] eqn:Hpc.
    2:{ simpl. intros H. injection H as <-.
        exact (DimCoord_raises _ _ _ _ _ Hpc). }
    cbn [bind].
    match goal with
    | |- context [bind ?m _] => destruct m as [c0 | e0] eqn:Hstart
    end.
    2:{ cbn [bind]. intros H. injection H as <-.
        destruct cube_unit as [u |]; [| discriminate].
        exact (set_units_raises _ _ _ _ Hstart). }
    simpl bind.
    destruct (add_dim_coord _ pc' 0) as [c1 | e1] eqn:H1.
    2:{ simpl. intros H. injection H as <-.
        exact (add_dim_coord_raises _ _ _ _ H1). }
    simpl bind.
    destruct (for_each (dim_coords_and_dims template_cube) _ c1)
      as [c2 | e2] eqn:H2.
    2:{ simpl. intros H. injection H as <-.
        apply (for_each_raises_only (fun e => exists msg, e = ValueError msg)
                 _ _ (fun s x e => add_dim_coord_raises s _ _ e) _ _ H2). }
    simpl bind.
    destruct (for_each (aux_coords_and_dims template_cube) _ c2)
      as [c3 | e3] eqn:H3.
    2:{ simpl. intros H. injection H as <-.
        apply (for_each_raises_only (fun e => exists msg, e = ValueError msg)
                 _ _ (fun s x e => add_aux_coord_raises s _ _ e) _ _ H3). }
    simpl bind.
    destruct (for_each (derived_coords_and_dims template_cube) _ c3)
      as [c4 | e4] eqn:H4.
    2:{ simpl. intros H. injection H as <-.
        apply (for_each_raises_only (fun e => exists msg, e = ValueError msg)
                 _ _ (fun s x e => add_aux_coord_raises s _ _ e) _ _ H4). }
    simpl. discriminate. }
  destruct (create_cube_with_percentiles unit_is_valid percentiles
              template_cube cube_data custom_name cube_unit)
    as [result | e] eqn:Hrun.
  2:{ destruct (Honly e eq_refl) as [msg ->]. exists msg. reflexivity. }
  exfalso. revert Hrun. unfold create_cube_with_percentiles.
  destruct (DimCoord _ _ _ _) as [pc' | e1] eqn:Hpc; [| discriminate].
  assert (pc' = pc) as ->.
  { unfold DimCoord in Hpc.
    repeat match type of Hpc with
           | context [if ?b then _ else _] => destruct b
           end; try discriminate.
    injection Hpc as <-. reflexivity. }
  cbn [bind].
  match goal with
  | |- context [bind ?m _] => destruct m as [c0 | e0] eqn:Hstart
  end; [| discriminate].
  simpl bind.
  destruct (add_dim_coord _ pc 0) as [c1 | e1] eqn:H1; [| discriminate].
  assert (Hin1 : In pc (map fst (dim_coords_and_dims c1))).
  { unfold add_dim_coord in H1.
    repeat match type of H1 with
           | context [if ?b then _ else _] => destruct b
           end; try discriminate.
    injection H1 as <-. simpl. rewrite map_app. apply in_or_app. right.
    left. reflexivity. }
  simpl bind.
  destruct (for_each (dim_coords_and_dims template_cube) _ c1)
    as [c2 | e2] eqn:H2; [| discriminate].
  destruct (for_each_preserves
              (fun c => In pc (map fst (dim_coords_and_dims c)))
              (fun x : Coord * nat => coord_defn_eqb pc (fst x) = true)
              _ _ (add_dim_coord_keeps pc) _ _ Hin1 H2) as [Hin2 Hno2].
  simpl bind.
  destruct (for_each (aux_coords_and_dims template_cube) _ c2)
    as [c3 | e3] eqn:H3; [| discriminate].
  destruct (for_each_preserves
              (fun c => In pc (map fst (dim_coords_and_dims c)))
              (fun x : Coord * list nat => coord_defn_eqb pc (fst x) = true)
              _ _ (add_aux_coord_keeps pc) _ _ Hin2 H3) as [Hin3 Hno3].
  simpl bind.
  destruct (for_each (derived_coords_and_dims template_cube) _ c3)
    as [c4 | e4] eqn:H4; [| discriminate].
  destruct (for_each_preserves
              (fun c => In pc (map fst (dim_coords_and_dims c)))
              (fun x : Coord * list nat => coord_defn_eqb pc (fst x) = true)
              _ _ (add_aux_coord_keeps pc) _ _ Hin3 H4) as [_ Hno4].
  intros _.
  apply List.Exists_exists in Hdup. destruct Hdup as [co [Hco Heq]].
  unfold all_coords in Hco.
  rewrite List.Forall_forall in Hno2, Hno3, Hno4.
  apply in_app_or in Hco. destruct Hco as [Hco | Hco].
  - apply in_map_iff in Hco. destruct Hco as [cd [<- Hcd]].
    exact (Hno2 cd Hcd Heq).
  - apply in_app_or in Hco. destruct Hco as [Hco | Hco];
      apply in_map_iff in Hco; destruct Hco as [cd [<- Hcd]].
    + exact (Hno3 cd Hcd Heq).
    + exact (Hno4 cd Hcd Heq).
Qed.

Lemma create_cube_with_percentiles_rejects_duplicate_witness :
  exists msg,
    create_cube_with_percentiles example_unit_is_valid example_percentiles
      (mk_Cube example_metadata (np_zeros [3; 3]%nat)
         [(example_coord "latitude" "degrees" 3, 0%nat)]
         [(mk_Coord None (Some "percentile_over_realization")
             (Some "percentile_over_realization") "%" (np_arange 1), [])]
         [])
      (np_zeros [10; 3; 3]%nat) None None
    = Raise (ValueError msg).
Proof.
  apply (create_cube_with_percentiles_rejects_duplicate
           example_unit_is_valid example_percentiles
           (mk_Cube example_metadata (np_zeros [3; 3]%nat)
              [(example_coord "latitude" "degrees" 3, 0%nat)]
              [(mk_Coord None (Some "percentile_over_realization")
                  (Some "percentile_over_realization") "%"
                  (np_arange 1), [])]
              [])
           (np_zeros [10; 3; 3]%nat) None None).
  apply List.Exists_cons_tl. apply List.Exists_cons_hd. reflexivity.
Defined.

Lemma filter_none {A : Type} (p : A -> bool) (l : list A) :
  List.Forall (fun x => p x = false) l -> List.filter p l = [].
Proof.
  intros H. induction H as [| x l Hx Hl IH]; [reflexivity |].
  simpl. rewrite Hx. exact IH.
Qed.

(** X16: the cube that [create_cube_with_percentiles] builds goes through
    [restore_non_probabilistic_dimensions] by the name of its percentile
    coordinate.  When the percentiles are strictly monotonic as float32
    numbers, the unit (if one is given) is one that the units library
    accepts, and no coordinate of the (consistent) template carries that
    name, an array of [output_length] times the size of the template is
    reshaped to [output_length] followed by the shape of the template, its
    elements in the same order. *)
Theorem restore_after_create_cube_with_percentiles
    (unit_is_valid : string -> bool) (repr_Cube : Cube -> string)
    (percentiles : list Q) (template_cube : Cube) (cube_data : ndarray)
    (custom_name cube_unit : option string)
    (array_to_reshape : ndarray) (output_length : nat)
    (Hmonotonic : monotonic_as_float32 percentiles = true)
    (Hunit :
       match cube_unit with
       | Some u => unit_is_valid u = true
       | None => True
       end)
    (Htemplate : Cube_wf template_cube)
    (Hshape : arr_shape cube_data = length percentiles :: shape template_cube)
    (Hnames :
       List.Forall
         (fun co =>
            coord_name co <> py_or custom_name "percentile_over_realization")
         (all_coords template_cube))
    (Hsize :
       prod_shape (output_length :: shape template_cube)
       = length (arr_flat array_to_reshape)) :
  exists cube res,
    create_cube_with_percentiles unit_is_valid percentiles template_cube
      cube_data custom_name cube_unit = Ok cube
    /\ restore_non_probabilistic_dimensions repr_Cube array_to_reshape cube
         (py_or custom_name "percentile_over_realization") output_length
       = Ok res
    /\ arr_shape res = output_length :: shape template_cube
    /\ arr_flat res = arr_flat array_to_reshape.
Proof.
  set (name := py_or custom_name "percentile_over_realization") in *.
  assert (Hname : name <> EmptyString)
    by (apply py_or_nonempty; discriminate).
  assert (Hpc : coord_name (percentile_coord percentiles name) = name)
    by (apply coord_name_percentile_coord; exact Hname).
  assert (Hfresh :
    List.Forall
      (fun co => coord_defn_eqb (percentile_coord percentiles name) co = false)
      (all_coords template_cube)).
  { apply List.Forall_forall. intros co Hco.
    rewrite List.Forall_forall in Hnames.
    apply not_true_is_false. intros Heq.
    apply coord_defn_eqb_name in Heq. rewrite Hpc in Heq.
    apply (Hnames co Hco). symmetry. exact Heq. }
  destruct (create_cube_with_percentiles_result unit_is_valid percentiles
              template_cube cube_data custom_name cube_unit Hmonotonic
              Htemplate Hshape Hfresh Hunit)
    as [c0 [Hrun [Hdata _]]].
  fold name in Hrun.
  set (cube :=
         mk_Cube (metadata c0) (data c0)
           ((percentile_coord percentiles name, 0%nat)
            :: map (fun cd => (fst cd, (snd cd + 1)%nat))
                 (dim_coords_and_dims template_cube))
           (map (fun cd => (fst cd, map (fun dim => (dim + 1)%nat) (snd cd)))
              (aux_coords_and_dims template_cube
               ++ derived_coords_and_dims template_cube))
           []) in *.
  assert (Hcs : shape cube = length percentiles :: shape template_cube)
    by (unfold shape, cube; cbn [data]; rewrite Hdata; exact Hshape).
  assert (Hdims : dim_coords_and_dims cube
                  = (percentile_coord percentiles name, 0%nat)
                    :: map (fun cd => (fst cd, (snd cd + 1)%nat))
                         (dim_coords_and_dims template_cube))
    by reflexivity.
  assert (Haux : aux_coords_and_dims cube
                 = map (fun cd =>
                          (fst cd, map (fun dim => (dim + 1)%nat) (snd cd)))
                     (aux_coords_and_dims template_cube
                      ++ derived_coords_and_dims template_cube))
    by reflexivity.
  assert (Hder : derived_coords_and_dims cube = []) by reflexivity.
  clearbody cube.
  assert (Hother : forall co, In co (all_coords template_cube) ->
                     String.eqb (coord_name co) name = false).
  { intros co Hco. rewrite List.Forall_forall in Hnames.
    apply String.eqb_neq. exact (Hnames co Hco). }
  assert (Hnd : named_dim_coords cube name
                = [(percentile_coord percentiles name, 0%nat)]).
  { unfold named_dim_coords. rewrite Hdims. simpl. rewrite Hpc.
    rewrite String.eqb_refl. f_equal. apply filter_none.
    apply List.Forall_forall. intros cd Hcd. apply in_map_iff in Hcd.
    destruct Hcd as [cd0 [<- Hcd0]]. simpl. apply Hother.
    unfold all_coords. apply in_or_app. left. apply in_map_iff.
    exists cd0. split; [reflexivity | exact Hcd0]. }
  assert (Hno : named_other_coords cube name = []).
  { unfold named_other_coords. rewrite Haux, Hder, app_nil_r.
    apply filter_none. apply List.Forall_forall. intros cd Hcd.
    apply in_map_iff in Hcd. destruct Hcd as [cd0 [<- Hcd0]]. simpl.
    apply Hother. unfold all_coords. apply in_or_app. right.
    rewrite <- map_app. apply in_map_iff. exists cd0.
    split; [reflexivity | exact Hcd0]. }
  exists cube. eexists. split; [exact Hrun |].
  destruct (restore_non_probabilistic_dimensions_cases repr_Cube
              array_to_reshape cube name output_length) as [Hfirst _].
  rewrite (Hfirst _ _ _ Hnd Hno Hcs), (np_reshape_ok _ _ Hsize).
  split; [reflexivity |]. split; reflexivity.
Qed.

Lemma restore_after_create_cube_with_percentiles_witness :
  exists cube res,
    create_cube_with_percentiles example_unit_is_valid example_percentiles
      example_template_33 (np_zeros [10; 3; 3]%nat) None None = Ok cube
    /\ restore_non_probabilistic_dimensions example_repr_Cube
         (np_zeros [4; 9]%nat) cube "percentile_over_realization" 4 = Ok res
    /\ arr_shape res = [4; 3; 3]%nat
    /\ arr_flat res = arr_flat (np_zeros [4; 9]%nat).
Proof.
  apply (restore_after_create_cube_with_percentiles example_unit_is_valid
           example_repr_Cube example_percentiles example_template_33
           (np_zeros [10; 3; 3]%nat) None None (np_zeros [4; 9]%nat) 4).
  - vm_compute. reflexivity.
  - exact I.
  - exact example_template_33_wf.
  - reflexivity.
  - repeat constructor; discriminate.
  - reflexivity.
Defined.

(** X17: a round trip.  When the named coordinate is the dimension
    coordinate of dimension 0 and nothing else carries the name, restoring an
    array that holds as many elements as the cube with the length the cube
    has along dimension 0 gives the cube's own shape; for the cube's own data
    flattened to two dimensions it gives back the cube's data. *)
Theorem restore_non_probabilistic_dimensions_round_trip
    (repr_Cube : Cube -> string) (array_to_reshape : ndarray)
    (original_cube : Cube) (name : string) (co : Coord) (n : nat)
    (rest : list nat)
    (Hdim : named_dim_coords original_cube name = [(co, 0%nat)])
    (Hother : named_other_coords original_cube name = [])
    (Hshape : shape original_cube = n :: rest)
    (Hsize : length (arr_flat array_to_reshape)
             = prod_shape (shape original_cube)) :
  restore_non_probabilistic_dimensions repr_Cube array_to_reshape
    original_cube name n
  = Ok (mk_ndarray (arr_dtype array_to_reshape) (shape original_cube)
          (arr_flat array_to_reshape))
  /\ (length (arr_flat (data original_cube))
      = prod_shape (shape original_cube) ->
      exists flat,
        np_reshape (data original_cube) [n; prod_shape rest] = Ok flat
        /\ restore_non_probabilistic_dimensions repr_Cube flat original_cube
             name n
           = Ok (data original_cube)).
Proof.
  destruct (restore_non_probabilistic_dimensions_cases repr_Cube
              array_to_reshape original_cube name n) as [Hfirst _].
  split.
  - rewrite (Hfirst co n rest Hdim Hother Hshape), Hshape.
    apply np_reshape_ok. rewrite Hsize, Hshape. reflexivity.
  - intros Hwf.
    assert (Hflat : prod_shape [n; prod_shape rest]
                    = length (arr_flat (data original_cube))).
    { rewrite Hwf, Hshape. simpl. lia. }
    rewrite (np_reshape_ok _ _ Hflat). eexists. split; [reflexivity |].
    destruct (restore_non_probabilistic_dimensions_cases repr_Cube
                (mk_ndarray (arr_dtype (data original_cube))
                   [n; prod_shape rest] (arr_flat (data original_cube)))
                original_cube name n) as [Hfirst' _].
    rewrite (Hfirst' co n rest Hdim Hother Hshape).
    rewrite np_reshape_ok by (simpl; rewrite Hwf, Hshape; reflexivity).
    simpl. unfold shape in Hshape. rewrite <- Hshape.
    destruct (data original_cube); reflexivity.
Qed.

Lemma restore_non_probabilistic_dimensions_round_trip_witness :
  restore_non_probabilistic_dimensions example_repr_Cube
    (np_zeros [5; 12]%nat) example_cube_543 "realization" 5
  = Ok (mk_ndarray float64 [5; 4; 3]%nat (arr_flat (np_zeros [5; 12]%nat))).
Proof.
  apply (proj1 (restore_non_probabilistic_dimensions_round_trip
                  example_repr_Cube (np_zeros [5; 12]%nat) example_cube_543
                  "realization" (example_coord "realization" "1" 5) 5
                  [4; 3]%nat eq_refl eq_refl eq_refl eq_refl)).
Defined.

(** X18: a name that is not unique.  When a dimension coordinate carries the
    name and one more coordinate of the cube carries it too, the lookup of
    the coordinate's dimensions raises the library's coordinate-not-found
    error, whichever dimension the dimension coordinate is on. *)
Theorem restore_non_probabilistic_dimensions_ambiguous_name
    (repr_Cube : Cube -> string) (array_to_reshape : ndarray)
    (original_cube : Cube) (name : string) (output_length : nat)
    (Hdim : named_dim_coords original_cube name <> [])
    (Htwo :
       (2 <= length (named_dim_coords original_cube name)
             + length (named_other_coords original_cube name))%nat) :
  exists msg,
    restore_non_probabilistic_dimensions repr_Cube array_to_reshape
      original_cube name output_length
    = Raise (CoordinateNotFoundError msg).
Proof.
  unfold restore_non_probabilistic_dimensions, coord_dims.
  rewrite coords_dim_named, all_coords_named.
  destruct (named_dim_coords original_cube name) as [| d1 ds];
    [contradiction |].
  simpl is_nonempty. cbv iota.
  destruct ds as [| d2 ds].
  - destruct (named_other_coords original_cube name) as [| o os];
      [simpl in Htwo; lia |].
    simpl. eexists. reflexivity.
  - simpl. eexists. reflexivity.
Qed.

Lemma restore_non_probabilistic_dimensions_ambiguous_name_witness :
  exists msg,
    restore_non_probabilistic_dimensions example_repr_Cube
      (np_zeros [5; 12]%nat)
      (mk_Cube example_metadata (np_zeros [5; 4; 3]%nat)
         [(example_coord "realization" "1" 5, 0%nat)]
         [(mk_Coord None (Some "realization") None "m" (np_arange 4),
           [1%nat])]
         [])
      "realization" 5
    = Raise (CoordinateNotFoundError msg).
Proof.
  apply (restore_non_probabilistic_dimensions_ambiguous_name
           example_repr_Cube (np_zeros [5; 12]%nat)
           (mk_Cube example_metadata (np_zeros [5; 4; 3]%nat)
              [(example_coord "realization" "1" 5, 0%nat)]
              [(mk_Coord None (Some "realization") None "m" (np_arange 4),
                [1%nat])]
              [])
           "realization" 5).
  - discriminate.
  - simpl. lia.
Defined.

(** Numbers strictly between 0 and 100 have a finite float32 value. *)
Lemma percent_is_finite_float32 (p : Q) :
  (0 < p)%Q -> (p < 100)%Q -> Qle_bool (Qabs p) float32_max = true.
Proof.
  intros H0 H100. apply Qle_bool_iff. rewrite Qabs_pos by lra.
  assert (H : (100 <= float32_max)%Q) by (vm_compute; discriminate).
  lra.
Qed.

(** X19: the quantile percentiles fit the percentile cube.  For a count N
    from one to [checked_counts], a consistent template none of whose
    coordinates carries the name of the percentile coordinate, data of shape
    N followed by the shape of the template, and a unit (if one is given)
    that the units library accepts, [create_cube_with_percentiles] accepts
    the percentiles of [choose_set_of_percentiles] in quantile mode and
    returns a cube of the shape of the data. *)
Theorem create_cube_with_quantile_percentiles
    (unit_is_valid : string -> bool)
    (N : Z) (st : random_state) (template_cube : Cube) (cube_data : ndarray)
    (custom_name cube_unit : option string)
    (HN : (1 <= N <= Z.of_nat checked_counts)%Z)
    (Hunit :
       match cube_unit with
       | Some u => unit_is_valid u = true
       | None => True
       end)
    (Htemplate : Cube_wf template_cube)
    (Hshape : arr_shape cube_data = Z.to_nat N :: shape template_cube)
    (Hnames :
       List.Forall
         (fun co =>
            coord_name co <> py_or custom_name "percentile_over_realization")
         (all_coords template_cube)) :
  exists percentiles cube,
    choose_set_of_percentiles N "quantile" st = Ok (percentiles, st)
    /\ create_cube_with_percentiles unit_is_valid percentiles template_cube
         cube_data custom_name cube_unit = Ok cube
    /\ shape cube = Z.to_nat N :: shape template_cube
    /\ data cube = cube_data.
Proof.
  destruct (quantile_percentiles_checked_at N HN)
    as [percentiles [Hrun Hok]].
  destruct (quantile_percentiles_ok_spec N percentiles Hok)
    as [Hlen [_ [Hrange [_ Hinc32]]]].
  exists percentiles.
  assert (Hmono : monotonic_as_float32 percentiles = true).
  { unfold monotonic_as_float32, strictly_monotonic.
    rewrite Hinc32, andb_true_r. apply forallb_forall. intros p Hp.
    rewrite List.Forall_forall in Hrange. destruct (Hrange p Hp) as [H0 H1].
    exact (percent_is_finite_float32 p H0 H1). }
  set (name := py_or custom_name "percentile_over_realization") in *.
  assert (Hname : name <> EmptyString)
    by (apply py_or_nonempty; discriminate).
  assert (Hfresh :
    List.Forall
      (fun co => coord_defn_eqb (percentile_coord percentiles name) co = false)
      (all_coords template_cube)).
  { apply List.Forall_forall. intros co Hco.
    rewrite List.Forall_forall in Hnames.
    apply not_true_is_false. intros Heq.
    apply coord_defn_eqb_name in Heq.
    rewrite (coord_name_percentile_coord percentiles name Hname) in Heq.
    apply (Hnames co Hco). symmetry. exact Heq. }
  assert (Hlen' : length percentiles = Z.to_nat N) by lia.
  rewrite <- Hlen' in Hshape.
  destruct (create_cube_with_percentiles_result unit_is_valid percentiles
              template_cube cube_data custom_name cube_unit Hmono Htemplate
              Hshape Hfresh Hunit) as [c0 [Hcreate [Hdata _]]].
  eexists. rewrite choose_set_of_percentiles_quantile_state, Hrun.
  split; [reflexivity |]. split; [exact Hcreate |].
  unfold shape. cbn [data]. rewrite Hdata, <- Hlen'.
  split; [exact Hshape | reflexivity].
Qed.

Lemma create_cube_with_quantile_percentiles_witness :
  exists percentiles cube,
    choose_set_of_percentiles 10 "quantile" example_random_state
    = Ok (percentiles, example_random_state)
    /\ create_cube_with_percentiles example_unit_is_valid percentiles
         example_template_33 (np_zeros [10; 3; 3]%nat) None None = Ok cube
    /\ shape cube = [10; 3; 3]%nat
    /\ data cube = np_zeros [10; 3; 3]%nat.
Proof.
  apply (create_cube_with_quantile_percentiles example_unit_is_valid 10
           example_random_state example_template_33
           (np_zeros [10; 3; 3]%nat) None None).
  - vm_compute. split; discriminate.
  - exact I.
  - exact example_template_33_wf.
  - reflexivity.
  - repeat constructor; discriminate.
Defined.

Lemma set_coord_points_same (cube : Vertical.Cube) (name : string)
    (points : list Q) :
  Vertical.coord_points cube name = Ok points ->
  Vertical.set_coord_points cube name points = cube.
Proof.
  unfold Vertical.coord_points, Vertical.set_coord_points.
  destruct cube as [cs d]. simpl.
  destruct (List.filter (fun c => String.eqb (fst c) name) cs)
    as [| c0 [| c1 l]] eqn:Hf; try discriminate.
  intros H. injection H as <-. f_equal.
  assert (Hall : forall c, In c cs -> String.eqb (fst c) name = true ->
                           c = c0).
  { intros c Hc Hn.
    assert (Hin : In c (List.filter (fun c => String.eqb (fst c) name) cs))
      by (apply filter_In; split; assumption).
    rewrite Hf in Hin. destruct Hin as [<- | []]. reflexivity. }
  clear Hf. induction cs as [| c cs IH]; [reflexivity |]. simpl.
  rewrite IH by (intros c' Hc'; apply Hall; right; exact Hc').
  f_equal. destruct (String.eqb (fst c) name) eqn:E; [| reflexivity].
  rewrite <- (Hall c (or_introl eq_refl) E). destruct c; reflexivity.
Qed.

Lemma strictly_both_rev (l : list Q) :
  strictly_increasing l = true -> strictly_decreasing l = true -> rev l = l.
Proof.
  destruct l as [| x [| y l]]; try reflexivity.
  change (strictly_increasing (x :: y :: l))
    with (Qlt_bool x y && strictly_increasing (y :: l)).
  change (strictly_decreasing (x :: y :: l))
    with (Qlt_bool y x && strictly_decreasing (y :: l)).
  intros H1 H2. apply andb_true_iff in H1, H2.
  destruct H1 as [H1 _], H2 as [H2 _]. unfold Qlt_bool in *.
  apply negb_true_iff in H1. apply negb_true_iff in H2.
  apply Qle_bool_false_le in H1. congruence.
Qed.

(** X20: on a coordinate whose points are strictly increasing or strictly
    decreasing, [ensure_monotonic_in_chosen_direction] is idempotent: applied
    to its own result it returns that result. *)
Theorem ensure_monotonic_in_chosen_direction_idempotent
    (self : Vertical.VerticalIntegration) (cube : Vertical.Cube)
    (points : list Q)
    (Hpoints :
       Vertical.coord_points cube (Vertical.coord_name_to_integrate self)
       = Ok points)
    (Hmonotonic :
       strictly_increasing points = true \/ strictly_decreasing points = true) :
  exists cube',
    Vertical.ensure_monotonic_in_chosen_direction self cube = Ok cube'
    /\ Vertical.ensure_monotonic_in_chosen_direction self cube' = Ok cube'.
Proof.
  destruct (ensure_monotonic_in_chosen_direction_oriented self cube points
              Hpoints) as [cube' [Hrun [Hp' _]]].
  exists cube'. split; [exact Hrun |].
  assert (Hor : oriented self points = points
                \/ oriented self points = rev points).
  { unfold oriented.
    repeat match goal with
           | |- context [if ?b then _ else _] => destruct b
           end; auto. }
  assert (Hmono' : strictly_increasing (oriented self points) = true
                   \/ strictly_decreasing (oriented self points) = true).
  { destruct Hor as [-> | ->]; [exact Hmonotonic |].
    rewrite strictly_increasing_rev, strictly_decreasing_rev.
    destruct Hmonotonic; auto. }
  assert (Hup : Vertical.direction_of_integration self = "upwards" ->
                strictly_increasing (oriented self points) = true).
  { intros Hdir. unfold oriented. rewrite np_diff_positive, Hdir. simpl.
    destruct (strictly_increasing points) eqn:E; simpl; [exact E |].
    destruct Hmonotonic as [H | H]; [discriminate |].
    rewrite strictly_increasing_rev. exact H. }
  assert (Hdown : Vertical.direction_of_integration self = "downwards" ->
                  strictly_decreasing (oriented self points) = true).
  { intros Hdir. unfold oriented. rewrite np_diff_positive, Hdir. simpl.
    destruct (strictly_increasing points) eqn:E; simpl.
    - rewrite strictly_decreasing_rev. exact E.
    - destruct Hmonotonic as [H | H]; [discriminate | exact H]. }
  unfold Vertical.ensure_monotonic_in_chosen_direction.
  rewrite Hp'. simpl bind. rewrite np_diff_positive.
  destruct (String.eqb_spec (Vertical.direction_of_integration self) "upwards")
    as [Hu | Hu].
  - rewrite (Hup Hu). reflexivity.
  - rewrite !andb_false_r.
    destruct (String.eqb_spec (Vertical.direction_of_integration self)
                "downwards") as [Hd | Hd].
    + destruct (strictly_increasing (oriented self points)) eqn:E; simpl;
        [| reflexivity].
      rewrite (strictly_both_rev _ E (Hdown Hd)).
      rewrite (set_coord_points_same _ _ _ Hp'). reflexivity.
    + rewrite !andb_false_r. reflexivity.
Qed.

Lemma ensure_monotonic_in_chosen_direction_idempotent_witness :
  exists cube',
    Vertical.ensure_monotonic_in_chosen_direction example_start_15
      example_descending_cube = Ok cube'
    /\ Vertical.ensure_monotonic_in_chosen_direction example_start_15 cube'
       = Ok cube'.
Proof.
  apply (ensure_monotonic_in_chosen_direction_idempotent example_start_15
           example_descending_cube [30; 20; 10]%Q).
  - reflexivity.
  - right. reflexivity.
Defined.


